(** * update_index_md.py: the index updater of the DSA repository

    A shallow embedding of [.github/scripts/update_index_md.py] (class
    [UpdateFileContent]) and the properties its specification states.

    Conventions of the embedding.
    - A Python [str] is a [string]; each [ascii] stands for one code point,
      so the model carries the code points below 256.  [String.leb] compares
      code point by code point, as Python does.
    - [self.lines] is a [list string], threaded explicitly through the two
      update methods.
    - [self.DATA] (the parsed JSON log, a dict in insertion order) is an
      association list from titles to records.
    - [exit(n)] and an uncaught exception both end the run; they are the
      [Exit] and [Raise] results of the [outcome] type. *)

From Stdlib Require Import String Ascii List ZArith Lia Bool Arith PeanoNat.
From Stdlib Require Import DecimalString Sorted Permutation OrderedTypeEx.
Import ListNotations.
Local Open Scope list_scope.
Local Open Scope string_scope.

(** ** Results of a run *)

Inductive exn : Type :=
| KeyError (key : string)
| TypeError.

Inductive outcome (A : Type) : Type :=
| Ok (a : A)
| Exit (code : Z)
| Raise (e : exn).

Arguments Ok {A} a.
Arguments Exit {A} code.
Arguments Raise {A} e.

Definition bind {A B : Type} (m : outcome A) (k : A -> outcome B) : outcome B :=
  match m with
  | Ok a => k a
  | Exit c => Exit c
  | Raise e => Raise e
  end.

Notation "x <- m ;; k" := (bind m (fun x => k))
  (at level 61, m at next level, right associativity).
Notation "' p <- m ;; k" := (bind m (fun p => k))
  (at level 61, p pattern, m at next level, right associativity).

(** ** Python strings and lists *)

Module Py.

Definition dq : string := String (ascii_of_nat 34) EmptyString.
Definition nl : string := String (ascii_of_nat 10) EmptyString.
Definition tab : string := String (ascii_of_nat 9) EmptyString.

(** [sub in s] on strings. *)
Fixpoint str_in (sub s : string) : bool :=
  String.prefix sub s ||
  match s with
  | EmptyString => false
  | String _ s' => str_in sub s'
  end.

(** [str.isspace] on one code point below 256: the code points 9 to 13,
    28 to 32, 133 and 160. *)
Definition isspace (c : ascii) : bool :=
  let n := nat_of_ascii c in
  (Nat.leb 9 n && Nat.leb n 13) || (Nat.leb 28 n && Nat.leb n 32)
  || Nat.eqb n 133 || Nat.eqb n 160.

(** [s.split()]: the maximal runs of characters that are not whitespace.
    [cur] is the run being read. *)
Fixpoint split_from (cur s : string) : list string :=
  match s with
  | EmptyString => if String.eqb cur EmptyString then [] else [cur]
  | String c s' =>
      if isspace c
      then (if String.eqb cur EmptyString then split_from EmptyString s'
            else cur :: split_from EmptyString s')
      else split_from (cur ++ String c EmptyString) s'
  end.

Definition split (s : string) : list string := split_from EmptyString s.

(** [sep.join(l)]. *)
Definition join (sep : string) (l : list string) : string :=
  String.concat sep l.

(** [x in l] on a list of strings. *)
Definition list_in (x : string) (l : list string) : bool :=
  existsb (String.eqb x) l.

(** [l[i:j] = x] for indices that are not negative: both are clamped to
    the length, and a stop before the start is moved up to the start. *)
Definition slice_assign {A : Type} (l : list A) (i j : nat) (x : list A)
  : list A :=
  let ilow := Nat.min i (length l) in
  let ihigh := Nat.max ilow (Nat.min j (length l)) in
  firstn ilow l ++ x ++ skipn ihigh l.

(** [str(n)] for an integer. *)
Definition str_of_int (n : Z) : string :=
  NilZero.string_of_int (Z.to_int n).

(** [l.sort()] and [sorted(l)] on strings: a stable insertion sort. *)
Fixpoint insert_str (x : string) (l : list string) : list string :=
  match l with
  | [] => [x]
  | y :: l' => if String.leb x y then x :: l else y :: insert_str x l'
  end.

Fixpoint sort_str (l : list string) : list string :=
  match l with
  | [] => []
  | x :: l' => insert_str x (sort_str l')
  end.

(** A dict in insertion order. *)
Section Dict.
Variable V : Type.

Definition dict : Type := list (string * V).

Fixpoint get (k : string) (d : dict) : option V :=
  match d with
  | [] => None
  | (k', v) :: d' => if String.eqb k k' then Some v else get k d'
  end.

(** [d[k] = v]: a key already there keeps its place. *)
Fixpoint set (k : string) (v : V) (d : dict) : dict :=
  match d with
  | [] => [(k, v)]
  | (k', v') :: d' =>
      if String.eqb k k' then (k, v) :: d' else (k', v') :: set k v d'
  end.

(** [sorted(d.items())]: the keys of a dict differ, so the order of the
    pairs is the order of the keys. *)
Fixpoint insert_item (x : string * V) (l : dict) : dict :=
  match l with
  | [] => [x]
  | y :: l' =>
      if String.leb (fst x) (fst y) then x :: l else y :: insert_item x l'
  end.

Fixpoint sorted_items (d : dict) : dict :=
  match d with
  | [] => []
  | x :: d' => insert_item x (sorted_items d')
  end.
End Dict.

Arguments get {V} k d.
Arguments set {V} k v d.
Arguments insert_item {V} x l.
Arguments sorted_items {V} d.

End Py.

(** ** The data model *)

(** An element of [pull-request-number]: a JSON integer or a JSON string,
    the two kinds the log holds. *)
Inductive pr_number : Type :=
| PrInt (n : Z)
| PrStr (s : string).

Definition fmt_pr (pr : pr_number) : string :=
  match pr with
  | PrInt n => Py.str_of_int n
  | PrStr s => s
  end.

(** The value of one entry of the contributors log, with the five fields
    the script reads. *)
Record details : Type := {
  core : string;
  specificity : string;
  contributor_name : list string;
  pull_request_number : list pr_number;
  demo_path : string
}.

(** [DATA.items()] *)
Definition log : Type := list (string * details).

(** [condition]: [None], or a predicate on the core contribution. *)
Definition condition : Type := option (string -> bool).

(** [REPO_NAME] comes from [os.environ.get], which is [None] when the
    variable is not set; an f-string prints that as [None]. *)
Definition fmt_repo (REPO_NAME : option string) : string :=
  match REPO_NAME with
  | Some r => r
  | None => "None"
  end.

(** ** find_table_points *)

Definition CONTRIBUTORS_BEGINS : string := "<!-- TABLE OF CONTRIBUTORS BEGINS -->".
Definition CONTRIBUTORS_ENDS : string := "<!-- TABLE OF CONTRIBUTORS ENDS -->".
Definition CONTENT_BEGINS : string := "<!-- TABLE OF CONTENT BEGINS -->".
Definition CONTENT_ENDS : string := "<!-- TABLE OF CONTENT ENDS -->".

Definition select_markers (search_type : string) : outcome (string * string) :=
  if String.eqb search_type "contributors"
  then Ok (CONTRIBUTORS_BEGINS, CONTRIBUTORS_ENDS)
  else if String.eqb search_type "table-of-content"
  then Ok (CONTENT_BEGINS, CONTENT_ENDS)
  else Exit 1.

Definition is_none {A : Type} (o : option A) : bool :=
  match o with None => true | Some _ => false end.

Definition is_some {A : Type} (o : option A) : bool := negb (is_none o).

(** One turn of the loop over [enumerate(self.lines)]: the [if]/[elif] that
    records an index. *)
Definition scan_line (table_start_marker table_end_marker line : string)
    (index : nat) (pts : option nat * option nat) : option nat * option nat :=
  let '(table_starting_point, table_ending_point) := pts in
  if is_none table_starting_point && Py.str_in table_start_marker line
  then (Some index, table_ending_point)
  else if is_none table_ending_point && Py.str_in table_end_marker line
  then (table_starting_point, Some index)
  else pts.

(** The loop, with its [break] once both points are set. *)
Fixpoint scan_lines (table_start_marker table_end_marker : string)
    (lines : list string) (index : nat) (pts : option nat * option nat)
  : option nat * option nat :=
  match lines with
  | [] => pts
  | line :: rest =>
      let pts' := scan_line table_start_marker table_end_marker line index pts in
      if is_some (fst pts') && is_some (snd pts') then pts'
      else scan_lines table_start_marker table_end_marker rest (S index) pts'
  end.

Definition check_points (pts : option nat * option nat) : outcome (nat * nat) :=
  match pts with
  | (Some table_starting_point, Some table_ending_point) =>
      if Nat.leb table_ending_point table_starting_point then Exit 3
      else Ok (table_starting_point, table_ending_point)
  | _ => Exit 2
  end.

Definition find_table_points (lines : list string) (search_type : string)
  : outcome (nat * nat) :=
  '(table_start_marker, table_end_marker) <- select_markers search_type ;;
  check_points
    (scan_lines table_start_marker table_end_marker lines 0 (None, None)).

(** ** update_table_of_contributors *)

(** The markdown link [[label](target "tooltip")], the shape of every link
    the script prints. *)
Definition md_link (label target tooltip : string) : string :=
  "[" ++ label ++ "](" ++ target ++ " " ++ Py.dq ++ tooltip ++ Py.dq ++ ")".

Definition table_header (cond : condition) : list string :=
  match cond with
  | None =>
      [ "| Contribution Title | Core Contribution | Contributor Names | Pull Requests | Demo |" ++ Py.nl;
        "| --- | --- | --- | --- | --- |" ++ Py.nl ]
  | Some _ =>
      [ "| Contribution Title | Contributor Names | Pull Requests | Demo |" ++ Py.nl;
        "| --- | --- | --- | --- |" ++ Py.nl ]
  end.

(** Processing contributors-names *)
Definition contributors_names_output (contributors_names : list string) : string :=
  Py.join ", "
    (map (fun name => md_link name ("https://github.com/" ++ name)
                        ("goto " ++ name ++ " profile"))
         contributors_names).

(** Processing core contribution *)
Definition core_contribution_output (core_contribution : string) : string :=
  if negb (String.eqb core_contribution "Repo")
  then md_link core_contribution core_contribution ("goto " ++ core_contribution)
  else "Repo".

(** Processing pull-requests *)
Definition pull_requests_output (REPO_NAME : option string)
    (pull_requests : list pr_number) : string :=
  Py.join ", "
    (map (fun pr => md_link ("#" ++ fmt_pr pr)
                      ("https://github.com/" ++ fmt_repo REPO_NAME ++ "/pull/" ++ fmt_pr pr)
                      ("visit pr \#" ++ fmt_pr pr))
         pull_requests).

(** Processing demo-path: the link target *)
Definition demo_target (demo_path : string) : string :=
  if Py.str_in " " demo_path
  then Py.join "%20" (Py.split demo_path)
  else demo_path.

(** Processing demo-path: the whole cell *)
Definition demo_path_output (REPO_NAME : option string) (title : string)
    (d : details) : string :=
  let demo_path := demo_target (demo_path d) in
  let tooltip := "view the result of " ++ title in
  if String.eqb title "root" || String.eqb title "{init}"
  then md_link ("/" ++ fmt_repo REPO_NAME ++ "/") demo_path tooltip
  else if String.eqb title "{workflows}"
  then md_link ("/" ++ fmt_repo REPO_NAME ++ "/.github/workflows") demo_path tooltip
  else if String.eqb title "{scripts}"
  then md_link ("/" ++ fmt_repo REPO_NAME ++ "/.github/scripts") demo_path tooltip
  else if String.eqb title "{others}"
  then md_link ("/" ++ fmt_repo REPO_NAME ++ "/.github") demo_path tooltip
  else md_link ("./" ++ core d ++ "/" ++ specificity d ++ "/") demo_path tooltip.

(** Appending all data together: the row of one entry *)
Definition contributor_row (cond : condition) (REPO_NAME : option string)
    (title : string) (d : details) : string :=
  match cond with
  | None =>
      "| " ++ title ++ " | " ++ core_contribution_output (core d)
      ++ " | " ++ contributors_names_output (contributor_name d)
      ++ " | " ++ pull_requests_output REPO_NAME (pull_request_number d)
      ++ " | " ++ demo_path_output REPO_NAME title d ++ " |" ++ Py.nl
  | Some _ =>
      "| " ++ title
      ++ " | " ++ contributors_names_output (contributor_name d)
      ++ " | " ++ pull_requests_output REPO_NAME (pull_request_number d)
      ++ " | " ++ demo_path_output REPO_NAME title d ++ " |" ++ Py.nl
  end.

(** [condition is not None and not condition(core)] *)
Definition rejects (cond : condition) (c : string) : bool :=
  match cond with
  | None => false
  | Some f => negb (f c)
  end.

(** The loop over [self.DATA.items()]; the state is [updated_lines] and
    [has_at_least_one_entry]. *)
Fixpoint contributor_loop (cond : condition) (REPO_NAME : option string)
    (DATA : log) (st : list string * bool) : list string * bool :=
  match DATA with
  | [] => st
  | (title, d) :: rest =>
      if rejects cond (core d)
      then contributor_loop cond REPO_NAME rest st
      else contributor_loop cond REPO_NAME rest
             ((fst st ++ [contributor_row cond REPO_NAME title d])%list, true)
  end.

Definition null_entry (cond : condition) : string :=
  match cond with
  | None => "| - | - | - | - | - |" ++ Py.nl
  | Some _ => "| - | - | - | - |" ++ Py.nl
  end.

(** [updated_lines] as it stands when the slice is assigned. *)
Definition contributor_lines (cond : condition) (REPO_NAME : option string)
    (DATA : log) : list string :=
  let '(updated_lines, has_at_least_one_entry) :=
    contributor_loop cond REPO_NAME DATA ([], false) in
  if negb has_at_least_one_entry
  then (updated_lines ++ [null_entry cond])%list
  else updated_lines.

Definition update_table_of_contributors (cond : condition)
    (REPO_NAME : option string) (DATA : log) (lines : list string)
  : outcome (list string) :=
  '(table_of_contributors_start, table_of_contributors_end) <-
      find_table_points lines "contributors" ;;
  let lines :=
    if Nat.eqb (table_of_contributors_end - table_of_contributors_start) 1
    then Py.slice_assign lines (table_of_contributors_start + 1)
           table_of_contributors_end (table_header cond)
    else lines in
  Ok (Py.slice_assign lines (table_of_contributors_start + 3)
        table_of_contributors_end (contributor_lines cond REPO_NAME DATA)).

(** ** update_table_of_content *)

(** The value kept under a specificity: [None], or the list of titles. *)
Definition sub_headings : Type := option (list string).

Definition table_of_content_t : Type := Py.dict (Py.dict sub_headings).

Definition skeleton : table_of_content_t :=
  [("Theory", []); ("Solved-Problems", []); ("Repo", [])].

(** [table_of_content[core]] *)
Definition lookup_core (core : string) (toc : table_of_content_t)
  : outcome (Py.dict sub_headings) :=
  match Py.get core toc with
  | Some by_specificity => Ok by_specificity
  | None => Raise (KeyError core)
  end.

(** [title not in v], where [v] is the value kept under a specificity *)
Definition title_not_in (title : string) (v : sub_headings) : outcome bool :=
  match v with
  | None => Raise TypeError
  | Some titles => Ok (negb (Py.list_in title titles))
  end.

(** Sorting out required data: the body of the loop for one entry *)
Definition extract_entry (title : string) (data : details)
    (toc : table_of_content_t) : outcome table_of_content_t :=
  let core := core data in
  let specificity := specificity data in
  by_specificity <- lookup_core core toc ;;
  match Py.get specificity by_specificity with
  | None =>
      Ok (Py.set core
            (Py.set specificity
               (if String.eqb specificity title then None else Some [title])
               by_specificity)
            toc)
  | Some v =>
      if negb (String.eqb title specificity)
      then
        fresh <- title_not_in title v ;;
        if fresh
        then
          Ok (Py.set core
                (Py.set specificity
                   (match v with
                    | None => Some [title]
                    | Some titles => Some (titles ++ [title])%list
                    end)
                   by_specificity)
                toc)
        else Ok toc
      else Ok toc
  end.

(** Extracting data into required format *)
Fixpoint extract (DATA : log) (toc : table_of_content_t)
  : outcome table_of_content_t :=
  match DATA with
  | [] => Ok toc
  | (title, data) :: rest =>
      toc' <- extract_entry title data toc ;;
      extract rest toc'
  end.

(** Sorting extracted data *)
Definition sort_sub_value (v : sub_headings) : sub_headings :=
  match v with
  | Some titles => Some (Py.sort_str titles)
  | None => None
  end.

Definition sort_value (value : Py.dict sub_headings) : Py.dict sub_headings :=
  Py.sorted_items (map (fun kv => (fst kv, sort_sub_value (snd kv))) value).

Definition sort_table (toc : table_of_content_t) : table_of_content_t :=
  map (fun kv => (fst kv, sort_value (snd kv))) toc.

(** Updating lines based on the extracted data *)
Definition sub_heading_line (cond : condition) (core heading sub_heading : string)
  : string :=
  match cond with
  | None =>
      Py.tab ++ Py.tab ++ "- "
      ++ md_link sub_heading (core ++ "/" ++ heading ++ "/" ++ sub_heading)
           ("goto " ++ sub_heading) ++ Py.nl
  | Some _ =>
      Py.tab ++ "- "
      ++ md_link sub_heading (heading ++ "/" ++ sub_heading)
           ("goto " ++ sub_heading) ++ Py.nl
  end.

Definition heading_line (cond : condition) (core heading : string) : string :=
  match cond with
  | None =>
      Py.tab ++ "- "
      ++ md_link heading (core ++ "/" ++ heading) ("goto " ++ heading) ++ Py.nl
  | Some _ =>
      "- " ++ md_link ("__" ++ heading ++ "__") heading ("goto " ++ heading)
      ++ Py.nl
  end.

Definition heading_lines (cond : condition) (core : string)
    (item : string * sub_headings) : list string :=
  let '(heading, sub_heading_list) := item in
  heading_line cond core heading ::
  match sub_heading_list with
  | Some l => map (sub_heading_line cond core heading) l
  | None => []
  end.

(** Setting Main Heading (Only for Root) *)
Definition main_heading (cond : condition) (core : string) : list string :=
  match cond with
  | None =>
      ["- " ++ md_link ("__" ++ core ++ "__") core ("goto " ++ core) ++ Py.nl]
  | Some _ => []
  end.

Definition core_lines (cond : condition)
    (item : string * Py.dict sub_headings) : list string :=
  let '(core, data) := item in
  if rejects cond core || String.eqb core "Repo"
  then []
  else app (main_heading cond core) (flat_map (heading_lines cond core) data).

Definition render_table (cond : condition) (toc : table_of_content_t)
  : list string :=
  flat_map (core_lines cond) toc.

(** [updated_lines] as it stands when the slice is assigned. *)
Definition content_lines (cond : condition) (DATA : log)
  : outcome (list string) :=
  toc <- extract DATA skeleton ;;
  Ok (render_table cond (sort_table toc)).

Definition update_table_of_content (cond : condition) (DATA : log)
    (lines : list string) : outcome (list string) :=
  '(table_of_content_start, table_of_content_end) <-
      find_table_points lines "table-of-content" ;;
  updated_lines <- content_lines cond DATA ;;
  Ok (Py.slice_assign lines (table_of_content_start + 1)
        table_of_content_end updated_lines).

(** ** The constructor: one run on one file *)

(** A file opened with [open(path, 'r')] is read with universal newlines:
    a carriage return, alone or before a line feed, is read as a line
    feed. *)
Fixpoint universal_newlines (text : string) : string :=
  match text with
  | EmptyString => EmptyString
  | String c text' =>
      if Ascii.eqb c (ascii_of_nat 13)
      then
        match text' with
        | String c' text'' =>
            if Ascii.eqb c' (ascii_of_nat 10)
            then String c' (universal_newlines text'')
            else String (ascii_of_nat 10) (universal_newlines text')
        | EmptyString => String (ascii_of_nat 10) EmptyString
        end
      else String c (universal_newlines text')
  end.

(** [file.readlines()]: the text is cut after each line feed. *)
Fixpoint readlines_from (cur text : string) : list string :=
  match text with
  | EmptyString => if String.eqb cur EmptyString then [] else [cur]
  | String c text' =>
      if Ascii.eqb c (ascii_of_nat 10)
      then (cur ++ String c EmptyString) :: readlines_from EmptyString text'
      else readlines_from (cur ++ String c EmptyString) text'
  end.

Definition readlines (text : string) : list string :=
  readlines_from EmptyString (universal_newlines text).

(** [file.writelines(lines)]; a line feed is written as it is (the
    workflow runs the script on Linux). *)
Definition writelines (lines : list string) : string :=
  String.concat EmptyString lines.

(** [get_lines] and [write_lines_into_file], on the text of the file. *)
Definition get_lines (text : string) : list string := readlines text.

Definition write_lines_into_file (lines : list string) : string :=
  writelines lines.

(** The two updates, on [self.lines]. *)
Definition update_lines (cond : condition) (REPO_NAME : option string)
    (DATA : log) (lines : list string) : outcome (list string) :=
  lines <- update_table_of_contributors cond REPO_NAME DATA lines ;;
  update_table_of_content cond DATA lines.

(** [UpdateFileContent(FILE_PATH, condition)], from the text of the file to
    the text written back.  Nothing is written when the run ends early. *)
Definition UpdateFileContent (cond : condition) (REPO_NAME : option string)
    (DATA : log) (text : string) : outcome string :=
  lines <- update_lines cond REPO_NAME DATA (get_lines text) ;;
  Ok (write_lines_into_file lines).

(** ** Notions the properties are stated with *)

(** [located b e lines s t]: line [s] is the first line of [lines] that
    holds the marker [b], line [t] is the first line after it that holds
    the marker [e], and no line before [s] holds [e]. *)
Definition located (b e : string) (lines : list string) (s t : nat) : Prop :=
  exists pre lb mid le post,
    lines = (pre ++ lb :: mid ++ le :: post)%list /\
    s = length pre /\ t = s + 1 + length mid /\
    (forall l, In l pre -> Py.str_in b l = false) /\
    (forall l, In l pre -> Py.str_in e l = false) /\
    Py.str_in b lb = true /\
    (forall l, In l mid -> Py.str_in e l = false) /\
    Py.str_in e le = true.

(** The link the specification gives for one contributor name. *)
Definition profile_link (n : string) : string :=
  "[" ++ n ++ "](https://github.com/" ++ n ++ " " ++ Py.dq ++ "goto " ++ n
  ++ " profile" ++ Py.dq ++ ")".

(** Cells written one after the other with a comma and a space between. *)
Fixpoint comma_separated (cells : list string) : string :=
  match cells with
  | [] => EmptyString
  | [c] => c
  | c :: rest => c ++ ", " ++ comma_separated rest
  end.

(** The number of columns of a table row: one less than its bars. *)
Fixpoint count_char (c : ascii) (s : string) : nat :=
  match s with
  | EmptyString => 0
  | String c' s' => (if Ascii.eqb c c' then 1 else 0) + count_char c s'
  end.

Definition columns (row : string) : nat := count_char "|"%char row - 1.



(** The text with every space replaced by [%20]. *)
Fixpoint replace_spaces (s : string) : string :=
  match s with
  | EmptyString => EmptyString
  | String c s' =>
      if Ascii.eqb c " "%char
      then "%20" ++ replace_spaces s'
      else String c (replace_spaces s')
  end.

(** [single_spaced s]: every whitespace character of [s] is a space that
    stands between two characters that are not whitespace.  [prev] tells
    whether the character before is one that is not whitespace. *)
Fixpoint single_spaced_from (prev : bool) (s : string) : bool :=
  match s with
  | EmptyString => prev
  | String c s' =>
      if Py.isspace c
      then Ascii.eqb c " "%char && prev && single_spaced_from false s'
      else single_spaced_from true s'
  end.

Definition single_spaced (s : string) : bool :=
  match s with
  | EmptyString => true
  | _ => single_spaced_from false s
  end.

(** The table of content with its three categories, in the order of the
    skeleton. *)
Definition categories (theory solved repo : Py.dict sub_headings)
  : table_of_content_t :=
  [("Theory"%string, theory); ("Solved-Problems"%string, solved);
   ("Repo"%string, repo)].

(** What the body of the extraction loop does to the dict of the category
    of the entry. *)
Definition extract_in_category (title specificity : string)
    (by_specificity : Py.dict sub_headings) : outcome (Py.dict sub_headings) :=
  match Py.get specificity by_specificity with
  | None =>
      Ok (Py.set specificity
            (if String.eqb specificity title then None else Some [title])
            by_specificity)
  | Some v =>
      if negb (String.eqb title specificity)
      then
        fresh <- title_not_in title v ;;
        if fresh
        then
          Ok (Py.set specificity
                (match v with
                 | None => Some [title]
                 | Some titles => Some (titles ++ [title])%list
                 end)
                by_specificity)
        else Ok by_specificity
      else Ok by_specificity
  end.

(** The log without the entries of the category [Repo]. *)
Definition without_repo (DATA : log) : log :=
  filter (fun entry => negb (String.eqb (core (snd entry)) "Repo")) DATA.

(** [known_core c]: [c] is a key of the skeleton. *)
Definition known_core (c : string) : bool :=
  String.eqb c "Theory" || String.eqb c "Solved-Problems" || String.eqb c "Repo".

(** [region b e pre lb mid le]: in the lines [pre ++ lb :: mid ++ le :: _]
    the search for the markers [b] and [e] stops on [lb] and on [le]. *)
Definition region (b e : string) (pre : list string) (lb : string)
    (mid : list string) (le : string) : Prop :=
  (forall l, In l pre -> Py.str_in b l = false) /\
  (forall l, In l pre -> Py.str_in e l = false) /\
  Py.str_in b lb = true /\
  (forall l, In l mid -> Py.str_in e l = false) /\
  Py.str_in e le = true.

(** The two lines after the begin marker that the update of the
    contributors table takes for the header: the header it writes when
    nothing stands between the markers, the first two lines otherwise. *)
Definition kept_header (cond : condition) (mid : list string) : list string :=
  match mid with
  | [] => table_header cond
  | _ => firstn 2 mid
  end.

(** Which of the four markers a line holds, in the order: contributors
    begin, contributors end, content begin, content end. *)
Definition markers_held (l : string) : list bool :=
  map (fun m => Py.str_in m l)
    [CONTRIBUTORS_BEGINS; CONTRIBUTORS_ENDS; CONTENT_BEGINS; CONTENT_ENDS].

Definition marker_free (l : string) : Prop :=
  markers_held l = [false; false; false; false].

(** The two tables of a file stand one after the other, in either order. *)
Inductive table_order : Type :=
| ContributorsFirst
| ContentFirst.

(** The lines of a file: [cb] and [ce] are the marker lines of the
    contributors table and [rows] the lines between them, [tb] and [te]
    those of the table of content and [outline] the lines between them;
    [A] stands before the first table, [B] between the two and [C] after
    the second. *)
Definition assemble (o : table_order) (A : list string) (cb : string)
    (rows : list string) (ce : string) (B : list string) (tb : string)
    (outline : list string) (te : string) (C : list string) : list string :=
  match o with
  | ContributorsFirst => A ++ cb :: rows ++ ce :: B ++ tb :: outline ++ te :: C
  | ContentFirst => A ++ tb :: outline ++ te :: B ++ cb :: rows ++ ce :: C
  end%list.

(** Each marker line holds its marker and no other, and no line before the
    last marker line holds a marker apart from the four. *)
Definition well_formed (A : list string) (cb : string) (rows : list string)
    (ce : string) (B : list string) (tb : string) (outline : list string)
    (te : string) : Prop :=
  Forall marker_free A /\ Forall marker_free rows /\
  Forall marker_free B /\ Forall marker_free outline /\
  markers_held cb = [true; false; false; false] /\
  markers_held ce = [false; true; false; false] /\
  markers_held tb = [false; false; true; false] /\
  markers_held te = [false; false; false; true].

(** [no_newline s]: [s] holds no line feed and no carriage return. *)
Fixpoint no_newline (s : string) : bool :=
  match s with
  | EmptyString => true
  | String c s' =>
      negb (Ascii.eqb c (ascii_of_nat 10)) && negb (Ascii.eqb c (ascii_of_nat 13))
      && no_newline s'
  end.

(** A line with its line feed at the end and no other. *)
Definition complete_line (l : string) : Prop :=
  exists body, no_newline body = true /\ l = body ++ Py.nl.

(** The lines [readlines] gives: complete lines, and at the end maybe a
    line without its line feed. *)
Fixpoint lines_shape (ls : list string) : Prop :=
  match ls with
  | [] => True
  | [l] => complete_line l \/ (l <> EmptyString /\ no_newline l = true)
  | l :: rest => complete_line l /\ lines_shape rest
  end.

(** [lacks c s]: the character [c] does not occur in [s]. *)
Fixpoint lacks (c : ascii) (s : string) : bool :=
  match s with
  | EmptyString => true
  | String c' s' => negb (Ascii.eqb c c') && lacks c s'
  end.

(** [plain s]: [s] holds no [<], no line feed and no carriage return, so
    that printing it in a line neither writes a marker nor cuts the
    line. *)
Definition plain (s : string) : bool := lacks "<"%char s && no_newline s.

Definition plain_pr (pr : pr_number) : bool :=
  match pr with
  | PrInt _ => true
  | PrStr s => plain s
  end.

Definition plain_entry (entry : string * details) : bool :=
  let '(title, d) := entry in
  plain title && plain (core d) && plain (specificity d)
  && forallb plain (contributor_name d)
  && forallb plain_pr (pull_request_number d)
  && plain (demo_path d).

(** A log and a repository name all of whose strings are plain. *)
Definition plain_log (REPO_NAME : option string) (DATA : log) : bool :=
  plain (fmt_repo REPO_NAME) && forallb plain_entry DATA.

(** A plain text followed by a line feed. *)
Definition plain_line (l : string) : Prop :=
  exists body, plain body = true /\ l = body ++ Py.nl.

(** The values and the dicts of a table of content whose strings are
    plain. *)
Definition plain_sub (v : sub_headings) : bool :=
  match v with
  | None => true
  | Some titles => forallb plain titles
  end.

Definition plain_dict (d : Py.dict sub_headings) : bool :=
  forallb (fun kv => plain (fst kv) && plain_sub (snd kv)) d.

(** The order of Python on strings, and on the items of a dict by their
    keys. *)
Definition str_le (x y : string) : Prop := String.leb x y = true.

Definition key_le {V : Type} (x y : string * V) : Prop :=
  String.leb (fst x) (fst y) = true.

(** ** Sample data *)

(** An entry of the log under the category [c] and the specificity [s]. *)
Definition sample (c s : string) : details :=
  {| core := c; specificity := s;
     contributor_name := ["alice"; "bob"];
     pull_request_number := [PrInt 12; PrStr "7"];
     demo_path := "My Folder/demo" |}.

(** The lines of a file with the two pairs of markers and nothing between
    them. *)
Definition empty_tables : list string :=
  [ "# Index" ++ Py.nl;
    CONTRIBUTORS_BEGINS ++ Py.nl;
    CONTRIBUTORS_ENDS ++ Py.nl;
    CONTENT_BEGINS ++ Py.nl;
    CONTENT_ENDS ++ Py.nl ].

(** The lines of a file whose contributors table holds one line, a blank
    one, and whose table of content is empty. *)
Definition one_line_region : list string :=
  [ CONTRIBUTORS_BEGINS ++ Py.nl;
    Py.nl;
    CONTRIBUTORS_ENDS ++ Py.nl;
    "## Contents" ++ Py.nl;
    CONTENT_BEGINS ++ Py.nl;
    CONTENT_ENDS ++ Py.nl ].

(** A log of one entry. *)
Definition one_entry : log := [("QuickSort", sample "Theory" "Sorting")].

(** The text of a file with both tables empty, and the text one run writes
    from it. *)
Definition empty_tables_text : string := writelines empty_tables.

Definition after_one_run : string :=
  match UpdateFileContent None (Some "pranaydeep1/DSA") one_entry
          empty_tables_text with
  | Ok out => out
  | _ => EmptyString
  end.

(** [accepted cond entry]: the loops do not skip the entry. *)
Definition accepted (cond : condition) (entry : string * details) : bool :=
  negb (rejects cond (core (snd entry))).

(** [group DATA c s]: the titles of the entries of the category [c] and
    the specificity [s], in the order of the log. *)
Definition in_group (c s : string) (entry : string * details) : bool :=
  String.eqb (core (snd entry)) c && String.eqb (specificity (snd entry)) s.

Definition group (DATA : log) (c s : string) : list string :=
  map fst (filter (in_group c s) DATA).

(** The elements of a list in the order they first occur. *)
Definition first_occurrences (l : list string) : list string :=
  fold_left (fun seen t => if Py.list_in t seen then seen else seen ++ [t])%list
    l [].

(** What the extraction keeps under the specificity [s] when the titles of
    its group are [g]: nothing for an empty group, [None] when the first
    title is the specificity itself, and otherwise the titles other than
    the specificity, each once. *)
Definition kept_under (s : string) (g : list string) : option sub_headings :=
  match g with
  | [] => None
  | first :: _ =>
      if String.eqb first s then Some None
      else Some (Some (first_occurrences
                         (filter (fun t => negb (String.eqb t s)) g)))
  end.

(** [group_ok s g]: the group [g] of the specificity [s] does not open
    with the specificity itself, or holds no other title. *)
Definition group_ok (s : string) (g : list string) : bool :=
  match g with
  | [] => true
  | first :: rest =>
      negb (String.eqb first s) || forallb (fun t => String.eqb t s) rest
  end.

(** [extractable DATA]: every category of the log is one of the three and
    every group is [group_ok]. *)
Definition extractable (DATA : log) : Prop :=
  forallb (fun entry => known_core (core (snd entry))) DATA = true
  /\ forall c s, group_ok s (group DATA c s) = true.

(** [kept_in DATA toc]: the table holds the three categories and, under
    every specificity of each, what [kept_under] says of its group. *)
Definition kept_in (DATA : log) (toc : table_of_content_t) : Prop :=
  exists a b c,
    toc = categories a b c /\
    (forall s, Py.get s a = kept_under s (group DATA "Theory" s)) /\
    (forall s, Py.get s b = kept_under s (group DATA "Solved-Problems" s)) /\
    (forall s, Py.get s c = kept_under s (group DATA "Repo" s)).

(** [no_whitespace s]: no character of [s] is whitespace. *)
Fixpoint no_whitespace (s : string) : bool :=
  match s with
  | EmptyString => true
  | String c s' => negb (Py.isspace c) && no_whitespace s'
  end.

(** [all_whitespace s]: every character of [s] is whitespace. *)
Fixpoint all_whitespace (s : string) : bool :=
  match s with
  | EmptyString => true
  | String c s' => Py.isspace c && all_whitespace s'
  end.

(** A word is a text, not empty, without whitespace; a gap is a text, not
    empty, of whitespace only. *)
Definition is_word (w : string) : bool :=
  negb (String.eqb w EmptyString) && no_whitespace w.

Definition is_gap (g : string) : bool :=
  negb (String.eqb g EmptyString) && all_whitespace g.

(** The text made of gaps and words in turn. *)
Fixpoint spaced (rest : list (string * string)) : string :=
  match rest with
  | [] => EmptyString
  | (g, w) :: rest' => g ++ w ++ spaced rest'
  end.

(** [words_text lead w rest trail]: the text that opens with the whitespace
    [lead], holds the word [w] and then the gaps and words [rest], and ends
    with the whitespace [trail]. *)
Definition words_text (lead w : string) (rest : list (string * string))
    (trail : string) : string :=
  lead ++ w ++ spaced rest ++ trail.

Definition gaps_and_words (lead w : string) (rest : list (string * string))
    (trail : string) : bool :=
  all_whitespace lead && is_word w
  && forallb (fun gw => is_gap (fst gw) && is_word (snd gw)) rest
  && all_whitespace trail.

(** ** main *)

(** The files of the repository: the text of each path that is a file. *)
Definition file_system : Type := string -> option string.

(** [open(FILE_PATH, 'w')] and [file.writelines]. *)
Definition write_file (FILE_PATH text : string) (fs : file_system)
  : file_system :=
  fun path => if String.eqb path FILE_PATH then Some text else fs path.

(** How a run ends: [main] returns, or [open] finds no file, or
    [json.load] refuses the text of the log, or the update of a file ends
    with [exit] or with an exception no one catches. *)
Inductive run_end : Type :=
| Completed
| FileNotFoundError (path : string)
| JSONDecodeError
| SystemExit (FILE_PATH : string) (code : Z)
| Uncaught (FILE_PATH : string) (e : exn).

(** [UpdateFileContent(FILE_PATH, condition)] on the files: the file is
    read, and written when both updates have ended well. *)
Definition update_file (FILE_PATH : string) (cond : condition)
    (REPO_NAME : option string) (DATA : log) (fs : file_system)
  : file_system * run_end :=
  match fs FILE_PATH with
  | None => (fs, FileNotFoundError FILE_PATH)
  | Some text =>
      match UpdateFileContent cond REPO_NAME DATA text with
      | Ok out => (write_file FILE_PATH out fs, Completed)
      | Exit code => (fs, SystemExit FILE_PATH code)
      | Raise e => (fs, Uncaught FILE_PATH e)
      end
  end.

(** The calls of [UpdateFileContent] one after the other: the first that
    does not end well ends the run. *)
Fixpoint update_files (targets : list (string * condition))
    (REPO_NAME : option string) (DATA : log) (fs : file_system)
  : file_system * run_end :=
  match targets with
  | [] => (fs, Completed)
  | (FILE_PATH, cond) :: rest =>
      match update_file FILE_PATH cond REPO_NAME DATA fs with
      | (fs', Completed) => update_files rest REPO_NAME DATA fs'
      | stopped => stopped
      end
  end.

Definition ROOT_INDEX_FILE_PATH : string := "index.md".
Definition THEORY_INDEX_FILE_PATH : string := "Theory/index.md".
Definition THEORY_README_FILE_PATH : string := "Theory/README.md".
Definition SOLVED_PROBLEM_INDEX_FILE_PATH : string := "Solved-Problems/index.md".
Definition SOLVED_PROBLEM_README_FILE_PATH : string := "Solved-Problems/README.md".
Definition CONTRIBUTORS_LOG : string := ".github/data/contributors-log.json".

(** Updating All required files *)
Definition targets : list (string * condition) :=
  [ (ROOT_INDEX_FILE_PATH, None);
    (THEORY_INDEX_FILE_PATH, Some (fun core => String.eqb core "Theory"));
    (THEORY_README_FILE_PATH, Some (fun core => String.eqb core "Theory"));
    (SOLVED_PROBLEM_INDEX_FILE_PATH,
     Some (fun core => String.eqb core "Solved-Problems"));
    (SOLVED_PROBLEM_README_FILE_PATH,
     Some (fun core => String.eqb core "Solved-Problems")) ].

Section Main.

(** [json.load], of the standard library of Python, on the text of the
    log: the log it reads, or nothing when it raises. *)
Variable json_load : string -> option log.

(** [main()], with [REPO_NAME] as [os.environ.get] gives it. *)
Definition main (REPO_NAME : option string) (fs : file_system)
  : file_system * run_end :=
  match fs CONTRIBUTORS_LOG with
  | None => (fs, FileNotFoundError CONTRIBUTORS_LOG)
  | Some text =>
      match json_load text with
      | None => (fs, JSONDecodeError)
      | Some DATA => update_files targets REPO_NAME DATA fs
      end
  end.

End Main.

(** The files of a repository with the log and an index whose tables are
    empty. *)
Definition sample_files : file_system :=
  fun path =>
    if String.eqb path CONTRIBUTORS_LOG then Some "{}"%string
    else if String.eqb path ROOT_INDEX_FILE_PATH then Some empty_tables_text
    else None.

(** A run on these files, with a log of one entry. *)
Definition sample_run : file_system * run_end :=
  main (fun _ => Some one_entry) (Some "pranaydeep1/DSA") sample_files.

(** [bar_free s]: [s] holds no [|], the character that parts the cells of
    a row. *)
Definition bar_free (s : string) : bool := lacks "|"%char s.

Definition bar_free_pr (pr : pr_number) : bool :=
  match pr with
  | PrInt _ => true
  | PrStr s => bar_free s
  end.

Definition bar_free_entry (entry : string * details) : bool :=
  let '(title, d) := entry in
  bar_free title && bar_free (core d) && bar_free (specificity d)
  && forallb bar_free (contributor_name d)
  && forallb bar_free_pr (pull_request_number d)
  && bar_free (demo_path d).

(** * Properties *)

Local Open Scope list_scope.

(** ** Strings *)

Lemma append_assoc (s1 s2 s3 : string) :
  ((s1 ++ s2) ++ s3 = s1 ++ (s2 ++ s3))%string.
Proof.
  induction s1 as [| c s1 IH]; simpl; [reflexivity | rewrite IH; reflexivity].
Qed.

Lemma append_nil_r (s : string) : (s ++ EmptyString)%string = s.
Proof.
  induction s as [| c s IH]; simpl; [reflexivity | rewrite IH; reflexivity].
Qed.

Lemma profile_link_md_link (name : string) :
  md_link name ("https://github.com/" ++ name) ("goto " ++ name ++ " profile")
  = profile_link name.
Proof.
  unfold md_link, profile_link; simpl.
  rewrite !append_assoc; reflexivity.
Qed.

(** ** Marker search *)

Section Scan.

Variables table_start_marker table_end_marker : string.

Local Notation "'scan'" :=
  (scan_lines table_start_marker table_end_marker) (only parsing).
Local Notation "'has_start'" := (Py.str_in table_start_marker) (only parsing).
Local Notation "'has_end'" := (Py.str_in table_end_marker) (only parsing).

(** While no start marker is met the starting point stays unset. *)
Lemma scan_no_start (ls : list string) (i : nat) (ep : option nat) :
  (forall l, In l ls -> has_start l = false) ->
  fst (scan ls i (None, ep)) = None.
Proof.
  revert i ep; induction ls as [| l ls IH]; intros i ep Hno; simpl.
  - reflexivity.
  - unfold scan_line; simpl.
    rewrite (Hno l (or_introl eq_refl)); simpl.
    destruct (is_none ep && Py.str_in table_end_marker l); simpl;
      apply IH; intros l' Hl'; apply Hno; right; exact Hl'.
Qed.

(** While no end marker is met the ending point stays unset. *)
Lemma scan_no_end (ls : list string) (i : nat) (sp : option nat) :
  (forall l, In l ls -> has_end l = false) ->
  snd (scan ls i (sp, None)) = None.
Proof.
  revert i sp; induction ls as [| l ls IH]; intros i sp Hno; simpl.
  - reflexivity.
  - unfold scan_line; simpl.
    rewrite (Hno l (or_introl eq_refl)); simpl.
    destruct (is_none sp && Py.str_in table_start_marker l); simpl;
      [ | rewrite andb_false_r ];
      apply IH; intros l' Hl'; apply Hno; right; exact Hl'.
Qed.

(** Lines without a start marker are passed over once the ending point
    is set. *)
Lemma scan_skip_after_end (ls rest : list string) (i j : nat) :
  (forall l, In l ls -> has_start l = false) ->
  scan (ls ++ rest) i (None, Some j) = scan rest (i + length ls) (None, Some j).
Proof.
  revert i; induction ls as [| l ls IH]; intros i Hno; simpl.
  - f_equal; lia.
  - unfold scan_line; simpl.
    rewrite (Hno l (or_introl eq_refl)); simpl.
    rewrite IH by (intros l' Hl'; apply Hno; right; exact Hl').
    f_equal; lia.
Qed.

(** Lines without an end marker are passed over once the starting point
    is set. *)
Lemma scan_skip_after_start (ls rest : list string) (i s : nat) :
  (forall l, In l ls -> has_end l = false) ->
  scan (ls ++ rest) i (Some s, None) = scan rest (i + length ls) (Some s, None).
Proof.
  revert i; induction ls as [| l ls IH]; intros i Hno; simpl.
  - f_equal; lia.
  - unfold scan_line; simpl.
    rewrite (Hno l (or_introl eq_refl)); simpl.
    rewrite IH by (intros l' Hl'; apply Hno; right; exact Hl').
    f_equal; lia.
Qed.

(** Lines with neither marker are passed over. *)
Lemma scan_skip_plain (ls rest : list string) (i : nat) :
  (forall l, In l ls -> has_start l = false) ->
  (forall l, In l ls -> has_end l = false) ->
  scan (ls ++ rest) i (None, None) = scan rest (i + length ls) (None, None).
Proof.
  revert i; induction ls as [| l ls IH]; intros i Hs He; simpl.
  - f_equal; lia.
  - unfold scan_line; simpl.
    rewrite (Hs l (or_introl eq_refl)), (He l (or_introl eq_refl)); simpl.
    rewrite IH
      by (intros l' Hl'; first [apply Hs | apply He]; right; exact Hl').
    f_equal; lia.
Qed.

(** An end marker met before any start marker sets the ending point
    first. *)
Lemma scan_end_first (ls rest : list string) (i : nat) :
  (forall l, In l ls -> has_start l = false) ->
  (exists l, In l ls /\ has_end l = true) ->
  exists j, i <= j < i + length ls /\
    scan (ls ++ rest) i (None, None) = scan rest (i + length ls) (None, Some j).
Proof.
  revert i; induction ls as [| l ls IH]; intros i Hno [le [Hin Hle]].
  - destruct Hin.
  - simpl. unfold scan_line; simpl.
    rewrite (Hno l (or_introl eq_refl)); simpl.
    destruct (has_end l) eqn:El; simpl.
    + exists i; split; [lia |].
      rewrite scan_skip_after_end
        by (intros l' Hl'; apply Hno; right; exact Hl').
      f_equal; lia.
    + destruct Hin as [-> | Hin]; [congruence |].
      destruct (IH (S i)) as [j [Hj Hscan]].
      * intros l' Hl'; apply Hno; right; exact Hl'.
      * exists le; split; assumption.
      * exists j; split; [lia |].
        rewrite Hscan; f_equal; lia.
Qed.

(** The search from a state where only the starting point is set. *)
Lemma scan_after_start_sound (ls : list string) (i s s' e' : nat) :
  scan ls i (Some s, None) = (Some s', Some e') ->
  s' = s /\
  exists mid le post,
    ls = mid ++ le :: post /\ e' = i + length mid /\
    (forall l, In l mid -> has_end l = false) /\ has_end le = true.
Proof.
  revert i; induction ls as [| l ls IH]; intros i; simpl.
  - discriminate.
  - unfold scan_line; simpl.
    destruct (has_end l) eqn:El; simpl.
    + intro H; inversion H; subst; split; [reflexivity |].
      exists [], l, ls; repeat split; auto; try lia.
      intros l' [].
    + intro H; destruct (IH _ H) as [-> [mid [le [post [-> [-> [Hmid Hle]]]]]]].
      split; [reflexivity |].
      exists (l :: mid), le, post; repeat split; simpl; auto; try lia.
      intros l' [<- | Hl']; auto.
Qed.

(** The search from a state where only the ending point is set. *)
Lemma scan_after_end_sound (ls : list string) (i e s' e' : nat) :
  scan ls i (None, Some e) = (Some s', Some e') -> e' = e /\ i <= s'.
Proof.
  revert i; induction ls as [| l ls IH]; intros i; simpl.
  - discriminate.
  - unfold scan_line; simpl.
    destruct (has_start l) eqn:Sl; simpl.
    + intro H; inversion H; subst; split; [reflexivity | lia].
    + intro H; destruct (IH _ H) as [-> Hle]; split; [reflexivity | lia].
Qed.

(** A search that ends with the starting point before the ending point
    has met the first start marker, and after it the first end marker. *)
Lemma scan_sound (ls : list string) (i s e : nat) :
  scan ls i (None, None) = (Some s, Some e) -> s < e ->
  exists pre lb mid le post,
    ls = pre ++ lb :: mid ++ le :: post /\
    s = i + length pre /\ e = s + 1 + length mid /\
    (forall l, In l pre -> has_start l = false) /\
    (forall l, In l pre -> has_end l = false) /\
    has_start lb = true /\
    (forall l, In l mid -> has_end l = false) /\ has_end le = true.
Proof.
  revert i; induction ls as [| l ls IH]; intros i; simpl.
  - discriminate.
  - unfold scan_line; simpl.
    destruct (has_start l) eqn:Sl; simpl.
    + intros H Hlt.
      destruct (scan_after_start_sound _ _ _ _ _ H)
        as [-> [mid [le [post [-> [-> [Hmid Hle]]]]]]].
      exists [], l, mid, le, post; simpl.
      repeat split; auto; try lia; intros l' [].
    + destruct (has_end l) eqn:El; simpl.
      * intros H Hlt.
        destruct (scan_after_end_sound _ _ _ _ _ H) as [-> Hle]; lia.
      * intros H Hlt.
        destruct (IH _ H Hlt)
          as [pre [lb [mid [le [post [-> [-> [-> [Hp1 [Hp2 [Hb [Hm He]]]]]]]]]]]].
        exists (l :: pre), lb, mid, le, post; simpl.
        repeat split; auto; try lia; intros l' [<- | Hl']; auto.
Qed.

(** Conversely, the first start marker and the first end marker after
    it are what the search returns. *)
Lemma scan_complete (pre mid post : list string) (lb le : string) (i : nat) :
  (forall l, In l pre -> has_start l = false) ->
  (forall l, In l pre -> has_end l = false) ->
  has_start lb = true ->
  (forall l, In l mid -> has_end l = false) ->
  has_end le = true ->
  scan (pre ++ lb :: mid ++ le :: post) i (None, None)
  = (Some (i + length pre), Some (i + length pre + 1 + length mid)).
Proof.
  intros Hp1 Hp2 Hb Hm He.
  assert (Hlb : forall k, scan_line table_start_marker table_end_marker lb k
                            (None, None) = (Some k, None))
    by (intro k; unfold scan_line; simpl; rewrite Hb; reflexivity).
  assert (Hle : forall k s, scan_line table_start_marker table_end_marker le k
                              (Some s, None) = (Some s, Some k))
    by (intros k s; unfold scan_line; simpl; rewrite He; reflexivity).
  rewrite scan_skip_plain by assumption.
  cbn [scan_lines]. rewrite Hlb. cbn [fst snd is_some is_none negb andb].
  rewrite scan_skip_after_start by assumption.
  cbn [scan_lines]. rewrite Hle. cbn [fst snd is_some is_none negb andb].
  do 2 f_equal; lia.
Qed.

End Scan.

Lemma find_table_points_located (lines : list string) (search_type b e : string)
    (s t : nat) :
  select_markers search_type = Ok (b, e) ->
  (find_table_points lines search_type = Ok (s, t) <-> located b e lines s t).
Proof.
  intro Hsel; unfold find_table_points; rewrite Hsel; simpl.
  split.
  - destruct (scan_lines b e lines 0 (None, None)) as [[s' |] [t' |]] eqn:Hscan;
      simpl; try discriminate.
    destruct (Nat.leb t' s') eqn:Hle; [discriminate |].
    intro H; inversion H; subst.
    apply Nat.leb_gt in Hle.
    destruct (scan_sound _ _ _ _ _ _ Hscan Hle)
      as [pre [lb [mid [le [post [-> [-> [-> H']]]]]]]].
    exists pre, lb, mid, le, post; repeat split; try tauto; lia.
  - intros [pre [lb [mid [le [post [-> [-> [-> [H1 [H2 [H3 [H4 H5]]]]]]]]]]]].
    rewrite scan_complete by assumption; simpl.
    replace (Nat.leb (length pre + 1 + length mid) (length pre)) with false
      by (symmetry; apply Nat.leb_gt; lia).
    reflexivity.
Qed.

Lemma select_markers_unknown (search_type : string) :
  search_type <> "contributors"%string ->
  search_type <> "table-of-content"%string ->
  select_markers search_type = Exit 1.
Proof.
  intros H1 H2; unfold select_markers.
  destruct (String.eqb_spec search_type "contributors"); [contradiction |].
  destruct (String.eqb_spec search_type "table-of-content"); [contradiction |].
  reflexivity.
Qed.

(** C3.  The exit codes of the marker search: 1 for a table kind that is
    neither [contributors] nor [table-of-content], whatever the lines are;
    2 when no line holds the begin marker of the requested kind, or no line
    holds its end marker; 3 when a line holding the end marker comes before
    the first line that holds the begin marker. *)
Theorem find_table_points_exit_codes :
  (forall lines search_type,
      search_type <> "contributors"%string ->
      search_type <> "table-of-content"%string ->
      find_table_points lines search_type = Exit 1)
  /\ (forall lines search_type b e,
      select_markers search_type = Ok (b, e) ->
      (forall l, In l lines -> Py.str_in b l = false) \/
      (forall l, In l lines -> Py.str_in e l = false) ->
      find_table_points lines search_type = Exit 2)
  /\ (forall search_type b e before le between lb after,
      select_markers search_type = Ok (b, e) ->
      (forall l, In l (before ++ le :: between) -> Py.str_in b l = false) ->
      Py.str_in e le = true ->
      Py.str_in b lb = true ->
      find_table_points (before ++ le :: between ++ lb :: after) search_type
      = Exit 3).
Proof.
  split; [| split].
  - intros lines search_type H1 H2; unfold find_table_points.
    rewrite select_markers_unknown by assumption; reflexivity.
  - intros lines search_type b e Hsel Hno; unfold find_table_points.
    rewrite Hsel; simpl.
    destruct Hno as [Hno | Hno].
    + pose proof (scan_no_start b e lines 0 None Hno) as H.
      destruct (scan_lines b e lines 0 (None, None)) as [sp ep]; simpl in H.
      subst sp; reflexivity.
    + pose proof (scan_no_end b e lines 0 None Hno) as H.
      destruct (scan_lines b e lines 0 (None, None)) as [sp ep]; simpl in H.
      subst ep; destruct sp; reflexivity.
  - intros search_type b e before le between lb after Hsel Hno Hle Hlb.
    unfold find_table_points; rewrite Hsel; simpl.
    replace (before ++ le :: between ++ lb :: after)
      with ((before ++ le :: between) ++ lb :: after)
      by (rewrite <- app_assoc; reflexivity).
    destruct (scan_end_first b e (before ++ le :: between) (lb :: after) 0 Hno)
      as [j [Hj Hscan]].
    + exists le; split; [apply in_or_app; right; left; reflexivity | exact Hle].
    + rewrite Hscan; simpl. unfold scan_line; simpl. rewrite Hlb; simpl.
      replace (Nat.leb j (length (before ++ le :: between))) with true
        by (symmetry; apply Nat.leb_le; lia).
      reflexivity.
Qed.

(** The three exit codes on the contributors table: an unknown kind, a
    file with no end marker, and a file whose end marker comes first. *)
Lemma find_table_points_exit_codes_witness :
  find_table_points [CONTRIBUTORS_BEGINS; CONTRIBUTORS_ENDS] "contributor" = Exit 1
  /\ find_table_points [CONTRIBUTORS_BEGINS; "| a |"%string] "contributors" = Exit 2
  /\ find_table_points
       ([] ++ CONTRIBUTORS_ENDS :: ["| a |"%string] ++ CONTRIBUTORS_BEGINS :: [])
       "contributors" = Exit 3.
Proof.
  destruct find_table_points_exit_codes as [H1 [H2 H3]].
  split; [| split].
  - apply H1; discriminate.
  - apply (H2 _ _ CONTRIBUTORS_BEGINS CONTRIBUTORS_ENDS); [reflexivity |].
    right; intros l [<- | [<- | []]]; reflexivity.
  - apply (H3 _ CONTRIBUTORS_BEGINS CONTRIBUTORS_ENDS); try reflexivity.
    intros l [<- | [<- | []]]; reflexivity.
Defined.

(** ** The contributors table *)

Lemma join_comma_separated (cells : list string) :
  Py.join ", " cells = comma_separated cells.
Proof.
  unfold Py.join; induction cells as [| c [| c' rest] IH]; simpl in *;
    try reflexivity.
  rewrite IH; reflexivity.
Qed.

(** C4.  The contributor cell of the names alice and bob is the two profile
    links with a comma and a space between; for every list of names the cell
    is the profile links of the names, in the order of the list, separated
    by a comma and a space; and that cell is the one written in the row of
    the entry, filtered or not. *)
Theorem contributor_cell_links :
  contributors_names_output ["alice"; "bob"]%string
  = ("[alice](https://github.com/alice " ++ Py.dq ++ "goto alice profile"
     ++ Py.dq ++ "), [bob](https://github.com/bob " ++ Py.dq
     ++ "goto bob profile" ++ Py.dq ++ ")")%string
  /\ (forall names,
        contributors_names_output names
        = comma_separated (map profile_link names))
  /\ (forall REPO_NAME title d,
        contributor_row None REPO_NAME title d
        = ("| " ++ title ++ " | " ++ core_contribution_output (core d)
           ++ " | " ++ comma_separated (map profile_link (contributor_name d))
           ++ " | " ++ pull_requests_output REPO_NAME (pull_request_number d)
           ++ " | " ++ demo_path_output REPO_NAME title d ++ " |" ++ Py.nl)%string)
  /\ (forall f REPO_NAME title d,
        contributor_row (Some f) REPO_NAME title d
        = ("| " ++ title
           ++ " | " ++ comma_separated (map profile_link (contributor_name d))
           ++ " | " ++ pull_requests_output REPO_NAME (pull_request_number d)
           ++ " | " ++ demo_path_output REPO_NAME title d ++ " |" ++ Py.nl)%string).
Proof.
  assert (Hcell : forall names,
             contributors_names_output names
             = comma_separated (map profile_link names)).
  { intro names; unfold contributors_names_output.
    rewrite join_comma_separated; f_equal.
    apply map_ext; intro name; apply profile_link_md_link. }
  split; [reflexivity | split; [exact Hcell | split]].
  - intros REPO_NAME title d; unfold contributor_row; rewrite Hcell; reflexivity.
  - intros f REPO_NAME title d; unfold contributor_row; rewrite Hcell; reflexivity.
Qed.




(** ** The demo link *)

Lemma str_in_space (c : ascii) (s : string) :
  Py.str_in " " (String c s) = Ascii.eqb c " "%char || Py.str_in " " s.
Proof.
  cbn [Py.str_in String.prefix].
  destruct (ascii_dec " "%char c) as [<- | Hne].
  - destruct s; reflexivity.
  - replace (Ascii.eqb c " "%char) with false; [reflexivity |].
    symmetry; apply Ascii.eqb_neq; congruence.
Qed.

Lemma replace_spaces_none (s : string) :
  Py.str_in " " s = false -> replace_spaces s = s.
Proof.
  induction s as [| c s IH]; [reflexivity |].
  rewrite str_in_space; intro H; apply orb_false_elim in H as [Hc Hs].
  simpl; rewrite Hc, (IH Hs); reflexivity.
Qed.

Lemma split_from_word (cur s : string) :
  cur <> EmptyString -> Py.split_from cur s <> [].
Proof.
  revert cur; induction s as [| c s IH]; intros cur Hcur; simpl.
  - destruct (String.eqb_spec cur EmptyString); [contradiction | discriminate].
  - destruct (Py.isspace c).
    + destruct (String.eqb_spec cur EmptyString); [contradiction | discriminate].
    + apply IH; destruct cur; discriminate.
Qed.

Lemma join_cons (sep x : string) (l : list string) :
  l <> [] -> Py.join sep (x :: l) = (x ++ sep ++ Py.join sep l)%string.
Proof.
  destruct l; [contradiction | reflexivity].
Qed.

(** On a text whose whitespace is single spaces between words, joining the
    words with [%20] replaces each space. *)
Lemma join_split_single_spaced (s cur : string) :
  single_spaced_from (negb (String.eqb cur EmptyString)) s = true ->
  Py.join "%20" (Py.split_from cur s) = (cur ++ replace_spaces s)%string.
Proof.
  revert cur; induction s as [| c s IH]; intros cur; simpl.
  - destruct (String.eqb cur EmptyString); simpl; [discriminate |].
    intros _; rewrite append_nil_r; reflexivity.
  - destruct (Py.isspace c) eqn:Hc.
    + intro H; apply andb_prop in H as [H Hs]; apply andb_prop in H as [Hsp Hcur].
      rewrite Hsp.
      destruct (String.eqb cur EmptyString); [discriminate |].
      assert (Hne : Py.split_from EmptyString s <> []).
      { destruct s as [| c' s']; simpl in *; [discriminate |].
        destruct (Py.isspace c').
        - rewrite andb_false_r in Hs; discriminate.
        - apply split_from_word; discriminate. }
      rewrite join_cons by exact Hne.
      rewrite (IH EmptyString Hs); reflexivity.
    + intro H.
      assert (Hsp : Ascii.eqb c " "%char = false).
      { destruct (Ascii.eqb_spec c " "%char) as [-> |]; [discriminate | reflexivity]. }
      rewrite Hsp, IH.
      * rewrite append_assoc; reflexivity.
      * replace (String.eqb (cur ++ String c EmptyString) EmptyString) with false
          by (destruct cur; reflexivity).
        exact H.
Qed.

Lemma no_whitespace_app (s1 s2 : string) :
  no_whitespace (s1 ++ s2) = no_whitespace s1 && no_whitespace s2.
Proof.
  induction s1 as [| c s1 IH]; simpl; [reflexivity |].
  rewrite IH, andb_assoc; reflexivity.
Qed.

Lemma no_whitespace_split_from (s cur : string) :
  no_whitespace cur = true ->
  forallb no_whitespace (Py.split_from cur s) = true.
Proof.
  revert cur; induction s as [| c s IH]; intros cur Hcur; simpl.
  - destruct (String.eqb cur EmptyString); simpl; [| rewrite Hcur]; reflexivity.
  - destruct (Py.isspace c) eqn:Hc.
    + destruct (String.eqb cur EmptyString); simpl;
        [| rewrite Hcur; simpl]; apply IH; reflexivity.
    + apply IH; rewrite no_whitespace_app, Hcur; simpl; rewrite Hc; reflexivity.
Qed.

Lemma no_whitespace_join (sep : string) (l : list string) :
  no_whitespace sep = true -> forallb no_whitespace l = true ->
  no_whitespace (Py.join sep l) = true.
Proof.
  intro Hsep; unfold Py.join.
  induction l as [| x [| y l] IH]; simpl; intro H; try reflexivity.
  - rewrite andb_true_r in H; exact H.
  - apply andb_prop in H as [Hx H].
    rewrite !no_whitespace_app, Hx, Hsep; simpl; apply IH; exact H.
Qed.

Lemma no_whitespace_lacks_space (s : string) :
  no_whitespace s = true -> lacks " "%char s = true.
Proof.
  induction s as [| c s IH]; [reflexivity |].
  cbn [no_whitespace lacks]; intro H; apply andb_prop in H as [Hc Hs].
  rewrite (IH Hs), andb_true_r.
  destruct (Ascii.eqb_spec " "%char c) as [<- |]; [discriminate | reflexivity].
Qed.

Lemma lacks_space_str_in (s : string) :
  lacks " "%char s = negb (Py.str_in " " s).
Proof.
  induction s as [| c s IH]; [reflexivity |].
  rewrite str_in_space; cbn [lacks]; rewrite IH, negb_orb, Ascii.eqb_sym.
  reflexivity.
Qed.

Lemma length_append (s1 s2 : string) :
  String.length (s1 ++ s2) = String.length s1 + String.length s2.
Proof.
  induction s1 as [| c s1 IH]; simpl; [reflexivity | rewrite IH; reflexivity].
Qed.

Lemma join_single (sep x : string) : Py.join sep [x] = x.
Proof.
  reflexivity.
Qed.

(** On a text in which every whitespace character is a space, the words
    joined by [%20] are never longer than the text with its spaces
    replaced, and they are as long only when each space stands alone
    between two words. *)
Lemma join_split_length (s cur : string) :
  no_whitespace (replace_spaces s) = true ->
  String.length (Py.join "%20" (Py.split_from cur s))
  <= String.length cur + String.length (replace_spaces s)
  /\ (String.length (Py.join "%20" (Py.split_from cur s))
      = String.length cur + String.length (replace_spaces s) ->
      s = EmptyString
      \/ single_spaced_from (negb (String.eqb cur EmptyString)) s = true).
Proof.
  revert cur; induction s as [| c s IH]; intros cur Hws.
  - cbn [Py.split_from replace_spaces String.length].
    destruct (String.eqb cur EmptyString); cbn [Py.join String.concat String.length];
      split; auto; lia.
  - cbn [replace_spaces] in *.
    destruct (Ascii.eqb_spec c " "%char) as [-> | Hc].
    + assert (Hws' : no_whitespace (replace_spaces s) = true) by exact Hws.
      change (Py.split_from cur (String " " s))
        with (if String.eqb cur EmptyString
              then Py.split_from EmptyString s
              else cur :: Py.split_from EmptyString s).
      change (single_spaced_from (negb (String.eqb cur EmptyString)) (String " " s))
        with (true && negb (String.eqb cur EmptyString)
              && single_spaced_from false s).
      rewrite length_append.
      change (String.length "%20") with 3.
      destruct (IH EmptyString Hws') as [Hle Heq].
      change (String.length EmptyString) with 0 in Hle, Heq.
      destruct (String.eqb_spec cur EmptyString) as [-> | Hcur].
      * cbn [String.length]; split; [lia | intro H; lia].
      * destruct (Py.split_from EmptyString s) as [| y l] eqn:Hsplit.
        -- rewrite join_single; split; [lia | intro H; lia].
        -- rewrite join_cons by discriminate.
           rewrite !length_append.
           change (String.length "%20") with 3.
           split; [lia |].
           intro H; right.
           destruct Heq as [-> | Hs]; [lia | discriminate Hsplit | exact Hs].
    + apply andb_prop in Hws as [Hsp Hws'].
      apply negb_true_iff in Hsp.
      cbn [Py.split_from single_spaced_from]; rewrite Hsp.
      destruct (IH (cur ++ String c EmptyString)%string Hws') as [Hle Heq].
      rewrite length_append in Hle, Heq.
      cbn [String.length] in *.
      replace (String.eqb (cur ++ String c EmptyString) EmptyString) with false
        in Heq by (destruct cur; reflexivity).
      split; [lia |].
      intro H; right.
      destruct Heq as [-> | Hs]; [lia | reflexivity | exact Hs].
Qed.

Lemma split_from_gap_empty (g s : string) :
  all_whitespace g = true ->
  Py.split_from EmptyString (g ++ s) = Py.split_from EmptyString s.
Proof.
  induction g as [| c g IH]; [reflexivity |].
  cbn [all_whitespace]; intro H; apply andb_prop in H as [Hc Hg].
  cbn [append Py.split_from]; rewrite Hc; exact (IH Hg).
Qed.

Lemma split_from_gap (cur g s : string) :
  cur <> EmptyString -> is_gap g = true ->
  Py.split_from cur (g ++ s) = cur :: Py.split_from EmptyString s.
Proof.
  intros Hcur Hg; destruct g as [| c g]; [discriminate |].
  unfold is_gap in Hg; cbn [String.eqb negb andb all_whitespace] in Hg.
  apply andb_prop in Hg as [Hc Hg].
  cbn [append Py.split_from]; rewrite Hc.
  destruct (String.eqb_spec cur EmptyString); [contradiction |].
  rewrite (split_from_gap_empty g s Hg); reflexivity.
Qed.

Lemma split_from_run (cur w s : string) :
  no_whitespace w = true ->
  Py.split_from cur (w ++ s) = Py.split_from (cur ++ w) s.
Proof.
  revert cur; induction w as [| c w IH]; intros cur.
  - rewrite append_nil_r; reflexivity.
  - cbn [no_whitespace]; intro H; apply andb_prop in H as [Hc Hw].
    apply negb_true_iff in Hc.
    cbn [append Py.split_from]; rewrite Hc, (IH _ Hw), append_assoc.
    reflexivity.
Qed.

Lemma split_from_trail (cur trail : string) :
  cur <> EmptyString -> all_whitespace trail = true ->
  Py.split_from cur trail = [cur].
Proof.
  intros Hcur Ht; destruct trail as [| c t].
  - cbn [Py.split_from].
    destruct (String.eqb_spec cur EmptyString); [contradiction | reflexivity].
  - rewrite <- (append_nil_r (String c t)).
    rewrite split_from_gap; [reflexivity | exact Hcur |].
    unfold is_gap; rewrite Ht; reflexivity.
Qed.

Lemma is_word_not_empty (cur w : string) :
  is_word w = true -> (cur ++ w)%string <> EmptyString.
Proof.
  destruct w as [| c w]; [discriminate |].
  intros _; destruct cur; discriminate.
Qed.

Lemma split_from_spaced (cur : string) (rest : list (string * string))
    (trail : string) :
  cur <> EmptyString ->
  forallb (fun gw => is_gap (fst gw) && is_word (snd gw)) rest = true ->
  all_whitespace trail = true ->
  Py.split_from cur (spaced rest ++ trail) = cur :: map snd rest.
Proof.
  revert cur; induction rest as [| [g w] rest IH]; intros cur Hcur Hrest Ht.
  - apply split_from_trail; assumption.
  - cbn [forallb fst snd] in Hrest.
    apply andb_prop in Hrest as [Hgw Hrest]; apply andb_prop in Hgw as [Hg Hw].
    cbn [spaced map snd]; rewrite !append_assoc.
    rewrite split_from_gap by assumption.
    rewrite split_from_run
      by (unfold is_word in Hw; apply andb_prop in Hw as [_ Hw]; exact Hw).
    rewrite IH; [reflexivity | | exact Hrest | exact Ht].
    apply (is_word_not_empty EmptyString); exact Hw.
Qed.

(** [split] gives the words of a text, whatever whitespace stands before,
    between and after them. *)
Lemma split_words_text (lead w : string) (rest : list (string * string))
    (trail : string) :
  gaps_and_words lead w rest trail = true ->
  Py.split (words_text lead w rest trail) = w :: map snd rest.
Proof.
  unfold gaps_and_words, words_text, Py.split; intro H.
  apply andb_prop in H as [H Ht]; apply andb_prop in H as [H Hrest].
  apply andb_prop in H as [Hlead Hw].
  rewrite split_from_gap_empty by exact Hlead.
  rewrite split_from_run
    by (unfold is_word in Hw; apply andb_prop in Hw as [_ Hw']; exact Hw').
  apply split_from_spaced; [| exact Hrest | exact Ht].
  apply (is_word_not_empty EmptyString); exact Hw.
Qed.

Lemma split_all_whitespace (p : string) :
  all_whitespace p = true -> Py.split p = [].
Proof.
  intro H; unfold Py.split.
  rewrite <- (append_nil_r p), split_from_gap_empty by exact H.
  reflexivity.
Qed.

(** C6.  The target of the demo link of every row is [demo_target] of the
    demo path.  For [My Folder/demo] it is [My%20Folder/demo], as the
    specification says.  But the target is the path with each space
    replaced by [%20] only when the path holds no space or when each of
    its whitespace characters is a space that stands alone between two
    words: once the path holds a space the code joins its words by [%20],
    so whatever whitespace stands between two words, a run of spaces or a
    tab, gives one [%20], and the whitespace before the first word and
    after the last is dropped; a path of whitespace only gives the empty
    target.  On [My  Folder/demo], with two spaces, the target is
    [My%20Folder/demo] and not [My%20%20Folder/demo]. *)
Theorem demo_target_spaces :
  (forall REPO_NAME title d, exists label,
      demo_path_output REPO_NAME title d
      = md_link label (demo_target (demo_path d))
          ("view the result of " ++ title))
  /\ demo_target "My Folder/demo" = "My%20Folder/demo"%string
  /\ (forall p, demo_target p = replace_spaces p
                <-> Py.str_in " " p = false \/ single_spaced p = true)
  /\ (forall lead w rest trail,
        gaps_and_words lead w rest trail = true ->
        Py.str_in " " (words_text lead w rest trail) = true ->
        demo_target (words_text lead w rest trail)
        = Py.join "%20" (w :: map snd rest))
  /\ (forall p, all_whitespace p = true -> Py.str_in " " p = true ->
                demo_target p = EmptyString)
  /\ demo_target "My  Folder/demo" = "My%20Folder/demo"%string
  /\ replace_spaces "My  Folder/demo" = "My%20%20Folder/demo"%string.
Proof.
  split; [| split; [reflexivity | split; [| split; [| split; [| split]]]]];
    try reflexivity.
  - intros REPO_NAME title d; unfold demo_path_output.
    destruct (String.eqb title "root" || String.eqb title "{init}");
      [eexists; reflexivity |].
    destruct (String.eqb title "{workflows}"); [eexists; reflexivity |].
    destruct (String.eqb title "{scripts}"); [eexists; reflexivity |].
    destruct (String.eqb title "{others}"); eexists; reflexivity.
  - intro p; split.
    + intro H; destruct (Py.str_in " " p) eqn:Hin; [right | left; reflexivity].
      unfold demo_target in H; rewrite Hin in H.
      assert (Hws : no_whitespace (replace_spaces p) = true).
      { rewrite <- H; apply no_whitespace_join; [reflexivity |].
        apply no_whitespace_split_from; reflexivity. }
      destruct (join_split_length p EmptyString Hws) as [_ Heq].
      destruct p as [| c p]; [discriminate |].
      destruct Heq as [E | E]; [| discriminate | exact E].
      unfold Py.split in H; rewrite H; reflexivity.
    + intros [Hin | Hp].
      * unfold demo_target; rewrite Hin.
        symmetry; apply replace_spaces_none; exact Hin.
      * unfold demo_target.
        destruct (Py.str_in " " p) eqn:Hin.
        -- destruct p as [| c p]; [discriminate |].
           apply (join_split_single_spaced (String c p) EmptyString).
           exact Hp.
        -- symmetry; apply replace_spaces_none; exact Hin.
  - intros lead w rest trail Hgw Hin.
    unfold demo_target; rewrite Hin, split_words_text by exact Hgw.
    reflexivity.
  - intros p Hp Hin.
    unfold demo_target; rewrite Hin, split_all_whitespace by exact Hp.
    reflexivity.
Qed.

(** The path [My  Folder/demo]: two words with two spaces between them. *)
Lemma demo_target_spaces_witness :
  demo_target "My  Folder/demo" = "My%20Folder/demo"%string.
Proof.
  apply (proj1 (proj2 (proj2 (proj2 demo_target_spaces)))
           EmptyString "My"%string [("  "%string, "Folder/demo"%string)]
           EmptyString);
    reflexivity.
Defined.

(** ** The table of content *)

(** One turn of the extraction loop on a table of the three categories. *)
Lemma extract_entry_categories (title : string) (data : details)
    (a b c : Py.dict sub_headings) :
  extract_entry title data (categories a b c)
  = if String.eqb (core data) "Theory"
    then a' <- extract_in_category title (specificity data) a ;;
         Ok (categories a' b c)
    else if String.eqb (core data) "Solved-Problems"
    then b' <- extract_in_category title (specificity data) b ;;
         Ok (categories a b' c)
    else if String.eqb (core data) "Repo"
    then c' <- extract_in_category title (specificity data) c ;;
         Ok (categories a b c')
    else Raise (KeyError (core data)).
Proof.
  unfold extract_entry, lookup_core, categories, extract_in_category.
  cbn [Py.get].
  destruct (String.eqb_spec (core data) "Theory") as [-> | H1].
  { cbn [bind Py.set]. rewrite ?String.eqb_refl.
    destruct (Py.get (specificity data) a) as [v |]; [| reflexivity].
    destruct (negb (String.eqb title (specificity data))); [| reflexivity].
    destruct (title_not_in title v) as [[|] | |]; reflexivity. }
  destruct (String.eqb_spec (core data) "Solved-Problems") as [-> | H2].
  { cbn [bind Py.set String.eqb Ascii.eqb Bool.eqb]. rewrite ?String.eqb_refl.
    destruct (Py.get (specificity data) b) as [v |]; [| reflexivity].
    destruct (negb (String.eqb title (specificity data))); [| reflexivity].
    destruct (title_not_in title v) as [[|] | |]; reflexivity. }
  destruct (String.eqb_spec (core data) "Repo") as [-> | H3].
  { cbn [bind Py.set String.eqb Ascii.eqb Bool.eqb]. rewrite ?String.eqb_refl.
    destruct (Py.get (specificity data) c) as [v |]; [| reflexivity].
    destruct (negb (String.eqb title (specificity data))); [| reflexivity].
    destruct (title_not_in title v) as [[|] | |]; reflexivity. }
  reflexivity.
Qed.

(** The extraction never adds a category, removes one or reorders them. *)
Lemma extract_categories (DATA : log) (a b c : Py.dict sub_headings)
    (toc : table_of_content_t) :
  extract DATA (categories a b c) = Ok toc ->
  exists a' b' c', toc = categories a' b' c'.
Proof.
  revert a b c; induction DATA as [| [title data] rest IH]; intros a b c; simpl.
  - intro H; inversion H; subst; exists a, b, c; reflexivity.
  - rewrite extract_entry_categories.
    destruct (String.eqb (core data) "Theory");
      [| destruct (String.eqb (core data) "Solved-Problems");
         [| destruct (String.eqb (core data) "Repo"); [| discriminate]]];
      destruct (extract_in_category title (specificity data) _);
      simpl; try discriminate; apply IH.
Qed.

Lemma extract_app (before after : log) (toc : table_of_content_t) :
  extract (before ++ after) toc = (toc' <- extract before toc ;; extract after toc').
Proof.
  revert toc; induction before as [| [title data] rest IH]; intro toc; simpl.
  - reflexivity.
  - destruct (extract_entry title data toc); simpl; auto.
Qed.

(** The rendering reads the categories [Theory] and [Solved-Problems]
    only. *)
Lemma render_categories (cond : condition) (a b c : Py.dict sub_headings) :
  render_table cond (sort_table (categories a b c))
  = core_lines cond ("Theory"%string, sort_value a)
    ++ core_lines cond ("Solved-Problems"%string, sort_value b).
Proof.
  unfold render_table, sort_table, categories.
  cbn [map flat_map fst snd].
  replace (core_lines cond ("Repo"%string, sort_value c)) with (@nil string).
  - rewrite !app_nil_r; reflexivity.
  - unfold core_lines. rewrite String.eqb_refl, orb_true_r; reflexivity.
Qed.

(** The entries of [Repo] leave the other two categories as they are. *)
Lemma extract_without_repo (DATA : log) (a b c c' : Py.dict sub_headings)
    (toc : table_of_content_t) :
  extract DATA (categories a b c) = Ok toc ->
  exists a2 b2 c2 c2',
    toc = categories a2 b2 c2 /\
    extract (without_repo DATA) (categories a b c') = Ok (categories a2 b2 c2').
Proof.
  revert a b c c'; induction DATA as [| [title data] rest IH];
    intros a b c c'; simpl.
  - intro H; inversion H; subst; exists a, b, c, c'; split; reflexivity.
  - rewrite extract_entry_categories.
    destruct (String.eqb_spec (core data) "Theory") as [E1 | N1].
    { rewrite E1; cbn [String.eqb Ascii.eqb Bool.eqb negb extract].
      rewrite extract_entry_categories, E1; cbn [String.eqb Ascii.eqb Bool.eqb].
      destruct (extract_in_category title (specificity data) a) as [a' | |];
        simpl; try discriminate.
      apply IH. }
    destruct (String.eqb_spec (core data) "Solved-Problems") as [E2 | N2].
    { rewrite E2; cbn [String.eqb Ascii.eqb Bool.eqb negb extract].
      rewrite extract_entry_categories, E2; cbn [String.eqb Ascii.eqb Bool.eqb].
      destruct (extract_in_category title (specificity data) b) as [b' | |];
        simpl; try discriminate.
      apply IH. }
    destruct (String.eqb_spec (core data) "Repo") as [E3 | N3].
    { cbn [negb].
      destruct (extract_in_category title (specificity data) c) as [c2 | |];
        simpl; try discriminate.
      apply IH. }
    discriminate.
Qed.

(** C7.  The category [Repo] is never rendered, with or without a filter:
    the rendering of a table passes over every item whose key is [Repo],
    and whenever the table of content of a file is updated, the lines
    written are those written for the log without its [Repo] entries. *)
Theorem repo_never_rendered :
  (forall cond by_specificity, core_lines cond ("Repo"%string, by_specificity) = [])
  /\ (forall cond DATA lines out,
        update_table_of_content cond DATA lines = Ok out ->
        update_table_of_content cond (without_repo DATA) lines = Ok out).
Proof.
  split.
  - intros cond by_specificity; unfold core_lines.
    rewrite String.eqb_refl, orb_true_r; reflexivity.
  - intros cond DATA lines out; unfold update_table_of_content.
    destruct (find_table_points lines "table-of-content") as [[s e] | |];
      cbn [bind]; try discriminate.
    unfold content_lines.
    destruct (extract DATA skeleton) as [toc | |] eqn:Hex;
      cbn [bind]; try discriminate.
    destruct (extract_without_repo DATA [] [] [] [] toc Hex)
      as [a2 [b2 [c2 [c2' [-> Hex']]]]].
    change (categories [] [] []) with skeleton in Hex'.
    rewrite Hex'; cbn [bind].
    rewrite !render_categories; auto.
Qed.

(** A log with an entry of the repository and an entry of [Theory]: the
    table of content of the root index is that of the [Theory] entry
    alone. *)
Lemma repo_never_rendered_witness :
  update_table_of_content None
    (without_repo [("{scripts}"%string, sample "Repo" "Scripts");
                   ("QuickSort"%string, sample "Theory" "Sorting")])
    empty_tables
  = Ok [ ("# Index" ++ Py.nl)%string;
         (CONTRIBUTORS_BEGINS ++ Py.nl)%string;
         (CONTRIBUTORS_ENDS ++ Py.nl)%string;
         (CONTENT_BEGINS ++ Py.nl)%string;
         ("- [__Theory__](Theory " ++ Py.dq ++ "goto Theory" ++ Py.dq ++ ")"
          ++ Py.nl)%string;
         (Py.tab ++ "- [Sorting](Theory/Sorting " ++ Py.dq ++ "goto Sorting"
          ++ Py.dq ++ ")" ++ Py.nl)%string;
         (Py.tab ++ Py.tab ++ "- [QuickSort](Theory/Sorting/QuickSort " ++ Py.dq
          ++ "goto QuickSort" ++ Py.dq ++ ")" ++ Py.nl)%string;
         ("- [__Solved-Problems__](Solved-Problems " ++ Py.dq
          ++ "goto Solved-Problems" ++ Py.dq ++ ")" ++ Py.nl)%string;
         (CONTENT_ENDS ++ Py.nl)%string ].
Proof.
  apply (proj2 repo_never_rendered); reflexivity.
Defined.

(** C8.  When an entry titled as its specificity opens the log and the
    next entry has the same category and specificity under another title,
    the first leaves [None] under the specificity and the membership test
    of the second is made on that [None]: the run ends with a [TypeError],
    with or without a filter, whatever the other fields and the rest of the
    log are.  In the other order the specificity is the heading and the
    other title its one sub-entry. *)
Theorem heading_entry_first_type_error :
  (forall cond d1 title2 d2 rest,
      known_core (core d1) = true ->
      core d2 = core d1 ->
      specificity d2 = specificity d1 ->
      title2 <> specificity d1 ->
      content_lines cond ((specificity d1, d1) :: (title2, d2) :: rest)
      = Raise TypeError)
  /\ content_lines (Some (String.eqb "Theory"))
       [("QuickSort"%string, sample "Theory" "Sorting");
        ("Sorting"%string, sample "Theory" "Sorting")]
     = Ok [ ("- [__Sorting__](Sorting " ++ Py.dq ++ "goto Sorting" ++ Py.dq
             ++ ")" ++ Py.nl)%string;
            (Py.tab ++ "- [QuickSort](Sorting/QuickSort " ++ Py.dq
             ++ "goto QuickSort" ++ Py.dq ++ ")" ++ Py.nl)%string ].
Proof.
  split; [| reflexivity].
  intros cond d1 title2 d2 rest Hcore Hcore2 Hspec2 Hne.
  assert (Hfirst : extract_in_category (specificity d1) (specificity d1) []
                   = Ok [(specificity d1, None)]).
  { unfold extract_in_category; cbn [Py.get Py.set].
    rewrite String.eqb_refl; reflexivity. }
  assert (Hsecond : extract_in_category title2 (specificity d1)
                      [(specificity d1, None)] = Raise TypeError).
  { unfold extract_in_category; cbn [Py.get].
    rewrite String.eqb_refl.
    destruct (String.eqb_spec title2 (specificity d1)); [contradiction |].
    reflexivity. }
  unfold content_lines; cbn [extract].
  change skeleton with (categories [] [] []).
  rewrite extract_entry_categories.
  unfold known_core in Hcore.
  destruct (String.eqb (core d1) "Theory") eqn:E1;
    [| destruct (String.eqb (core d1) "Solved-Problems") eqn:E2;
       [| destruct (String.eqb (core d1) "Repo") eqn:E3; [| discriminate]]];
    rewrite Hfirst; cbn [bind];
    rewrite extract_entry_categories, Hcore2, Hspec2, ?E1, ?E2, ?E3, Hsecond;
    reflexivity.
Qed.

(** The entries [Sorting] and [QuickSort] of the specificity [Sorting] of
    [Theory], in that order. *)
Lemma heading_entry_first_type_error_witness :
  content_lines None
    [(specificity (sample "Theory" "Sorting"), sample "Theory" "Sorting");
     ("QuickSort"%string, sample "Theory" "Sorting")]
  = Raise TypeError.
Proof.
  apply (proj1 heading_entry_first_type_error); try reflexivity.
  discriminate.
Defined.





Lemma firstn_length_app {A : Type} (l1 l2 : list A) :
  firstn (length l1) (l1 ++ l2) = l1.
Proof.
  induction l1 as [| x l1 IH]; simpl; [reflexivity | rewrite IH; reflexivity].
Qed.

Lemma skipn_length_app {A : Type} (l1 l2 : list A) :
  skipn (length l1) (l1 ++ l2) = l2.
Proof.
  induction l1 as [| x l1 IH]; simpl; [reflexivity | exact IH].
Qed.

(** The slice between two lines of a list. *)
Lemma slice_assign_located {A : Type} (pre mid post x : list A) (lb le : A) :
  Py.slice_assign (pre ++ lb :: mid ++ le :: post)
    (length pre + 1) (length pre + 1 + length mid) x
  = pre ++ lb :: x ++ le :: post.
Proof.
  unfold Py.slice_assign.
  assert (Hlen : length (pre ++ lb :: mid ++ le :: post)
                 = length pre + 1 + length mid + 1 + length post).
  { rewrite length_app; simpl; rewrite length_app; simpl; lia. }
  rewrite Hlen.
  replace (Nat.min (length pre + 1)
             (length pre + 1 + length mid + 1 + length post))
    with (length (pre ++ [lb])) by (rewrite length_app; simpl; lia).
  replace (Nat.max (length (pre ++ [lb]))
             (Nat.min (length pre + 1 + length mid)
                (length pre + 1 + length mid + 1 + length post)))
    with (length ((pre ++ [lb]) ++ mid))
    by (rewrite !length_app; simpl; lia).
  replace (pre ++ lb :: mid ++ le :: post)
    with ((pre ++ [lb]) ++ mid ++ le :: post) at 1
    by (rewrite <- app_assoc; reflexivity).
  rewrite firstn_length_app.
  replace (pre ++ lb :: mid ++ le :: post)
    with (((pre ++ [lb]) ++ mid) ++ le :: post)
    by (rewrite <- !app_assoc; reflexivity).
  rewrite skipn_length_app, <- app_assoc; reflexivity.
Qed.

Lemma content_markers :
  select_markers "table-of-content" = Ok (CONTENT_BEGINS, CONTENT_ENDS).
Proof. reflexivity. Qed.

Lemma contributors_markers :
  select_markers "contributors" = Ok (CONTRIBUTORS_BEGINS, CONTRIBUTORS_ENDS).
Proof. reflexivity. Qed.

Lemma firstn_skipn_located {A : Type} (pre mid post : list A) (lb le : A) :
  firstn (length pre + 1) (pre ++ lb :: mid ++ le :: post)
  ++ skipn (length pre + 1 + length mid) (pre ++ lb :: mid ++ le :: post)
  = pre ++ lb :: le :: post.
Proof.
  replace (length pre + 1) with (length (pre ++ [lb])) at 1
    by (rewrite length_app; simpl; lia).
  replace (length pre + 1 + length mid) with (length ((pre ++ [lb]) ++ mid))
    by (rewrite !length_app; simpl; lia).
  replace (pre ++ lb :: mid ++ le :: post)
    with ((pre ++ [lb]) ++ mid ++ le :: post) at 1
    by (rewrite <- app_assoc; reflexivity).
  rewrite firstn_length_app.
  replace (pre ++ lb :: mid ++ le :: post)
    with (((pre ++ [lb]) ++ mid) ++ le :: post)
    by (rewrite <- !app_assoc; reflexivity).
  rewrite skipn_length_app, <- app_assoc; reflexivity.
Qed.

(** C10.  With a filter that accepts neither [Theory] nor
    [Solved-Problems], whatever it says of [Repo], and on lines in which
    the markers are found: when the log is extracted, the update of the
    table of content writes no line at all, so that the lines up to the
    begin marker are followed at once by the end marker and the lines
    after it, and a new search finds the end marker on the line after the
    begin marker; and when the extraction of the log raises an exception,
    the update raises it and gives no lines. *)
Theorem content_region_emptied (f : string -> bool) (DATA : log)
    (lines : list string) (s e : nat) :
  f "Theory"%string = false ->
  f "Solved-Problems"%string = false ->
  find_table_points lines "table-of-content" = Ok (s, e) ->
  (forall toc,
     extract DATA skeleton = Ok toc ->
     content_lines (Some f) DATA = Ok []
     /\ update_table_of_content (Some f) DATA lines
        = Ok (firstn (s + 1) lines ++ skipn e lines)
     /\ find_table_points (firstn (s + 1) lines ++ skipn e lines)
          "table-of-content"
        = Ok (s, s + 1))
  /\ (forall x,
        extract DATA skeleton = Raise x ->
        update_table_of_content (Some f) DATA lines = Raise x).
Proof.
  intros Hf1 Hf2 Hfind; split.
  - intros toc Hex.
    assert (Hlines : content_lines (Some f) DATA = Ok []).
    { unfold content_lines; rewrite Hex; cbn [bind].
      destruct (extract_categories DATA [] [] [] toc Hex) as [a [b [c ->]]].
      rewrite render_categories; unfold core_lines, rejects.
      rewrite Hf1, Hf2; reflexivity. }
    split; [exact Hlines |].
    unfold update_table_of_content; rewrite Hfind, Hlines; cbn [bind].
    apply (find_table_points_located lines _ _ _ s e content_markers) in Hfind.
    destruct Hfind
      as [pre [lb [mid [le [post [-> [-> [-> [H1 [H2 [H3 [H4 H5]]]]]]]]]]]].
    rewrite slice_assign_located, firstn_skipn_located; simpl.
    split; [reflexivity |].
    apply (find_table_points_located _ _ _ _ _ _ content_markers).
    exists pre, lb, [], le, post; simpl.
    repeat split; auto; try lia; intros l [].
  - intros x Hx.
    unfold update_table_of_content, content_lines.
    rewrite Hfind, Hx; reflexivity.
Qed.

(** A filter that accepts no category, on a file whose table of content
    holds two lines. *)
Lemma content_region_emptied_witness :
  update_table_of_content (Some (fun _ => false))
    [("QuickSort"%string, sample "Theory" "Sorting")]
    [ (CONTENT_BEGINS ++ Py.nl)%string; "- a"%string; "- b"%string;
      (CONTENT_ENDS ++ Py.nl)%string; "the end"%string ]
  = Ok [ (CONTENT_BEGINS ++ Py.nl)%string; (CONTENT_ENDS ++ Py.nl)%string;
         "the end"%string ].
Proof.
  apply (proj1 (content_region_emptied (fun _ => false)
                  [("QuickSort"%string, sample "Theory" "Sorting")]
                  [ (CONTENT_BEGINS ++ Py.nl)%string; "- a"%string;
                    "- b"%string; (CONTENT_ENDS ++ Py.nl)%string;
                    "the end"%string ]
                  0 3 eq_refl eq_refl eq_refl)
           (categories [("Sorting"%string, Some ["QuickSort"%string])] [] []));
    reflexivity.
Defined.

(** C10 as the specification states it, for every log, fails on the logs
    whose extraction raises: with a filter that accepts no category, on
    the same file, a log with the category [Misc] ends the update with a
    [KeyError], and a log whose heading entry comes first ends it with a
    [TypeError]; the two lines of the table are not replaced. *)
Lemma content_region_not_emptied :
  update_table_of_content (Some (fun _ => false))
    [("Heap"%string, sample "Misc" "Trees")]
    [ (CONTENT_BEGINS ++ Py.nl)%string; "- a"%string; "- b"%string;
      (CONTENT_ENDS ++ Py.nl)%string; "the end"%string ]
  = Raise (KeyError "Misc")
  /\ update_table_of_content (Some (fun _ => false))
       [("Sorting"%string, sample "Theory" "Sorting");
        ("QuickSort"%string, sample "Theory" "Sorting")]
       [ (CONTENT_BEGINS ++ Py.nl)%string; "- a"%string; "- b"%string;
         (CONTENT_ENDS ++ Py.nl)%string; "the end"%string ]
     = Raise TypeError.
Proof.
  split; reflexivity.
Qed.

(** ** The lines the two updates write, and the lines they leave *)

(** Both sides of an equation of lists, with their appends nested to the
    right. *)
Ltac flatten := repeat (progress (try rewrite <- !app_assoc; cbn [app])).


Lemma find_table_points_region (search_type b e : string)
    (pre mid post : list string) (lb le : string) :
  select_markers search_type = Ok (b, e) ->
  region b e pre lb mid le ->
  find_table_points (pre ++ lb :: mid ++ le :: post) search_type
  = Ok (length pre, length pre + 1 + length mid).
Proof.
  intros Hsel Hreg.
  apply (find_table_points_located _ _ _ _ _ _ Hsel).
  exists pre, lb, mid, le, post; repeat split; try apply Hreg.
Qed.

(** A slice that is empty, because its stop is not after its start, puts
    the new elements at its start. *)
Lemma slice_assign_insert {A : Type} (l1 l2 x : list A) (j : nat) :
  j <= length l1 ->
  Py.slice_assign (l1 ++ l2) (length l1) j x = l1 ++ x ++ l2.
Proof.
  intro Hj; unfold Py.slice_assign.
  rewrite length_app.
  replace (Nat.min (length l1) (length l1 + length l2)) with (length l1) by lia.
  replace (Nat.max (length l1) (Nat.min j (length l1 + length l2)))
    with (length l1) by lia.
  rewrite firstn_length_app, skipn_length_app; reflexivity.
Qed.

(** The update of the table of content writes its lines between the two
    markers and leaves every other line. *)
Lemma update_table_of_content_region (cond : condition) (DATA : log)
    (pre mid post : list string) (lb le : string) :
  region CONTENT_BEGINS CONTENT_ENDS pre lb mid le ->
  update_table_of_content cond DATA (pre ++ lb :: mid ++ le :: post)
  = (updated_lines <- content_lines cond DATA ;;
     Ok (pre ++ lb :: updated_lines ++ le :: post)).
Proof.
  intro Hreg; unfold update_table_of_content.
  rewrite (find_table_points_region _ _ _ _ _ post _ _ content_markers Hreg).
  cbn [bind].
  destruct (content_lines cond DATA) as [updated_lines | |]; cbn [bind];
    try reflexivity.
  rewrite slice_assign_located; reflexivity.
Qed.

(** The update of the contributors table, when the lines between its
    markers are none or two and more: the header stays or is written, the
    rows follow it, and every other line is left. *)
Lemma update_table_of_contributors_region (cond : condition)
    (REPO_NAME : option string) (DATA : log)
    (pre mid post : list string) (lb le : string) :
  region CONTRIBUTORS_BEGINS CONTRIBUTORS_ENDS pre lb mid le ->
  length mid <> 1 ->
  update_table_of_contributors cond REPO_NAME DATA (pre ++ lb :: mid ++ le :: post)
  = Ok (pre ++ lb :: (kept_header cond mid ++ contributor_lines cond REPO_NAME DATA)
          ++ le :: post).
Proof.
  intros Hreg Hmid; unfold update_table_of_contributors.
  rewrite (find_table_points_region _ _ _ _ _ post _ _ contributors_markers Hreg).
  cbn [bind]. f_equal.
  destruct mid as [| h1 [| h2 old]]; [| contradiction |].
  - replace (Nat.eqb (length pre + 1 + length (@nil string) - length pre) 1)
      with true by (symmetry; apply Nat.eqb_eq; simpl; lia).
    rewrite slice_assign_located. cbn [kept_header].
    replace (pre ++ lb :: table_header cond ++ le :: post)
      with ((pre ++ lb :: table_header cond) ++ le :: post)
      by (rewrite <- app_assoc; reflexivity).
    replace (length pre + 3) with (length (pre ++ lb :: table_header cond))
      by (rewrite length_app; destruct cond; simpl; lia).
    rewrite slice_assign_insert
      by (rewrite length_app; destruct cond; simpl; lia).
    rewrite <- !app_assoc; reflexivity.
  - replace (Nat.eqb (length pre + 1 + length (h1 :: h2 :: old) - length pre) 1)
      with false by (symmetry; apply Nat.eqb_neq; simpl; lia).
    cbn [kept_header firstn].
    replace (pre ++ lb :: (h1 :: h2 :: old) ++ le :: post)
      with ((pre ++ [lb; h1]) ++ h2 :: old ++ le :: post)
      by (rewrite <- app_assoc; reflexivity).
    replace (length pre + 3) with (length (pre ++ [lb; h1]) + 1)
      by (rewrite length_app; simpl; lia).
    replace (length pre + 1 + length (h1 :: h2 :: old))
      with (length (pre ++ [lb; h1]) + 1 + length old)
      by (rewrite length_app; simpl; lia).
    rewrite slice_assign_located, <- app_assoc; reflexivity.
Qed.

(** The same update when one line stands between the markers: the rows
    are written after the end marker. *)
Lemma update_table_of_contributors_one_line (cond : condition)
    (REPO_NAME : option string) (DATA : log)
    (pre post : list string) (lb only le : string) :
  region CONTRIBUTORS_BEGINS CONTRIBUTORS_ENDS pre lb [only] le ->
  update_table_of_contributors cond REPO_NAME DATA
    (pre ++ lb :: [only] ++ le :: post)
  = Ok (pre ++ lb :: only :: le :: contributor_lines cond REPO_NAME DATA ++ post).
Proof.
  intros Hreg; unfold update_table_of_contributors.
  rewrite (find_table_points_region _ _ _ _ _ post _ _ contributors_markers Hreg).
  cbn [bind]. f_equal.
  replace (Nat.eqb (length pre + 1 + length [only] - length pre) 1)
    with false by (symmetry; apply Nat.eqb_neq; simpl; lia).
  replace (pre ++ lb :: [only] ++ le :: post)
    with ((pre ++ [lb; only; le]) ++ post)
    by (rewrite <- app_assoc; reflexivity).
  replace (length pre + 3) with (length (pre ++ [lb; only; le]))
    by (rewrite length_app; simpl; lia).
  rewrite slice_assign_insert by (rewrite length_app; simpl; lia).
  rewrite <- app_assoc; reflexivity.
Qed.

Lemma markers_held_inv (l : string) (b1 b2 b3 b4 : bool) :
  markers_held l = [b1; b2; b3; b4] ->
  Py.str_in CONTRIBUTORS_BEGINS l = b1 /\ Py.str_in CONTRIBUTORS_ENDS l = b2 /\
  Py.str_in CONTENT_BEGINS l = b3 /\ Py.str_in CONTENT_ENDS l = b4.
Proof.
  unfold markers_held; cbn [map]; intro H; injection H; auto.
Qed.

Lemma marker_free_header (cond : condition) :
  Forall marker_free (table_header cond).
Proof.
  destruct cond; repeat constructor.
Qed.

Lemma marker_free_kept_header (cond : condition) (mid : list string) :
  Forall marker_free mid -> Forall marker_free (kept_header cond mid).
Proof.
  intro Hmid; destruct mid as [| h1 [| h2 old]].
  - apply marker_free_header.
  - exact Hmid.
  - cbn [kept_header firstn].
    inversion Hmid as [| ? ? H1 Hrest]; inversion Hrest; subst.
    repeat constructor; assumption.
Qed.

(** A line of a list of lines that hold no marker holds none of them. *)
Ltac no_marker :=
  let l := fresh "l" in
  let Hin := fresh "Hin" in
  intros l Hin;
  repeat (first [ apply in_app_or in Hin as [Hin | Hin]
                | destruct Hin as [<- | Hin] ]);
  try contradiction;
  match goal with
  | H : Forall marker_free ?ls, Hl : In ?x ?ls |- Py.str_in _ ?x = false =>
      apply (proj1 (Forall_forall _ _) H) in Hl;
      apply markers_held_inv in Hl; tauto
  | H : markers_held ?x = _ |- Py.str_in _ ?x = false =>
      apply markers_held_inv in H; tauto
  end.

(** On a file whose two tables are well formed, and whose contributors
    table holds no line or two lines and more, one run writes the rows
    after the two lines of the header and the outline between its markers;
    every other line stays. *)
Lemma update_lines_frame (o : table_order) (cond : condition)
    (REPO_NAME : option string) (DATA : log)
    (A mid B mid2 C : list string) (cb ce tb te : string) :
  well_formed A cb mid ce B tb mid2 te ->
  length mid <> 1 ->
  Forall marker_free (contributor_lines cond REPO_NAME DATA) ->
  update_lines cond REPO_NAME DATA (assemble o A cb mid ce B tb mid2 te C)
  = (outline <- content_lines cond DATA ;;
     Ok (assemble o A cb
           (kept_header cond mid ++ contributor_lines cond REPO_NAME DATA)
           ce B tb outline te C)).
Proof.
  intros [HA [Hmid [HB [Hmid2 [Hcb [Hce [Htb Hte]]]]]]] Hlen Hrows.
  pose proof (marker_free_kept_header cond mid Hmid) as Hkept.
  unfold update_lines; destruct o; cbn [assemble].
  - rewrite update_table_of_contributors_region; [| | exact Hlen].
    + cbn [bind].
      replace (A ++ cb :: (kept_header cond mid
                 ++ contributor_lines cond REPO_NAME DATA)
                 ++ ce :: B ++ tb :: mid2 ++ te :: C)
        with ((A ++ cb :: (kept_header cond mid
                 ++ contributor_lines cond REPO_NAME DATA) ++ ce :: B)
              ++ tb :: mid2 ++ te :: C)
        by (flatten; reflexivity).
      rewrite update_table_of_content_region.
      * destruct (content_lines cond DATA); cbn [bind]; try reflexivity.
        rewrite <- !app_assoc; cbn [app]; rewrite <- !app_assoc; reflexivity.
      * repeat split; try no_marker;
          [apply markers_held_inv in Htb | apply markers_held_inv in Hte]; tauto.
    + repeat split; try no_marker;
        [apply markers_held_inv in Hcb | apply markers_held_inv in Hce]; tauto.
  - replace (A ++ tb :: mid2 ++ te :: B ++ cb :: mid ++ ce :: C)
      with ((A ++ tb :: mid2 ++ te :: B) ++ cb :: mid ++ ce :: C)
      by (flatten; reflexivity).
    rewrite update_table_of_contributors_region; [| | exact Hlen].
    + cbn [bind].
      replace ((A ++ tb :: mid2 ++ te :: B)
               ++ cb :: (kept_header cond mid
                 ++ contributor_lines cond REPO_NAME DATA) ++ ce :: C)
        with (A ++ tb :: mid2 ++ te :: B
              ++ cb :: (kept_header cond mid
                 ++ contributor_lines cond REPO_NAME DATA) ++ ce :: C)
        by (flatten; reflexivity).
      rewrite update_table_of_content_region; [reflexivity |].
      repeat split; try no_marker;
        [apply markers_held_inv in Htb | apply markers_held_inv in Hte]; tauto.
    + repeat split; try no_marker;
        [apply markers_held_inv in Hcb | apply markers_held_inv in Hce]; tauto.
Qed.

Lemma kept_header_length (cond : condition) (mid : list string) :
  length mid <> 1 -> length (kept_header cond mid) = 2.
Proof.
  destruct mid as [| h1 [| h2 old]]; intro H;
    [destruct cond; reflexivity | contradiction | reflexivity].
Qed.

Lemma kept_header_again (cond : condition) (mid rows : list string) :
  length mid <> 1 ->
  kept_header cond (kept_header cond mid ++ rows) = kept_header cond mid.
Proof.
  intro H; pose proof (kept_header_length cond mid H) as Hlen.
  destruct (kept_header cond mid) as [| h1 [| h2 [| h3 rest]]];
    try discriminate.
  reflexivity.
Qed.

(** Under the conditions of [update_lines_frame], and when the outline
    holds no marker either, a run on the lines a run has written writes
    the same lines. *)
Lemma update_lines_idempotent (o : table_order) (cond : condition)
    (REPO_NAME : option string) (DATA : log)
    (A mid B mid2 C : list string) (cb ce tb te : string)
    (outline out : list string) :
  well_formed A cb mid ce B tb mid2 te ->
  length mid <> 1 ->
  Forall marker_free (contributor_lines cond REPO_NAME DATA) ->
  content_lines cond DATA = Ok outline ->
  Forall marker_free outline ->
  update_lines cond REPO_NAME DATA (assemble o A cb mid ce B tb mid2 te C) = Ok out ->
  out = assemble o A cb
          (kept_header cond mid ++ contributor_lines cond REPO_NAME DATA)
          ce B tb outline te C
  /\ update_lines cond REPO_NAME DATA out = Ok out.
Proof.
  intros Hwf Hlen Hrows Hout Houtline Hrun.
  rewrite update_lines_frame, Hout in Hrun by assumption.
  cbn [bind] in Hrun; inversion Hrun as [Heq]; clear Hrun.
  split; [reflexivity |].
  destruct Hwf as [HA [Hmid [HB [Hmid2 [Hcb [Hce [Htb Hte]]]]]]].
  rewrite update_lines_frame, Hout; cbn [bind].
  - rewrite kept_header_again by exact Hlen; reflexivity.
  - repeat split; try assumption.
    apply Forall_app; split; [apply marker_free_kept_header |]; assumption.
  - rewrite length_app, kept_header_length by exact Hlen; lia.
  - exact Hrows.
Qed.

(** ** A contributors table of one line *)

(** The rows are never none: the row of dashes stands for them. *)
Lemma contributor_loop_entries (cond : condition) (REPO_NAME : option string)
    (DATA : log) (st : list string * bool) :
  (snd st = true -> fst st <> []) ->
  snd (contributor_loop cond REPO_NAME DATA st) = true ->
  fst (contributor_loop cond REPO_NAME DATA st) <> [].
Proof.
  revert st; induction DATA as [| [title d] rest IH]; intros st Hst; simpl.
  - exact Hst.
  - destruct (rejects cond (core d)); apply IH; [exact Hst |].
    intros _; cbn [fst]; destruct (fst st); discriminate.
Qed.

Lemma contributor_lines_not_empty (cond : condition)
    (REPO_NAME : option string) (DATA : log) :
  contributor_lines cond REPO_NAME DATA <> [].
Proof.
  unfold contributor_lines.
  pose proof (contributor_loop_entries cond REPO_NAME DATA ([], false)) as H.
  destruct (contributor_loop cond REPO_NAME DATA ([], false)) as [ls b].
  cbn [fst snd] in H.
  destruct b; cbn [negb].
  - apply H; [discriminate | reflexivity].
  - destruct ls; discriminate.
Qed.

(** C1.  On every file whose contributors table holds one line, the
    update of that table writes the rows after the end marker, and writes
    them once more when it runs on the lines it has written, so that the
    second result is longer than the first.  On the file of six lines whose
    contributors table holds a blank line, the text written by the second
    run of the whole update is not the text written by the first. *)
Theorem one_line_region_not_idempotent :
  (forall cond REPO_NAME DATA before after cb only ce,
      region CONTRIBUTORS_BEGINS CONTRIBUTORS_ENDS before cb [only] ce ->
      let rows := contributor_lines cond REPO_NAME DATA in
      let first_run := before ++ cb :: only :: ce :: rows ++ after in
      let second_run := before ++ cb :: only :: ce :: rows ++ rows ++ after in
      update_table_of_contributors cond REPO_NAME DATA
        (before ++ cb :: [only] ++ ce :: after) = Ok first_run
      /\ update_table_of_contributors cond REPO_NAME DATA first_run
         = Ok second_run
      /\ length first_run < length second_run)
  /\ (let rows :=
        contributor_lines None (Some "pranaydeep1/DSA"%string) one_entry in
      let outline :=
        [ ("- [__Theory__](Theory " ++ Py.dq ++ "goto Theory" ++ Py.dq ++ ")"
           ++ Py.nl)%string;
          (Py.tab ++ "- [Sorting](Theory/Sorting " ++ Py.dq ++ "goto Sorting"
           ++ Py.dq ++ ")" ++ Py.nl)%string;
          (Py.tab ++ Py.tab ++ "- [QuickSort](Theory/Sorting/QuickSort "
           ++ Py.dq ++ "goto QuickSort" ++ Py.dq ++ ")" ++ Py.nl)%string;
          ("- [__Solved-Problems__](Solved-Problems " ++ Py.dq
           ++ "goto Solved-Problems" ++ Py.dq ++ ")" ++ Py.nl)%string ] in
      let first_run :=
        writelines
          ([ (CONTRIBUTORS_BEGINS ++ Py.nl)%string; Py.nl;
             (CONTRIBUTORS_ENDS ++ Py.nl)%string ]
           ++ rows
           ++ [ ("## Contents" ++ Py.nl)%string;
                (CONTENT_BEGINS ++ Py.nl)%string ]
           ++ outline ++ [ (CONTENT_ENDS ++ Py.nl)%string ]) in
      let second_run :=
        writelines
          ([ (CONTRIBUTORS_BEGINS ++ Py.nl)%string; Py.nl;
             (CONTRIBUTORS_ENDS ++ Py.nl)%string ]
           ++ rows ++ rows
           ++ [ ("## Contents" ++ Py.nl)%string;
                (CONTENT_BEGINS ++ Py.nl)%string ]
           ++ outline ++ [ (CONTENT_ENDS ++ Py.nl)%string ]) in
      UpdateFileContent None (Some "pranaydeep1/DSA"%string) one_entry
        (writelines one_line_region) = Ok first_run
      /\ UpdateFileContent None (Some "pranaydeep1/DSA"%string) one_entry
           first_run = Ok second_run
      /\ String.eqb first_run second_run = false).
Proof.
  split.
  - intros cond REPO_NAME DATA before after cb only ce Hreg rows.
    cbv zeta; split; [| split].
    + apply update_table_of_contributors_one_line; exact Hreg.
    + apply (update_table_of_contributors_one_line cond REPO_NAME DATA
               before (rows ++ after) cb only ce Hreg).
    + pose proof (contributor_lines_not_empty cond REPO_NAME DATA) as Hrows.
      fold rows in Hrows.
      rewrite !length_app; cbn [length]; rewrite !length_app.
      destruct rows; [contradiction | simpl; lia].
  - vm_compute; repeat split.
Qed.

(** C2.  On every file whose contributors table holds one line, the
    update of that table leaves the line between the markers and writes
    the rows after the end marker, outside the table.  On the file of six
    lines, with the filter of [Theory/index.md], the line after the end
    marker is no longer the line it was: the row of the entry stands
    there. *)
Theorem one_line_region_frame_broken :
  (forall cond REPO_NAME DATA before after cb only ce,
      region CONTRIBUTORS_BEGINS CONTRIBUTORS_ENDS before cb [only] ce ->
      update_table_of_contributors cond REPO_NAME DATA
        (before ++ cb :: [only] ++ ce :: after)
      = Ok (before ++ cb :: only :: ce
              :: contributor_lines cond REPO_NAME DATA ++ after))
  /\ update_lines (Some (String.eqb "Theory")) (Some "pranaydeep1/DSA"%string)
       one_entry one_line_region
     = Ok [ (CONTRIBUTORS_BEGINS ++ Py.nl)%string;
            Py.nl;
            (CONTRIBUTORS_ENDS ++ Py.nl)%string;
            contributor_row (Some (String.eqb "Theory"))
              (Some "pranaydeep1/DSA"%string) "QuickSort"
              (sample "Theory" "Sorting");
            ("## Contents" ++ Py.nl)%string;
            (CONTENT_BEGINS ++ Py.nl)%string;
            ("- [__Sorting__](Sorting " ++ Py.dq ++ "goto Sorting" ++ Py.dq
             ++ ")" ++ Py.nl)%string;
            (Py.tab ++ "- [QuickSort](Sorting/QuickSort " ++ Py.dq
             ++ "goto QuickSort" ++ Py.dq ++ ")" ++ Py.nl)%string;
            (CONTENT_ENDS ++ Py.nl)%string ]
  /\ nth_error one_line_region 3 = Some ("## Contents" ++ Py.nl)%string.
Proof.
  split; [| vm_compute; repeat split].
  intros cond REPO_NAME DATA before after cb only ce Hreg.
  apply update_table_of_contributors_one_line; exact Hreg.
Qed.

(** The file of six lines: the second result of the update of the
    contributors table is longer than the first. *)
Lemma one_line_region_not_idempotent_witness :
  let rows := contributor_lines None None one_entry in
  length ([] ++ (CONTRIBUTORS_BEGINS ++ Py.nl)%string :: Py.nl
             :: (CONTRIBUTORS_ENDS ++ Py.nl)%string
             :: rows ++ skipn 3 one_line_region)
  < length ([] ++ (CONTRIBUTORS_BEGINS ++ Py.nl)%string :: Py.nl
              :: (CONTRIBUTORS_ENDS ++ Py.nl)%string
              :: rows ++ rows ++ skipn 3 one_line_region).
Proof.
  apply (proj1 one_line_region_not_idempotent None None one_entry []
           (skipn 3 one_line_region) (CONTRIBUTORS_BEGINS ++ Py.nl)%string
           Py.nl (CONTRIBUTORS_ENDS ++ Py.nl)%string).
  repeat split; try reflexivity;
    intros l Hl; repeat (destruct Hl as [<- | Hl]); try contradiction;
    reflexivity.
Defined.

(** The file of six lines and a log without entries: the row of dashes is
    written after the end marker. *)
Lemma one_line_region_frame_broken_witness :
  update_table_of_contributors None None []
    ([] ++ (CONTRIBUTORS_BEGINS ++ Py.nl)%string :: [Py.nl]
        ++ (CONTRIBUTORS_ENDS ++ Py.nl)%string :: skipn 3 one_line_region)
  = Ok ([] ++ (CONTRIBUTORS_BEGINS ++ Py.nl)%string :: Py.nl
           :: (CONTRIBUTORS_ENDS ++ Py.nl)%string
           :: contributor_lines None None [] ++ skipn 3 one_line_region).
Proof.
  apply (proj1 one_line_region_frame_broken).
  repeat split; try reflexivity;
    intros l Hl; repeat (destruct Hl as [<- | Hl]); try contradiction;
    reflexivity.
Defined.

(** ** Reading the lines that were written *)

Lemma no_newline_app (s1 s2 : string) :
  no_newline (s1 ++ s2) = no_newline s1 && no_newline s2.
Proof.
  induction s1 as [| c s1 IH]; simpl; [reflexivity |].
  rewrite IH, andb_assoc; reflexivity.
Qed.

Lemma complete_line_cons (l : string) (rest : list string) :
  complete_line l -> lines_shape rest -> lines_shape (l :: rest).
Proof.
  intros Hl Hrest; destruct rest; simpl; auto.
Qed.

Lemma lines_shape_app (l1 l2 : list string) (x : string) :
  lines_shape (l1 ++ x :: l2) <-> Forall complete_line l1 /\ lines_shape (x :: l2).
Proof.
  induction l1 as [| y l1 IH].
  - simpl; split; [intro H; split; [constructor | exact H] | tauto].
  - change ((y :: l1) ++ x :: l2) with (y :: (l1 ++ x :: l2)).
    assert (Hcons : lines_shape (y :: l1 ++ x :: l2)
                    <-> complete_line y /\ lines_shape (l1 ++ x :: l2)).
    { destruct l1; simpl; tauto. }
    rewrite Hcons, IH, Forall_cons_iff; tauto.
Qed.

(** Reading a complete line, and reading what is left of the text. *)
Lemma readlines_from_line (body cur rest : string) :
  no_newline body = true ->
  readlines_from cur (body ++ Py.nl ++ rest)
  = (cur ++ body ++ Py.nl)%string :: readlines_from EmptyString rest.
Proof.
  revert cur; induction body as [| c body IH]; intros cur Hbody.
  - reflexivity.
  - simpl in Hbody.
    apply andb_prop in Hbody as [Hc Hbody]; apply andb_prop in Hc as [Hlf _].
    cbn [append readlines_from].
    destruct (Ascii.eqb c (ascii_of_nat 10)); [discriminate |].
    rewrite IH by exact Hbody.
    rewrite append_assoc; reflexivity.
Qed.

Lemma readlines_from_last (s cur : string) :
  no_newline s = true ->
  readlines_from cur s
  = if String.eqb (cur ++ s) EmptyString then [] else [(cur ++ s)%string].
Proof.
  revert cur; induction s as [| c s IH]; intros cur Hs.
  - simpl; rewrite append_nil_r; reflexivity.
  - simpl in Hs.
    apply andb_prop in Hs as [Hc Hs]; apply andb_prop in Hc as [Hlf _].
    cbn [readlines_from].
    destruct (Ascii.eqb c (ascii_of_nat 10)); [discriminate |].
    rewrite IH by exact Hs.
    rewrite append_assoc; reflexivity.
Qed.

Lemma universal_newlines_id (s : string) :
  no_newline s = true -> universal_newlines s = s.
Proof.
  induction s as [| c s IH]; [reflexivity |].
  simpl; intro H.
  apply andb_prop in H as [Hc Hs]; apply andb_prop in Hc as [_ Hcr].
  destruct (Ascii.eqb c (ascii_of_nat 13)); [discriminate |].
  rewrite (IH Hs); reflexivity.
Qed.

(** A carriage return in the body of a line is the only thing universal
    newlines would change; the lines of a shaped list have none. *)
Lemma universal_newlines_line (body rest : string) :
  no_newline body = true ->
  universal_newlines (body ++ Py.nl ++ rest)
  = (body ++ Py.nl ++ universal_newlines rest)%string.
Proof.
  induction body as [| c body IH]; intro H.
  - reflexivity.
  - simpl in H.
    apply andb_prop in H as [Hc Hs]; apply andb_prop in Hc as [_ Hcr].
    cbn [append universal_newlines].
    destruct (Ascii.eqb c (ascii_of_nat 13)); [discriminate |].
    rewrite (IH Hs); reflexivity.
Qed.

Lemma writelines_cons (l : string) (rest : list string) :
  writelines (l :: rest) = (l ++ writelines rest)%string.
Proof.
  unfold writelines; destruct rest; simpl; [rewrite append_nil_r |]; reflexivity.
Qed.

(** The lines written are read back as they are. *)
Lemma readlines_writelines (ls : list string) :
  lines_shape ls -> readlines (writelines ls) = ls.
Proof.
  unfold readlines.
  induction ls as [| l rest IH]; intro Hshape.
  - reflexivity.
  - rewrite writelines_cons.
    assert (Hcomplete : complete_line l -> lines_shape rest ->
              readlines_from EmptyString
                (universal_newlines (l ++ writelines rest)) = l :: rest).
    { intros [body [Hbody ->]] Hrest.
      rewrite append_assoc, universal_newlines_line by exact Hbody.
      rewrite readlines_from_line by exact Hbody.
      rewrite IH by exact Hrest; reflexivity. }
    destruct rest as [| l2 rest].
    + destruct Hshape as [Hl | [Hne Hl]]; [apply Hcomplete; simpl; auto |].
      cbn [writelines String.concat].
      change (String.concat EmptyString (@nil string)) with EmptyString.
      rewrite append_nil_r, universal_newlines_id by exact Hl.
      rewrite readlines_from_last by exact Hl.
      cbn [append].
      destruct (String.eqb_spec l EmptyString); [contradiction | reflexivity].
    + destruct Hshape as [Hl Hrest]; apply Hcomplete; assumption.
Qed.

Lemma readlines_from_shape (n : nat) (text cur : string) :
  String.length text <= n ->
  no_newline cur = true ->
  lines_shape (readlines_from cur (universal_newlines text)).
Proof.
  revert text cur; induction n as [| n IH]; intros text cur Hlen Hcur.
  - destruct text; [| simpl in Hlen; lia].
    simpl. destruct (String.eqb_spec cur EmptyString); simpl; auto.
  - assert (Hline : forall rest, lines_shape rest ->
                      lines_shape ((cur ++ Py.nl)%string :: rest)).
    { intros rest Hrest; apply complete_line_cons; [| exact Hrest].
      exists cur; auto. }
    destruct text as [| c text].
    { simpl. destruct (String.eqb_spec cur EmptyString); simpl; auto. }
    simpl in Hlen. cbn [universal_newlines].
    destruct (Ascii.eqb c (ascii_of_nat 13)) eqn:Hcr.
    + destruct text as [| c' text'].
      * apply (Hline []); exact I.
      * destruct (Ascii.eqb c' (ascii_of_nat 10)) eqn:Hlf.
        -- cbn [readlines_from]; rewrite Hlf.
           apply Ascii.eqb_eq in Hlf; subst c'.
           apply Hline, IH; [simpl in Hlen; lia | reflexivity].
        -- cbn [readlines_from Ascii.eqb Bool.eqb ascii_of_nat].
           apply Hline, IH; [lia | reflexivity].
    + cbn [readlines_from].
      destruct (Ascii.eqb c (ascii_of_nat 10)) eqn:Hlf.
      * apply Ascii.eqb_eq in Hlf; subst c.
        apply Hline, IH; [lia | reflexivity].
      * apply IH; [lia |].
        rewrite no_newline_app, Hcur; simpl; rewrite Hlf, Hcr; reflexivity.
Qed.

(** [readlines] gives complete lines, and at the end maybe a line without
    its line feed. *)
Lemma readlines_shape (text : string) : lines_shape (readlines text).
Proof.
  apply (readlines_from_shape (String.length text)); [lia | reflexivity].
Qed.

Lemma complete_header (cond : condition) :
  Forall complete_line (table_header cond).
Proof.
  destruct cond; repeat constructor; eexists; split;
    try (cbn [table_header]; reflexivity); reflexivity.
Qed.

Lemma complete_kept_header (cond : condition) (mid : list string) :
  Forall complete_line mid -> Forall complete_line (kept_header cond mid).
Proof.
  intro Hmid; destruct mid as [| h1 [| h2 old]].
  - apply complete_header.
  - exact Hmid.
  - cbn [kept_header firstn].
    inversion Hmid as [| ? ? H1 Hrest]; inversion Hrest; subst.
    repeat constructor; assumption.
Qed.

(** The lines of a file keep their shape when the lines between the
    markers give way to complete lines. *)
Lemma assemble_shape (o : table_order) (cond : condition)
    (A mid B mid2 C rows outline : list string) (cb ce tb te : string) :
  lines_shape (assemble o A cb mid ce B tb mid2 te C) ->
  Forall complete_line rows ->
  Forall complete_line outline ->
  lines_shape (assemble o A cb (kept_header cond mid ++ rows) ce B tb outline te C).
Proof.
  intros Hshape Hrows Houtline.
  destruct o; cbn [assemble] in *.
  - replace (A ++ cb :: mid ++ ce :: B ++ tb :: mid2 ++ te :: C)
      with ((A ++ cb :: mid ++ ce :: B ++ tb :: mid2) ++ te :: C) in Hshape
      by (flatten; reflexivity).
    replace (A ++ cb :: (kept_header cond mid ++ rows) ++ ce :: B
               ++ tb :: outline ++ te :: C)
      with ((A ++ cb :: (kept_header cond mid ++ rows) ++ ce :: B
               ++ tb :: outline) ++ te :: C)
      by (flatten; reflexivity).
    apply lines_shape_app in Hshape as [Hfront Hlast].
    apply lines_shape_app; split; [| exact Hlast].
    repeat (first [ apply Forall_app in Hfront as [? Hfront]
                  | apply Forall_cons_iff in Hfront as [? Hfront] ]).
    repeat (first [ apply Forall_app; split | apply Forall_cons ]);
      try assumption.
    apply complete_kept_header; assumption.
  - replace (A ++ tb :: mid2 ++ te :: B ++ cb :: mid ++ ce :: C)
      with ((A ++ tb :: mid2 ++ te :: B ++ cb :: mid) ++ ce :: C) in Hshape
      by (flatten; reflexivity).
    replace (A ++ tb :: outline ++ te :: B
               ++ cb :: (kept_header cond mid ++ rows) ++ ce :: C)
      with ((A ++ tb :: outline ++ te :: B
               ++ cb :: kept_header cond mid ++ rows) ++ ce :: C)
      by (flatten; reflexivity).
    apply lines_shape_app in Hshape as [Hfront Hlast].
    apply lines_shape_app; split; [| exact Hlast].
    repeat (first [ apply Forall_app in Hfront as [? Hfront]
                  | apply Forall_cons_iff in Hfront as [? Hfront] ]).
    repeat (first [ apply Forall_app; split | apply Forall_cons ]);
      try assumption.
    apply complete_kept_header; assumption.
Qed.

(** ** Plain logs print lines without markers *)

Lemma lacks_app (c : ascii) (s1 s2 : string) :
  lacks c (s1 ++ s2) = lacks c s1 && lacks c s2.
Proof.
  induction s1 as [| c' s1 IH]; simpl; [reflexivity |].
  rewrite IH, andb_assoc; reflexivity.
Qed.

Lemma plain_app (s1 s2 : string) :
  plain (s1 ++ s2) = plain s1 && plain s2.
Proof.
  unfold plain; rewrite lacks_app, no_newline_app.
  destruct (lacks "<" s1), (lacks "<" s2), (no_newline s1), (no_newline s2);
    reflexivity.
Qed.

Lemma str_in_lacks (c : ascii) (m s : string) :
  lacks c s = true -> Py.str_in (String c m) s = false.
Proof.
  induction s as [| c' s IH]; [reflexivity |].
  simpl lacks; intro H; apply andb_prop in H as [Hc Hs].
  cbn [Py.str_in String.prefix].
  destruct (ascii_dec c c') as [<- | _].
  - rewrite Ascii.eqb_refl in Hc; discriminate.
  - exact (IH Hs).
Qed.

Lemma plain_line_marker_free (l : string) : plain_line l -> marker_free l.
Proof.
  intros [body [Hbody ->]].
  assert (Hlt : lacks "<" (body ++ Py.nl) = true).
  { unfold plain in Hbody; apply andb_prop in Hbody as [Hbody _].
    rewrite lacks_app, Hbody; reflexivity. }
  unfold marker_free, markers_held; cbn [map].
  unfold CONTRIBUTORS_BEGINS, CONTRIBUTORS_ENDS, CONTENT_BEGINS, CONTENT_ENDS.
  rewrite !(str_in_lacks _ _ _ Hlt); reflexivity.
Qed.

Lemma plain_line_complete (l : string) : plain_line l -> complete_line l.
Proof.
  intros [body [Hbody ->]]; exists body; split; [| reflexivity].
  unfold plain in Hbody; apply andb_prop in Hbody; tauto.
Qed.

Lemma plain_join (sep : string) (l : list string) :
  plain sep = true -> forallb plain l = true -> plain (Py.join sep l) = true.
Proof.
  intro Hsep; unfold Py.join.
  induction l as [| x [| y l] IH]; simpl; intro H; try reflexivity.
  - rewrite andb_true_r in H; exact H.
  - apply andb_prop in H as [Hx H].
    rewrite !plain_app, Hx, Hsep; simpl. apply IH; exact H.
Qed.

Lemma plain_md_link (label target tooltip : string) :
  plain label = true -> plain target = true -> plain tooltip = true ->
  plain (md_link label target tooltip) = true.
Proof.
  intros H1 H2 H3; unfold md_link.
  rewrite !plain_app, H1, H2, H3; reflexivity.
Qed.

Lemma plain_string_of_uint (d : Decimal.uint) :
  plain (NilEmpty.string_of_uint d) = true.
Proof.
  induction d; simpl; try reflexivity;
    change (String ?c ?s) with (String c EmptyString ++ s)%string;
    rewrite plain_app, IHd; reflexivity.
Qed.

Lemma plain_str_of_int (n : Z) : plain (Py.str_of_int n) = true.
Proof.
  unfold Py.str_of_int, NilZero.string_of_int, NilZero.string_of_uint.
  destruct (Z.to_int n) as [d | d]; destruct d; try reflexivity;
    try apply plain_string_of_uint;
    change (String ?c ?s) with (String c EmptyString ++ s)%string;
    rewrite plain_app, plain_string_of_uint; reflexivity.
Qed.

Lemma plain_fmt_pr (pr : pr_number) :
  plain_pr pr = true -> plain (fmt_pr pr) = true.
Proof.
  destruct pr; simpl; [intros _; apply plain_str_of_int | auto].
Qed.

Lemma plain_split_from (s cur : string) :
  plain cur = true -> plain s = true ->
  forallb plain (Py.split_from cur s) = true.
Proof.
  revert cur; induction s as [| c s IH]; intros cur Hcur Hs; simpl.
  - destruct (String.eqb cur EmptyString); simpl; [| rewrite Hcur]; reflexivity.
  - change (String c s) with (String c EmptyString ++ s)%string in Hs.
    rewrite plain_app in Hs; apply andb_prop in Hs as [Hc Hs].
    destruct (Py.isspace c).
    + destruct (String.eqb cur EmptyString); simpl;
        [| rewrite Hcur; simpl]; apply IH; auto.
    + apply IH; [rewrite plain_app, Hcur, Hc; reflexivity | exact Hs].
Qed.

Lemma plain_demo_target (p : string) :
  plain p = true -> plain (demo_target p) = true.
Proof.
  intro Hp; unfold demo_target.
  destruct (Py.str_in " " p); [| exact Hp].
  apply plain_join; [reflexivity |].
  apply plain_split_from; [reflexivity | exact Hp].
Qed.

Lemma forallb_map_plain {A : Type} (p : A -> bool) (f : A -> string)
    (l : list A) :
  (forall x, p x = true -> plain (f x) = true) ->
  forallb p l = true -> forallb plain (map f l) = true.
Proof.
  intro Hf; induction l as [| x l IH]; simpl; [reflexivity |].
  intro H; apply andb_prop in H as [Hx Hl].
  rewrite (Hf x Hx), (IH Hl); reflexivity.
Qed.

Lemma plain_contributors_names_output (names : list string) :
  forallb plain names = true -> plain (contributors_names_output names) = true.
Proof.
  intro H; apply plain_join; [reflexivity |].
  apply (forallb_map_plain plain); [| exact H].
  intros name Hname; apply plain_md_link;
    rewrite ?plain_app, ?Hname; reflexivity.
Qed.

Lemma plain_core_contribution_output (c : string) :
  plain c = true -> plain (core_contribution_output c) = true.
Proof.
  intro H; unfold core_contribution_output.
  destruct (negb (String.eqb c "Repo")); [| reflexivity].
  apply plain_md_link; rewrite ?plain_app, ?H; reflexivity.
Qed.

Lemma plain_pull_requests_output (REPO_NAME : option string)
    (prs : list pr_number) :
  plain (fmt_repo REPO_NAME) = true -> forallb plain_pr prs = true ->
  plain (pull_requests_output REPO_NAME prs) = true.
Proof.
  intros Hrepo H; apply plain_join; [reflexivity |].
  apply (forallb_map_plain plain_pr); [| exact H].
  intros pr Hpr; apply plain_fmt_pr in Hpr.
  apply plain_md_link; rewrite ?plain_app, ?Hpr, ?Hrepo; reflexivity.
Qed.

Lemma plain_demo_path_output (REPO_NAME : option string) (title : string)
    (d : details) :
  plain (fmt_repo REPO_NAME) = true -> plain title = true ->
  plain (core d) = true -> plain (specificity d) = true ->
  plain (demo_path d) = true ->
  plain (demo_path_output REPO_NAME title d) = true.
Proof.
  intros Hrepo Htitle Hcore Hspec Hdemo; unfold demo_path_output.
  pose proof (plain_demo_target _ Hdemo) as Htarget.
  repeat match goal with
         | |- context [if ?b then _ else _] => destruct b
         end;
    apply plain_md_link;
    rewrite ?plain_app, ?Hrepo, ?Htitle, ?Hcore, ?Hspec, ?Htarget; reflexivity.
Qed.

(** The row of a plain entry is a plain line. *)
Lemma plain_contributor_row (cond : condition) (REPO_NAME : option string)
    (title : string) (d : details) :
  plain (fmt_repo REPO_NAME) = true ->
  plain_entry (title, d) = true ->
  plain_line (contributor_row cond REPO_NAME title d).
Proof.
  intros Hrepo Hentry; unfold plain_entry in Hentry.
  do 5 (apply andb_prop in Hentry as [Hentry ?]).
  pose proof (plain_contributors_names_output (contributor_name d)) as Hn.
  pose proof (plain_core_contribution_output (core d)) as Hc.
  pose proof (plain_pull_requests_output REPO_NAME (pull_request_number d)) as Hp.
  pose proof (plain_demo_path_output REPO_NAME title d) as Hd.
  unfold contributor_row; destruct cond;
    rewrite <- !append_assoc; eexists; (split; [| reflexivity]);
    rewrite !plain_app, ?Hn, ?Hc, ?Hp, ?Hd, ?Hentry by assumption;
    reflexivity.
Qed.

Lemma plain_contributor_loop (cond : condition) (REPO_NAME : option string)
    (DATA : log) (st : list string * bool) :
  plain (fmt_repo REPO_NAME) = true ->
  forallb plain_entry DATA = true ->
  Forall plain_line (fst st) ->
  Forall plain_line (fst (contributor_loop cond REPO_NAME DATA st)).
Proof.
  intro Hrepo; revert st; induction DATA as [| [title d] rest IH];
    intros st Hdata Hst; simpl; [exact Hst |].
  simpl in Hdata; apply andb_prop in Hdata as [Hentry Hrest].
  destruct (rejects cond (core d)); apply IH; try assumption.
  cbn [fst]; apply Forall_app; split; [exact Hst |].
  constructor; [| constructor].
  apply plain_contributor_row; assumption.
Qed.

(** The rows of a plain log are plain lines. *)
Lemma plain_contributor_lines (cond : condition) (REPO_NAME : option string)
    (DATA : log) :
  plain_log REPO_NAME DATA = true ->
  Forall plain_line (contributor_lines cond REPO_NAME DATA).
Proof.
  unfold plain_log; intro H; apply andb_prop in H as [Hrepo Hdata].
  pose proof (plain_contributor_loop cond REPO_NAME DATA ([], false)
                Hrepo Hdata (Forall_nil _)) as Hloop.
  unfold contributor_lines.
  destruct (contributor_loop cond REPO_NAME DATA ([], false)) as [ls b].
  cbn [fst] in Hloop.
  destruct (negb b); [| exact Hloop].
  apply Forall_app; split; [exact Hloop |].
  constructor; [| constructor].
  destruct cond; eexists; (split; [| reflexivity]); reflexivity.
Qed.

Lemma plain_get (k : string) (d : Py.dict sub_headings) (v : sub_headings) :
  plain_dict d = true -> Py.get k d = Some v -> plain_sub v = true.
Proof.
  induction d as [| [k' v'] d IH]; simpl; [discriminate |].
  intro H; apply andb_prop in H as [Hkv Hd]; apply andb_prop in Hkv as [_ Hv'].
  destruct (String.eqb k k'); [| exact (IH Hd)].
  intro E; inversion E; subst; exact Hv'.
Qed.

Lemma plain_set (k : string) (v : sub_headings) (d : Py.dict sub_headings) :
  plain k = true -> plain_sub v = true -> plain_dict d = true ->
  plain_dict (Py.set k v d) = true.
Proof.
  intros Hk Hv; induction d as [| [k' v'] d IH]; simpl.
  - intros _; rewrite Hk, Hv; reflexivity.
  - intro H; apply andb_prop in H as [Hkv Hd].
    destruct (String.eqb k k'); simpl.
    + rewrite Hk, Hv, Hd; reflexivity.
    + rewrite Hkv, (IH Hd); reflexivity.
Qed.

Lemma plain_extract_in_category (title specificity : string)
    (d d' : Py.dict sub_headings) :
  plain title = true -> plain specificity = true -> plain_dict d = true ->
  extract_in_category title specificity d = Ok d' ->
  plain_dict d' = true.
Proof.
  intros Ht Hs Hd; unfold extract_in_category.
  destruct (Py.get specificity d) as [v |] eqn:Hget.
  - pose proof (plain_get _ _ _ Hd Hget) as Hv.
    destruct (negb (String.eqb title specificity));
      [| intro E; inversion E; subst; exact Hd].
    destruct v as [titles |]; cbn [title_not_in bind]; [| discriminate].
    destruct (negb (Py.list_in title titles));
      intro E; inversion E; subst; [| exact Hd].
    apply plain_set; try assumption.
    simpl in *; rewrite forallb_app, Hv; simpl; rewrite Ht; reflexivity.
  - intro E; inversion E; subst.
    apply plain_set; try assumption.
    destruct (String.eqb specificity title); simpl; [| rewrite Ht]; reflexivity.
Qed.

Lemma plain_extract (DATA : log) (a b c : Py.dict sub_headings)
    (toc : table_of_content_t) :
  forallb plain_entry DATA = true ->
  plain_dict a = true -> plain_dict b = true -> plain_dict c = true ->
  extract DATA (categories a b c) = Ok toc ->
  exists a' b' c',
    toc = categories a' b' c' /\
    plain_dict a' = true /\ plain_dict b' = true /\ plain_dict c' = true.
Proof.
  revert a b c; induction DATA as [| [title d] rest IH];
    intros a b c Hdata Ha Hb Hc; simpl.
  - intro E; inversion E; subst; exists a, b, c; auto.
  - simpl in Hdata; apply andb_prop in Hdata as [Hentry Hrest].
    unfold plain_entry in Hentry.
    do 5 (apply andb_prop in Hentry as [Hentry ?]).
    rewrite extract_entry_categories.
    destruct (String.eqb (core d) "Theory");
      [| destruct (String.eqb (core d) "Solved-Problems");
         [| destruct (String.eqb (core d) "Repo"); [| discriminate]]];
      destruct (extract_in_category title (specificity d) _) as [x | |] eqn:Hx;
      cbn [bind]; try discriminate;
      apply plain_extract_in_category in Hx; try assumption;
      apply IH; assumption.
Qed.

Lemma plain_insert_str (x : string) (l : list string) :
  plain x = true -> forallb plain l = true ->
  forallb plain (Py.insert_str x l) = true.
Proof.
  intro Hx; induction l as [| y l IH]; simpl; [rewrite Hx; reflexivity |].
  intro H; apply andb_prop in H as [Hy Hl].
  destruct (String.leb x y); simpl.
  - rewrite Hx, Hy, Hl; reflexivity.
  - rewrite Hy, (IH Hl); reflexivity.
Qed.

Lemma plain_sort_str (l : list string) :
  forallb plain l = true -> forallb plain (Py.sort_str l) = true.
Proof.
  induction l as [| x l IH]; simpl; [reflexivity |].
  intro H; apply andb_prop in H as [Hx Hl].
  apply plain_insert_str; auto.
Qed.

Lemma plain_insert_item (x : string * sub_headings) (d : Py.dict sub_headings) :
  plain (fst x) && plain_sub (snd x) = true -> plain_dict d = true ->
  plain_dict (Py.insert_item x d) = true.
Proof.
  intro Hx; induction d as [| y d IH]; simpl; [rewrite Hx; reflexivity |].
  intro H; apply andb_prop in H as [Hy Hd].
  destruct (String.leb (fst x) (fst y)); simpl.
  - rewrite Hx, Hy, Hd; reflexivity.
  - rewrite Hy, (IH Hd); reflexivity.
Qed.

Lemma plain_sort_value (d : Py.dict sub_headings) :
  plain_dict d = true -> plain_dict (sort_value d) = true.
Proof.
  unfold sort_value; induction d as [| [k v] d IH]; simpl; [reflexivity |].
  intro H; apply andb_prop in H as [Hkv Hd]; apply andb_prop in Hkv as [Hk Hv].
  apply plain_insert_item; [| exact (IH Hd)].
  cbn [fst snd]; rewrite Hk; simpl.
  destruct v as [titles |]; [apply plain_sort_str; exact Hv | reflexivity].
Qed.

(** The lines of a category whose headings and titles are plain are plain
    lines. *)
Lemma plain_core_lines (cond : condition) (core : string)
    (data : Py.dict sub_headings) :
  plain core = true -> plain_dict data = true ->
  Forall plain_line (core_lines cond (core, data)).
Proof.
  intros Hcore Hdata; unfold core_lines.
  destruct (rejects cond core || String.eqb core "Repo"); [constructor |].
  apply Forall_app; split.
  - destruct cond; cbn [main_heading]; repeat constructor.
    rewrite <- !append_assoc; eexists; (split; [| reflexivity]).
    rewrite !plain_app; rewrite plain_md_link;
      rewrite ?plain_app, ?Hcore; reflexivity.
  - induction data as [| [heading v] data IH]; simpl; [constructor |].
    simpl in Hdata; apply andb_prop in Hdata as [Hkv Hd].
    apply andb_prop in Hkv as [Hk Hv].
    apply Forall_cons; [| apply Forall_app; split; [| exact (IH Hd)]].
    + unfold heading_line; destruct cond;
        rewrite <- !append_assoc; eexists; (split; [| reflexivity]);
        rewrite !plain_app; rewrite plain_md_link;
        rewrite ?plain_app, ?Hcore, ?Hk; reflexivity.
    + destruct v as [titles |]; [| constructor].
      simpl in Hv; induction titles as [| t titles IHt]; simpl; [constructor |].
      simpl in Hv; apply andb_prop in Hv as [Ht Hts].
      constructor; [| exact (IHt Hts)].
      unfold sub_heading_line; destruct cond;
        rewrite <- !append_assoc; eexists; (split; [| reflexivity]);
        rewrite !plain_app; rewrite plain_md_link;
        rewrite ?plain_app, ?Hcore, ?Hk, ?Ht; reflexivity.
Qed.

(** The outline of a plain log is made of plain lines. *)
Lemma plain_content_lines (cond : condition) (DATA : log)
    (outline : list string) :
  forallb plain_entry DATA = true ->
  content_lines cond DATA = Ok outline ->
  Forall plain_line outline.
Proof.
  intros Hdata; unfold content_lines.
  destruct (extract DATA skeleton) as [toc | |] eqn:Hex; cbn [bind];
    try discriminate.
  destruct (plain_extract DATA [] [] [] toc Hdata eq_refl eq_refl eq_refl Hex)
    as [a [b [c [-> [Ha [Hb Hc]]]]]].
  rewrite render_categories; intro E; injection E as <-.
  apply Forall_app; split; apply plain_core_lines;
    try reflexivity; apply plain_sort_value; assumption.
Qed.

(** ** One run and the next on a well-formed file *)

(** X1.  On a file whose two tables are well formed, with a plain log, and
    when the contributors table holds no line or two lines and more, a run
    rewrites the lines between the markers only: the rows are written
    after the two lines of the header, which is written when the table was
    empty, the outline is written between its markers, and the marker
    lines and every line outside the two tables are left as they are. *)
Theorem update_lines_rewrites_tables_only (o : table_order) (cond : condition)
    (REPO_NAME : option string) (DATA : log)
    (A mid B mid2 C : list string) (cb ce tb te : string) :
  well_formed A cb mid ce B tb mid2 te ->
  length mid <> 1 ->
  plain_log REPO_NAME DATA = true ->
  update_lines cond REPO_NAME DATA (assemble o A cb mid ce B tb mid2 te C)
  = (outline <- content_lines cond DATA ;;
     Ok (assemble o A cb
           (kept_header cond mid ++ contributor_lines cond REPO_NAME DATA)
           ce B tb outline te C)).
Proof.
  intros Hwf Hlen Hplain.
  apply update_lines_frame; try assumption.
  eapply Forall_impl; [apply plain_line_marker_free |].
  apply plain_contributor_lines; exact Hplain.
Qed.

(** A file of the repository at its start: both tables empty, the
    contributors table first. *)
Lemma update_lines_rewrites_tables_only_witness :
  update_lines None (Some "pranaydeep1/DSA"%string) one_entry
    (assemble ContributorsFirst
       [("# Index" ++ Py.nl)%string] (CONTRIBUTORS_BEGINS ++ Py.nl)%string []
       (CONTRIBUTORS_ENDS ++ Py.nl)%string [] (CONTENT_BEGINS ++ Py.nl)%string []
       (CONTENT_ENDS ++ Py.nl)%string [])
  = (outline <- content_lines None one_entry ;;
     Ok (assemble ContributorsFirst
           [("# Index" ++ Py.nl)%string] (CONTRIBUTORS_BEGINS ++ Py.nl)%string
           (kept_header None []
            ++ contributor_lines None (Some "pranaydeep1/DSA"%string) one_entry)
           (CONTRIBUTORS_ENDS ++ Py.nl)%string [] (CONTENT_BEGINS ++ Py.nl)%string
           outline (CONTENT_ENDS ++ Py.nl)%string [])).
Proof.
  apply update_lines_rewrites_tables_only.
  - repeat split; repeat constructor.
  - simpl; lia.
  - reflexivity.
Defined.

(** X2.  Under the same conditions on the lines read from a file, running the
    update on the text a run has written writes that text again. *)
Theorem UpdateFileContent_idempotent (o : table_order) (cond : condition)
    (REPO_NAME : option string) (DATA : log) (text out : string)
    (A mid B mid2 C : list string) (cb ce tb te : string) :
  readlines text = assemble o A cb mid ce B tb mid2 te C ->
  well_formed A cb mid ce B tb mid2 te ->
  length mid <> 1 ->
  plain_log REPO_NAME DATA = true ->
  UpdateFileContent cond REPO_NAME DATA text = Ok out ->
  UpdateFileContent cond REPO_NAME DATA out = Ok out.
Proof.
  intros Hread Hwf Hlen Hplain Hrun.
  pose proof (plain_contributor_lines cond REPO_NAME DATA Hplain) as Hrows.
  assert (Hfree : Forall marker_free (contributor_lines cond REPO_NAME DATA))
    by (eapply Forall_impl; [apply plain_line_marker_free | exact Hrows]).
  unfold UpdateFileContent, get_lines, write_lines_into_file in Hrun.
  destruct (update_lines cond REPO_NAME DATA (readlines text))
    as [lines1 | |] eqn:Hlines; cbn [bind] in Hrun; try discriminate.
  injection Hrun as <-.
  rewrite Hread in Hlines.
  destruct (content_lines cond DATA) as [outline | |] eqn:Hout;
    try (rewrite update_lines_frame, Hout in Hlines by assumption;
         discriminate).
  assert (Houtline : Forall plain_line outline).
  { apply (plain_content_lines cond DATA); [| exact Hout].
    unfold plain_log in Hplain; apply andb_prop in Hplain; tauto. }
  destruct (update_lines_idempotent o cond REPO_NAME DATA A mid B mid2 C
              cb ce tb te outline lines1) as [Heq Hagain]; try assumption.
  { eapply Forall_impl; [apply plain_line_marker_free | exact Houtline]. }
  unfold UpdateFileContent, get_lines, write_lines_into_file.
  rewrite readlines_writelines, Hagain; [reflexivity |].
  rewrite Heq; apply assemble_shape with (mid2 := mid2).
  - rewrite <- Hread; apply readlines_shape.
  - eapply Forall_impl; [apply plain_line_complete | exact Hrows].
  - eapply Forall_impl; [apply plain_line_complete | exact Houtline].
Qed.

(** The text written from the file with both tables empty. *)
Lemma UpdateFileContent_idempotent_witness :
  UpdateFileContent None (Some "pranaydeep1/DSA"%string) one_entry after_one_run
  = Ok after_one_run.
Proof.
  apply (UpdateFileContent_idempotent ContributorsFirst None
           (Some "pranaydeep1/DSA"%string) one_entry empty_tables_text
           after_one_run
           [("# Index" ++ Py.nl)%string] [] [] [] []
           (CONTRIBUTORS_BEGINS ++ Py.nl)%string
           (CONTRIBUTORS_ENDS ++ Py.nl)%string
           (CONTENT_BEGINS ++ Py.nl)%string (CONTENT_ENDS ++ Py.nl)%string).
  - reflexivity.
  - repeat split; repeat constructor.
  - simpl; lia.
  - reflexivity.
  - reflexivity.
Defined.

(** ** The order of the headings and of the titles *)

Lemma insert_str_sorted (x : string) (l : list string) :
  Sorted str_le l -> Sorted str_le (Py.insert_str x l).
Proof.
  induction l as [| y l IH]; simpl; intro Hl.
  - repeat constructor.
  - destruct (String.leb x y) eqn:Hxy.
    + constructor; [exact Hl | constructor; exact Hxy].
    + inversion Hl as [| ? ? Hl' Hhd]; subst.
      constructor; [exact (IH Hl') |].
      assert (Hyx : str_le y x).
      { destruct (String.leb_total x y) as [H | H]; [congruence | exact H]. }
      destruct l as [| z l]; simpl.
      * constructor; exact Hyx.
      * destruct (String.leb x z); constructor;
          [exact Hyx | inversion Hhd; assumption].
Qed.

Lemma sort_str_sorted (l : list string) : Sorted str_le (Py.sort_str l).
Proof.
  induction l as [| x l IH]; simpl; [constructor |].
  apply insert_str_sorted; exact IH.
Qed.

Lemma insert_str_perm (x : string) (l : list string) :
  Permutation (Py.insert_str x l) (x :: l).
Proof.
  induction l as [| y l IH]; simpl; [reflexivity |].
  destruct (String.leb x y); [reflexivity |].
  rewrite IH; apply perm_swap.
Qed.

Lemma sort_str_perm (l : list string) : Permutation (Py.sort_str l) l.
Proof.
  induction l as [| x l IH]; simpl; [reflexivity |].
  rewrite insert_str_perm, IH; reflexivity.
Qed.

Lemma insert_item_sorted {V : Type} (x : string * V) (l : Py.dict V) :
  Sorted key_le l -> Sorted key_le (Py.insert_item x l).
Proof.
  induction l as [| y l IH]; simpl; intro Hl.
  - repeat constructor.
  - destruct (String.leb (fst x) (fst y)) eqn:Hxy.
    + constructor; [exact Hl | constructor; exact Hxy].
    + inversion Hl as [| ? ? Hl' Hhd]; subst.
      constructor; [exact (IH Hl') |].
      assert (Hyx : key_le y x).
      { destruct (String.leb_total (fst x) (fst y)) as [H | H];
          [congruence | exact H]. }
      destruct l as [| z l]; simpl.
      * constructor; exact Hyx.
      * destruct (String.leb (fst x) (fst z)); constructor;
          [exact Hyx | inversion Hhd; assumption].
Qed.

Lemma sorted_items_sorted {V : Type} (d : Py.dict V) :
  Sorted key_le (Py.sorted_items d).
Proof.
  induction d as [| x d IH]; simpl; [constructor |].
  apply insert_item_sorted; exact IH.
Qed.

Lemma insert_item_perm {V : Type} (x : string * V) (l : Py.dict V) :
  Permutation (Py.insert_item x l) (x :: l).
Proof.
  induction l as [| y l IH]; simpl; [reflexivity |].
  destruct (String.leb (fst x) (fst y)); [reflexivity |].
  rewrite IH; apply perm_swap.
Qed.

Lemma sorted_items_perm {V : Type} (d : Py.dict V) :
  Permutation (Py.sorted_items d) d.
Proof.
  induction d as [| x d IH]; simpl; [reflexivity |].
  rewrite insert_item_perm, IH; reflexivity.
Qed.

(** X3.  The sorting step of the table of content: in every category the
    specificities come in the order of Python on strings and are those
    extracted; a list of titles stands under a specificity after the step
    exactly when one stood there before, it holds the same titles, and
    they come in that order; and [None] stands under a specificity after
    the step exactly when it stood there before. *)
Theorem sort_value_sorted (value : Py.dict sub_headings) :
  Sorted key_le (sort_value value)
  /\ Permutation (map fst (sort_value value)) (map fst value)
  /\ (forall heading titles,
        In (heading, Some titles) (sort_value value) ->
        Sorted str_le titles
        /\ exists extracted,
             In (heading, Some extracted) value
             /\ Permutation titles extracted)
  /\ (forall heading extracted,
        In (heading, Some extracted) value ->
        exists titles,
          In (heading, Some titles) (sort_value value)
          /\ Sorted str_le titles
          /\ Permutation titles extracted)
  /\ (forall heading,
        In (heading, None) (sort_value value) <-> In (heading, None) value).
Proof.
  unfold sort_value; split; [apply sorted_items_sorted | split; [| split; [| split]]].
  - rewrite sorted_items_perm, map_map; cbn [fst]; reflexivity.
  - intros heading titles Hin.
    apply (Permutation_in _ (sorted_items_perm _)) in Hin.
    apply in_map_iff in Hin as [[k v] [E Hin]].
    cbn [fst snd] in E; injection E as -> Hv.
    destruct v as [extracted |]; [| discriminate].
    injection Hv as <-.
    split; [apply sort_str_sorted |].
    exists extracted; split; [exact Hin | apply sort_str_perm].
  - intros heading extracted Hin.
    exists (Py.sort_str extracted); split; [| split].
    + apply (Permutation_in _ (Permutation_sym (sorted_items_perm _))).
      apply in_map_iff; exists (heading, Some extracted).
      split; [reflexivity | exact Hin].
    + apply sort_str_sorted.
    + apply sort_str_perm.
  - intro heading; split; intro Hin.
    + apply (Permutation_in _ (sorted_items_perm _)) in Hin.
      apply in_map_iff in Hin as [[k v] [E Hin]].
      cbn [fst snd] in E; injection E as -> Hv.
      destruct v as [extracted |]; [discriminate | exact Hin].
    + apply (Permutation_in _ (Permutation_sym (sorted_items_perm _))).
      apply in_map_iff; exists (heading, None).
      split; [reflexivity | exact Hin].
Qed.

(** ** What the marker search returns *)

(** X4.  The search for the two markers of a table kind returns the indices
    [(s, t)] exactly when line [s] is the first line that holds the begin
    marker, no line before it holds the end marker, and line [t] is the
    first line after line [s] that holds the end marker. *)
Theorem find_table_points_first_markers (lines : list string)
    (search_type b e : string) (s t : nat) :
  select_markers search_type = Ok (b, e) ->
  (find_table_points lines search_type = Ok (s, t) <-> located b e lines s t).
Proof.
  exact (find_table_points_located lines search_type b e s t).
Qed.

(** The table of content of a file whose first line is a title. *)
Lemma find_table_points_first_markers_witness :
  find_table_points
    [ ("# Index" ++ Py.nl)%string; (CONTENT_BEGINS ++ Py.nl)%string;
      ("- a" ++ Py.nl)%string; (CONTENT_ENDS ++ Py.nl)%string ]
    "table-of-content"
  = Ok (1, 3).
Proof.
  apply (find_table_points_first_markers _ "table-of-content"
           CONTENT_BEGINS CONTENT_ENDS 1 3 eq_refl).
  exists [("# Index" ++ Py.nl)%string], (CONTENT_BEGINS ++ Py.nl)%string,
    [("- a" ++ Py.nl)%string], (CONTENT_ENDS ++ Py.nl)%string, [].
  repeat split; intros l [<- | []]; reflexivity.
Defined.

(** ** Every outcome of the marker search *)

(** The first element of a list that satisfies a test, if there is one. *)
Lemma first_such {A : Type} (p : A -> bool) (l : list A) :
  (forall x, In x l -> p x = false)
  \/ exists pre x post,
       l = pre ++ x :: post /\ (forall y, In y pre -> p y = false) /\ p x = true.
Proof.
  induction l as [| a l IH].
  - left; intros x [].
  - destruct (p a) eqn:Ha.
    + right; exists [], a, l; repeat split; auto; intros y [].
    + destruct IH as [Hno | [pre [x [post [-> [Hpre Hx]]]]]].
      * left; intros x [<- | Hin]; auto.
      * right; exists (a :: pre), x, post; repeat split; auto.
        intros y [<- | Hin]; auto.
Qed.

Section Outcomes.

Variables (search_type b e : string).
Hypothesis Hsel : select_markers search_type = Ok (b, e).

(** An end marker before the first begin marker: exit code 3. *)
Lemma find_end_before_begin (pre post : list string) (lb : string) :
  (forall l, In l pre -> Py.str_in b l = false) ->
  Py.str_in b lb = true ->
  (exists l, In l pre /\ Py.str_in e l = true) ->
  find_table_points (pre ++ lb :: post) search_type = Exit 3.
Proof.
  intros Hpre Hlb Hend; unfold find_table_points; rewrite Hsel; cbn [bind].
  destruct (scan_end_first b e pre (lb :: post) 0 Hpre Hend) as [j [Hj Hscan]].
  rewrite Hscan; cbn [scan_lines]. unfold scan_line; cbn [is_none andb].
  rewrite Hlb; cbn [fst snd is_some is_none negb andb check_points].
  replace (Nat.leb j (0 + length pre)) with true
    by (symmetry; apply Nat.leb_le; lia).
  reflexivity.
Qed.

(** A begin marker and no end marker on another line: exit code 2. *)
Lemma find_no_end (pre post : list string) (lb : string) :
  (forall l, In l pre -> Py.str_in b l = false) ->
  (forall l, In l pre -> Py.str_in e l = false) ->
  Py.str_in b lb = true ->
  (forall l, In l post -> Py.str_in e l = false) ->
  find_table_points (pre ++ lb :: post) search_type = Exit 2.
Proof.
  intros Hpre1 Hpre2 Hlb Hpost; unfold find_table_points; rewrite Hsel.
  cbn [bind].
  assert (Hlbk : forall k, scan_line b e lb k (None, None) = (Some k, None))
    by (intro k; unfold scan_line; simpl; rewrite Hlb; reflexivity).
  rewrite scan_skip_plain by assumption.
  cbn [scan_lines]; rewrite Hlbk; cbn [fst snd is_some is_none negb andb].
  rewrite <- (app_nil_r post), scan_skip_after_start by assumption.
  reflexivity.
Qed.

(** No begin marker: exit code 2. *)
Lemma find_no_begin (lines : list string) :
  (forall l, In l lines -> Py.str_in b l = false) ->
  find_table_points lines search_type = Exit 2.
Proof.
  intro Hno; unfold find_table_points; rewrite Hsel; cbn [bind].
  pose proof (scan_no_start b e lines 0 None Hno) as H.
  destruct (scan_lines b e lines 0 (None, None)) as [sp ep]; simpl in H.
  subst sp; reflexivity.
Qed.

End Outcomes.

(** The four cases of a search for the markers of a known kind. *)
Lemma find_table_points_cases (lines : list string) (search_type b e : string) :
  select_markers search_type = Ok (b, e) ->
  ((forall l, In l lines -> Py.str_in b l = false)
   /\ find_table_points lines search_type = Exit 2)
  \/ (exists pre lb post,
        lines = pre ++ lb :: post /\
        (forall l, In l pre -> Py.str_in b l = false) /\
        Py.str_in b lb = true /\
        (exists l, In l pre /\ Py.str_in e l = true) /\
        find_table_points lines search_type = Exit 3)
  \/ (exists pre lb post,
        lines = pre ++ lb :: post /\
        (forall l, In l pre -> Py.str_in b l = false) /\
        (forall l, In l pre -> Py.str_in e l = false) /\
        Py.str_in b lb = true /\
        (forall l, In l post -> Py.str_in e l = false) /\
        find_table_points lines search_type = Exit 2)
  \/ (exists pre lb mid le post,
        lines = pre ++ lb :: mid ++ le :: post /\
        region b e pre lb mid le /\
        find_table_points lines search_type
        = Ok (length pre, length pre + 1 + length mid)).
Proof.
  intro Hsel.
  destruct (first_such (Py.str_in b) lines)
    as [Hnob | [pre [lb [post [-> [Hpre Hlb]]]]]].
  { left; split; [exact Hnob | apply (find_no_begin _ b e Hsel); exact Hnob]. }
  right.
  destruct (first_such (Py.str_in e) pre)
    as [Hnoe | [p1 [x [p2 [Epre [_ Hx]]]]]].
  2: { left; exists pre, lb, post.
       assert (Hex : exists l, In l pre /\ Py.str_in e l = true).
       { exists x; split; [| exact Hx].
         rewrite Epre; apply in_or_app; right; left; reflexivity. }
       repeat split; try assumption.
       apply (find_end_before_begin _ b e Hsel); assumption. }
  right.
  destruct (first_such (Py.str_in e) post)
    as [Hpost | [mid [le [post' [-> [Hmid Hle]]]]]].
  - left; exists pre, lb, post; repeat split; try assumption.
    apply (find_no_end _ b e Hsel); assumption.
  - right; exists pre, lb, mid, le, post'.
    assert (Hreg : region b e pre lb mid le) by (repeat split; assumption).
    repeat split; try assumption.
    apply (find_table_points_region _ _ _ _ _ _ _ _ Hsel Hreg).
Qed.

(** X5.  For a known table kind the marker search ends in one of three
    ways, and each is told by the lines alone.  It exits with code 3
    exactly when a line before the first line holding the begin marker
    holds the end marker.  It exits with code 2 exactly when no line holds
    the begin marker, or when no line other than the first line holding the
    begin marker holds the end marker (an end marker on that very line does
    not count).  When it returns two indices they are in range, the first
    strictly before the second. *)
Theorem find_table_points_outcomes (lines : list string)
    (search_type b e : string) :
  select_markers search_type = Ok (b, e) ->
  (find_table_points lines search_type = Exit 3 <->
   exists pre lb post,
     lines = pre ++ lb :: post /\
     (forall l, In l pre -> Py.str_in b l = false) /\
     Py.str_in b lb = true /\
     (exists l, In l pre /\ Py.str_in e l = true))
  /\ (find_table_points lines search_type = Exit 2 <->
      (forall l, In l lines -> Py.str_in b l = false) \/
      exists pre lb post,
        lines = pre ++ lb :: post /\
        (forall l, In l pre -> Py.str_in b l = false) /\
        (forall l, In l pre -> Py.str_in e l = false) /\
        Py.str_in b lb = true /\
        (forall l, In l post -> Py.str_in e l = false))
  /\ (forall s t,
        find_table_points lines search_type = Ok (s, t) ->
        s < t < length lines)
  /\ ((exists s t, find_table_points lines search_type = Ok (s, t))
      \/ find_table_points lines search_type = Exit 2
      \/ find_table_points lines search_type = Exit 3).
Proof.
  intro Hsel.
  pose proof (find_table_points_cases lines search_type b e Hsel) as Hcases.
  split; [| split; [| split]].
  - split.
    + intro H3.
      destruct Hcases as [[_ H] | [H | [H | H]]]; [congruence | | |].
      * destruct H as [pre [lb [post [-> [Hpre [Hlb [Hend _]]]]]]].
        exists pre, lb, post; auto.
      * destruct H as [pre [lb [post [_ [_ [_ [_ [_ H]]]]]]]]; congruence.
      * destruct H as [pre [lb [mid [le [post [_ [_ H]]]]]]]; congruence.
    + intros [pre [lb [post [-> [Hpre [Hlb Hend]]]]]].
      apply (find_end_before_begin _ b e Hsel); assumption.
  - split.
    + intro H2.
      destruct Hcases as [[Hno _] | [H | [H | H]]]; [left; exact Hno | | |].
      * destruct H as [pre [lb [post [_ [_ [_ [_ H]]]]]]]; congruence.
      * destruct H as [pre [lb [post [-> [Hp1 [Hp2 [Hlb [Hpost _]]]]]]]].
        right; exists pre, lb, post; auto.
      * destruct H as [pre [lb [mid [le [post [_ [_ H]]]]]]]; congruence.
    + intros [Hno | [pre [lb [post [-> [Hp1 [Hp2 [Hlb Hpost]]]]]]]].
      * apply (find_no_begin _ b e Hsel); exact Hno.
      * apply (find_no_end _ b e Hsel); assumption.
  - intros s t Hok.
    apply (find_table_points_located _ _ _ _ _ _ Hsel) in Hok.
    destruct Hok as [pre [lb [mid [le [post [-> [-> [-> _]]]]]]]].
    rewrite length_app; cbn [length]; rewrite length_app; cbn [length]; lia.
  - destruct Hcases as [[_ H] | [H | [H | H]]].
    + right; left; exact H.
    + destruct H as [pre [lb [post [_ [_ [_ [_ H]]]]]]]; right; right; exact H.
    + destruct H as [pre [lb [post [_ [_ [_ [_ [_ H]]]]]]]]; right; left; exact H.
    + destruct H as [pre [lb [mid [le [post [_ [_ H]]]]]]].
      left; eexists; eexists; exact H.
Qed.

(** A line that holds both markers of the contributors table, and no other
    end marker: the table is not found. *)
Lemma find_table_points_outcomes_witness :
  find_table_points
    ([] ++ (CONTRIBUTORS_BEGINS ++ " " ++ CONTRIBUTORS_ENDS ++ Py.nl)%string
        :: [("| a |" ++ Py.nl)%string])
    "contributors"
  = Exit 2.
Proof.
  apply (proj1 (proj2 (find_table_points_outcomes _ "contributors"
                         CONTRIBUTORS_BEGINS CONTRIBUTORS_ENDS eq_refl))).
  right; exists [], (CONTRIBUTORS_BEGINS ++ " " ++ CONTRIBUTORS_ENDS ++ Py.nl)%string,
    [("| a |" ++ Py.nl)%string].
  repeat split; try reflexivity;
    intros l Hl; repeat (destruct Hl as [<- | Hl]); try contradiction;
    reflexivity.
Defined.

(** ** The rows of the contributors table *)

Lemma contributor_loop_filter (cond : condition) (REPO_NAME : option string)
    (DATA : log) (st : list string * bool) :
  contributor_loop cond REPO_NAME DATA st
  = (fst st
     ++ map (fun entry => contributor_row cond REPO_NAME (fst entry) (snd entry))
          (filter (accepted cond) DATA),
     snd st || negb (Nat.eqb (length (filter (accepted cond) DATA)) 0)).
Proof.
  revert st; induction DATA as [| [title d] rest IH]; intros [ls b].
  - simpl; rewrite app_nil_r, orb_false_r; reflexivity.
  - cbn [contributor_loop filter].
    assert (Hacc : accepted cond (title, d) = negb (rejects cond (core d)))
      by reflexivity.
    rewrite Hacc.
    destruct (rejects cond (core d)); cbn [negb]; rewrite IH; cbn [fst snd].
    + reflexivity.
    + cbn [map length Nat.eqb negb fst snd]; rewrite <- app_assoc, orb_true_r.
      reflexivity.
Qed.

Lemma contributor_lines_rows_eq (cond : condition) (REPO_NAME : option string)
    (DATA : log) :
  contributor_lines cond REPO_NAME DATA
  = match filter (accepted cond) DATA with
    | [] => [null_entry cond]
    | entries =>
        map (fun entry => contributor_row cond REPO_NAME (fst entry) (snd entry))
          entries
    end
.
Proof.
  unfold contributor_lines; rewrite contributor_loop_filter.
  cbn [fst snd orb app].
  destruct (filter (accepted cond) DATA); reflexivity.
Qed.

(** X6.  The rows written in the contributors table are the rows of the
    entries the filter accepts, one row for each, in the order of the log;
    when there is none, the one row of dashes.  So the rows are as many as
    the accepted entries, and one when there is none, and the entries the
    filter rejects have no part in them. *)
Theorem contributor_lines_rows (cond : condition) (REPO_NAME : option string)
    (DATA : log) :
  contributor_lines cond REPO_NAME DATA
  = match filter (accepted cond) DATA with
    | [] => [null_entry cond]
    | entries =>
        map (fun entry => contributor_row cond REPO_NAME (fst entry) (snd entry))
          entries
    end
  /\ length (contributor_lines cond REPO_NAME DATA)
     = Nat.max 1 (length (filter (accepted cond) DATA))
  /\ contributor_lines cond REPO_NAME (filter (accepted cond) DATA)
     = contributor_lines cond REPO_NAME DATA.
Proof.
  assert (Hrows : forall D,
            contributor_lines cond REPO_NAME D
            = match filter (accepted cond) D with
              | [] => [null_entry cond]
              | entries =>
                  map (fun entry =>
                         contributor_row cond REPO_NAME (fst entry) (snd entry))
                    entries
              end).
  { intro D; unfold contributor_lines; rewrite contributor_loop_filter.
    cbn [fst snd orb app].
    destruct (filter (accepted cond) D); reflexivity. }
  split; [apply Hrows | split].
  - rewrite Hrows.
    destruct (filter (accepted cond) DATA) as [| x l]; [reflexivity |].
    rewrite length_map; cbn [length]; lia.
  - rewrite !Hrows.
    assert (Hff : filter (accepted cond) (filter (accepted cond) DATA)
                  = filter (accepted cond) DATA).
    { induction DATA as [| x l IH]; [reflexivity |]; simpl.
      destruct (accepted cond x) eqn:Hx; simpl; rewrite ?Hx, IH; reflexivity. }
    rewrite Hff; reflexivity.
Qed.

(** ** What the extraction keeps, and when it ends well *)

Lemma get_set {V : Type} (k k' : string) (v : V) (d : Py.dict V) :
  Py.get k' (Py.set k v d) = if String.eqb k' k then Some v else Py.get k' d.
Proof.
  induction d as [| [k0 v0] d IH]; simpl.
  - reflexivity.
  - destruct (String.eqb_spec k k0) as [-> | Hk]; simpl.
    + destruct (String.eqb k' k0); reflexivity.
    + rewrite IH.
      destruct (String.eqb_spec k' k0) as [-> | Hk'];
        [| reflexivity].
      destruct (String.eqb_spec k0 k); [congruence | reflexivity].
Qed.

Lemma group_snoc (DATA : log) (title : string) (d : details) (c s : string) :
  group (DATA ++ [(title, d)]) c s
  = group DATA c s
    ++ (if String.eqb (core d) c && String.eqb (specificity d) s
        then [title] else []).
Proof.
  unfold group; rewrite filter_app, map_app; f_equal.
  cbn [filter]; unfold in_group; cbn [snd].
  destruct (String.eqb (core d) c && String.eqb (specificity d) s); reflexivity.
Qed.

Lemma first_occurrences_snoc (l : list string) (t : string) :
  first_occurrences (l ++ [t])
  = if Py.list_in t (first_occurrences l) then first_occurrences l
    else first_occurrences l ++ [t].
Proof.
  unfold first_occurrences; rewrite fold_left_app; reflexivity.
Qed.

Lemma list_in_iff (t : string) (l : list string) :
  Py.list_in t l = true <-> In t l.
Proof.
  unfold Py.list_in; rewrite existsb_exists; split.
  - intros [x [Hin Hx]]; apply String.eqb_eq in Hx; subst; exact Hin.
  - intro Hin; exists t; split; [exact Hin | apply String.eqb_refl].
Qed.

(** One more title in the group of a specificity: what the body of the
    loop does to the dict of the category. *)
Lemma extract_in_category_kept (title s : string) (g : list string)
    (dict : Py.dict sub_headings) :
  Py.get s dict = kept_under s g ->
  group_ok s g = true ->
  if group_ok s (g ++ [title])
  then exists dict',
         extract_in_category title s dict = Ok dict' /\
         Py.get s dict' = kept_under s (g ++ [title]) /\
         forall s', s' <> s -> Py.get s' dict' = Py.get s' dict
  else extract_in_category title s dict = Raise TypeError.
Proof.
  intros Hget Hok; unfold extract_in_category; rewrite Hget.
  destruct g as [| first rest].
  - (* the first title of the group *)
    cbn [kept_under app group_ok forallb]; rewrite orb_true_r.
    eexists; split; [reflexivity | split].
    + rewrite get_set, String.eqb_refl.
      cbn [kept_under filter].
      rewrite (String.eqb_sym title s).
      destruct (String.eqb s title); reflexivity.
    + intros s' Hs'; rewrite get_set.
      destruct (String.eqb_spec s' s); [contradiction | reflexivity].
  - cbn [kept_under app group_ok] in *.
    destruct (String.eqb first s) eqn:Hfirst; cbn [negb orb] in *.
    + (* [None] stands under the specificity *)
      rewrite forallb_app, Hok; cbn [forallb andb].
      rewrite andb_true_r.
      destruct (String.eqb title s); cbn [negb].
      * exists dict; split; [reflexivity | split; [exact Hget | reflexivity]].
      * reflexivity.
    + (* a list of titles stands under the specificity *)
      destruct (String.eqb title s) eqn:Htitle; cbn [negb].
      * exists dict; split; [reflexivity | split; [| reflexivity]].
        rewrite Hget.
        change (first :: rest ++ [title]) with ((first :: rest) ++ [title]).
        rewrite filter_app; cbn [filter]; rewrite Htitle; cbn [negb].
        rewrite app_nil_r; reflexivity.
      * cbn [title_not_in bind].
        set (kept := first_occurrences
                       (filter (fun t => negb (String.eqb t s)) (first :: rest))).
        assert (Hnew : first_occurrences
                         (filter (fun t => negb (String.eqb t s))
                            (first :: rest ++ [title]))
                       = if Py.list_in title kept then kept else kept ++ [title]).
        { change (first :: rest ++ [title]) with ((first :: rest) ++ [title]).
          rewrite filter_app; cbn [filter]; rewrite Htitle; cbn [negb].
          apply first_occurrences_snoc. }
        rewrite Hnew.
        destruct (Py.list_in title kept); cbn [negb].
        -- exists dict; split; [reflexivity | split; [exact Hget | reflexivity]].
        -- eexists; split; [reflexivity | split].
           ++ rewrite get_set, String.eqb_refl; reflexivity.
           ++ intros s' Hs'; rewrite get_set.
              destruct (String.eqb_spec s' s); [contradiction | reflexivity].
Qed.

Lemma group_ok_prefix (s : string) (g more : list string) :
  group_ok s (g ++ more) = true -> group_ok s g = true.
Proof.
  destruct g as [| first rest]; [reflexivity |].
  cbn [app group_ok]; rewrite forallb_app.
  destruct (negb (String.eqb first s)); [reflexivity |].
  cbn [orb]; intro H; apply andb_prop in H; tauto.
Qed.

Lemma group_other_category (DATA : log) (title : string) (d : details)
    (c s : string) :
  core d <> c -> group (DATA ++ [(title, d)]) c s = group DATA c s.
Proof.
  intro Hne; rewrite group_snoc.
  destruct (String.eqb_spec (core d) c); [contradiction |].
  cbn [andb]; apply app_nil_r.
Qed.

Lemma extractable_snoc (DATA : log) (title : string) (d : details) :
  extractable (DATA ++ [(title, d)]) <->
  extractable DATA /\ known_core (core d) = true /\
  group_ok (specificity d)
    (group DATA (core d) (specificity d) ++ [title]) = true.
Proof.
  unfold extractable; rewrite forallb_app; cbn [forallb snd].
  rewrite andb_true_r; split.
  - intros [Hknown Hgroups]; apply andb_prop in Hknown as [Hk1 Hk2].
    repeat split; try assumption.
    + intros c s; apply group_ok_prefix with
        (more := if String.eqb (core d) c && String.eqb (specificity d) s
                 then [title] else []).
      rewrite <- group_snoc; apply Hgroups.
    + specialize (Hgroups (core d) (specificity d)).
      rewrite group_snoc, !String.eqb_refl in Hgroups; exact Hgroups.
  - intros [[Hknown Hgroups] [Hk Hg]]; split.
    + rewrite Hknown, Hk; reflexivity.
    + intros c s; rewrite group_snoc.
      destruct (String.eqb_spec (core d) c) as [<- |];
        [| cbn [andb]; rewrite app_nil_r; apply Hgroups].
      destruct (String.eqb_spec (specificity d) s) as [<- |];
        [exact Hg | cbn [andb]; rewrite app_nil_r; apply Hgroups].
Qed.

(** One more entry in a category whose dict is as [kept_under] says. *)
Lemma extract_in_category_step (DATA : log) (title : string) (d : details)
    (dict : Py.dict sub_headings) :
  (forall s, Py.get s dict = kept_under s (group DATA (core d) s)) ->
  extractable DATA ->
  if group_ok (specificity d)
       (group DATA (core d) (specificity d) ++ [title])
  then exists dict',
         extract_in_category title (specificity d) dict = Ok dict' /\
         forall s, Py.get s dict'
                   = kept_under s (group (DATA ++ [(title, d)]) (core d) s)
  else extract_in_category title (specificity d) dict = Raise TypeError.
Proof.
  intros Hdict [_ Hgroups].
  pose proof (extract_in_category_kept title (specificity d)
                (group DATA (core d) (specificity d)) dict
                (Hdict _) (Hgroups _ _)) as Hstep.
  destruct (group_ok (specificity d)
              (group DATA (core d) (specificity d) ++ [title]));
    [| exact Hstep].
  destruct Hstep as [dict' [Hrun [Hsame Hother]]].
  exists dict'; split; [exact Hrun |].
  intro s; rewrite group_snoc, String.eqb_refl; cbn [andb].
  destruct (String.eqb_spec (specificity d) s) as [<- | Hne].
  - exact Hsame.
  - rewrite app_nil_r, Hother by congruence; apply Hdict.
Qed.

(** The extraction ends well on the extractable logs, and on no other; and
    then the table is as [kept_under] says. *)
Lemma extract_spec (DATA : log) :
  (extractable DATA /\
   exists toc, extract DATA skeleton = Ok toc /\ kept_in DATA toc)
  \/ (~ extractable DATA /\ forall toc, extract DATA skeleton <> Ok toc).
Proof.
  induction DATA as [| [title d] DATA IH] using rev_ind.
  - left; split; [split; [reflexivity | intros c s; reflexivity] |].
    exists skeleton; split; [reflexivity |].
    exists [], [], []; repeat split.
  - rewrite extract_app.
    destruct IH as [[Hok [toc [Hrun Hkept]]] | [Hbad Hfail]].
    2: { right; split.
         - intro H; apply extractable_snoc in H; tauto.
         - intros toc'; destruct (extract DATA skeleton) as [toc | |];
             cbn [bind]; try discriminate.
           exfalso; apply (Hfail toc); reflexivity. }
    rewrite Hrun; cbn [bind extract].
    destruct Hkept as [a [b [c [-> [Ha [Hb Hc]]]]]].
    rewrite extract_entry_categories.
    destruct (String.eqb_spec (core d) "Theory") as [E1 | N1];
      [| destruct (String.eqb_spec (core d) "Solved-Problems") as [E2 | N2];
         [| destruct (String.eqb_spec (core d) "Repo") as [E3 | N3]]].
    + pose proof (extract_in_category_step DATA title d a) as Hstep.
      specialize (Hstep ltac:(rewrite E1; exact Ha) Hok).
      destruct (group_ok (specificity d)
                  (group DATA (core d) (specificity d) ++ [title])) eqn:Hg.
      * destruct Hstep as [a' [Ha' Hkept']]; rewrite Ha'; cbn [bind].
        left; split.
        -- apply extractable_snoc.
           split; [exact Hok | split; [rewrite E1; reflexivity | exact Hg]].
        -- eexists; split; [reflexivity |].
           exists a', b, c; repeat split.
           ++ intro s; rewrite Hkept', E1; reflexivity.
           ++ intro s; rewrite group_other_category by (rewrite E1; discriminate).
              apply Hb.
           ++ intro s; rewrite group_other_category by (rewrite E1; discriminate).
              apply Hc.
      * rewrite Hstep; cbn [bind]; right; split; [| discriminate].
        intro H; apply extractable_snoc in H; destruct H as [_ [_ H]].
        congruence.
    + pose proof (extract_in_category_step DATA title d b) as Hstep.
      specialize (Hstep ltac:(rewrite E2; exact Hb) Hok).
      destruct (group_ok (specificity d)
                  (group DATA (core d) (specificity d) ++ [title])) eqn:Hg.
      * destruct Hstep as [b' [Hb' Hkept']]; rewrite Hb'; cbn [bind].
        left; split.
        -- apply extractable_snoc.
           split; [exact Hok | split; [rewrite E2; reflexivity | exact Hg]].
        -- eexists; split; [reflexivity |].
           exists a, b', c; repeat split.
           ++ intro s; rewrite group_other_category by (rewrite E2; discriminate).
              apply Ha.
           ++ intro s; rewrite Hkept', E2; reflexivity.
           ++ intro s; rewrite group_other_category by (rewrite E2; discriminate).
              apply Hc.
      * rewrite Hstep; cbn [bind]; right; split; [| discriminate].
        intro H; apply extractable_snoc in H; destruct H as [_ [_ H]].
        congruence.
    + pose proof (extract_in_category_step DATA title d c) as Hstep.
      specialize (Hstep ltac:(rewrite E3; exact Hc) Hok).
      destruct (group_ok (specificity d)
                  (group DATA (core d) (specificity d) ++ [title])) eqn:Hg.
      * destruct Hstep as [c' [Hc' Hkept']]; rewrite Hc'; cbn [bind].
        left; split.
        -- apply extractable_snoc.
           split; [exact Hok | split; [rewrite E3; reflexivity | exact Hg]].
        -- eexists; split; [reflexivity |].
           exists a, b, c'; repeat split.
           ++ intro s; rewrite group_other_category by (rewrite E3; discriminate).
              apply Ha.
           ++ intro s; rewrite group_other_category by (rewrite E3; discriminate).
              apply Hb.
           ++ intro s; rewrite Hkept', E3; reflexivity.
      * rewrite Hstep; cbn [bind]; right; split; [| discriminate].
        intro H; apply extractable_snoc in H; destruct H as [_ [_ H]].
        congruence.
    + right; split; [| discriminate].
      intro H; apply extractable_snoc in H; destruct H as [_ [H _]].
      unfold known_core in H.
      destruct (String.eqb_spec (core d) "Theory"); [contradiction |].
      destruct (String.eqb_spec (core d) "Solved-Problems"); [contradiction |].
      destruct (String.eqb_spec (core d) "Repo"); [contradiction |].
      discriminate.
Qed.

Lemma first_occurrences_spec (l : list string) :
  NoDup (first_occurrences l) /\ forall t, In t (first_occurrences l) <-> In t l.
Proof.
  induction l as [| x l [Hnd Hin]] using rev_ind.
  - split; [constructor | intro t; reflexivity].
  - rewrite first_occurrences_snoc.
    destruct (Py.list_in x (first_occurrences l)) eqn:Hx.
    + split; [exact Hnd |].
      intro t; rewrite in_app_iff, Hin; cbn [In].
      apply list_in_iff, Hin in Hx.
      split; [tauto | intros [H | [<- | []]]; assumption].
    + split.
      * apply NoDup_app; [exact Hnd | repeat constructor; intros [] | ].
        intros t Ht [<- | []].
        apply list_in_iff in Ht; congruence.
      * intro t; rewrite !in_app_iff, Hin; reflexivity.
Qed.

(** X7.  The extraction of the table of content ends well exactly on the
    logs in which every category is one of the three of the skeleton and in
    which no group of entries of one category and one specificity opens
    with the entry titled as the specificity and goes on with another
    title; the rendering of the outline ends well on the same logs, with or
    without a filter. *)
Theorem extract_succeeds_iff (DATA : log) :
  ((exists toc, extract DATA skeleton = Ok toc) <-> extractable DATA)
  /\ (forall cond,
        (exists outline, content_lines cond DATA = Ok outline)
        <-> extractable DATA).
Proof.
  assert (Hex : (exists toc, extract DATA skeleton = Ok toc) <-> extractable DATA).
  { destruct (extract_spec DATA) as [[Hok [toc [Hrun _]]] | [Hbad Hfail]].
    - split; [intros _; exact Hok | intros _; exists toc; exact Hrun].
    - split; [intros [toc Hrun]; destruct (Hfail toc Hrun) | tauto]. }
  split; [exact Hex |].
  intro cond; rewrite <- Hex; unfold content_lines.
  destruct (extract DATA skeleton) as [toc | |]; cbn [bind]; split;
    try (intros [x Hx]; discriminate).
  - intros _; exists toc; reflexivity.
  - intros _; eexists; reflexivity.
Qed.

(** A log whose one group opens with another title than the specificity,
    and a log whose one group opens with the specificity. *)
Lemma extract_succeeds_iff_witness :
  (exists outline,
     content_lines None
       [("QuickSort"%string, sample "Theory" "Sorting");
        ("Sorting"%string, sample "Theory" "Sorting")] = Ok outline)
  /\ group_ok "Sorting"
       (group [("Sorting"%string, sample "Theory" "Sorting");
               ("QuickSort"%string, sample "Theory" "Sorting")]
          "Theory" "Sorting") = false.
Proof.
  split; [| reflexivity].
  apply (proj2 (extract_succeeds_iff _)).
  split; [reflexivity |].
  intros c s; unfold group, in_group, sample; cbn [filter snd core specificity].
  destruct (String.eqb "Theory" c && String.eqb "Sorting" s) eqn:E;
    [| reflexivity].
  apply andb_prop in E as [_ E]; apply String.eqb_eq in E; subst s.
  reflexivity.
Defined.

(** X8.  When the extraction ends well, what stands in a category under a
    specificity is told by the entries of that category and specificity:
    the specificity is a key exactly when there is such an entry; a list
    kept under it holds each title other than the specificity once, holds
    no other string, and the first entry of the group is not titled as the
    specificity; and [None] is kept under it exactly when every entry of
    the group is titled as the specificity. *)
Theorem extract_keeps_groups (DATA : log) (toc : table_of_content_t)
    (c : string) (dict : Py.dict sub_headings) :
  extract DATA skeleton = Ok toc ->
  Py.get c toc = Some dict ->
  (forall s, Py.get s dict = None <-> group DATA c s = [])
  /\ (forall s titles,
        Py.get s dict = Some (Some titles) ->
        NoDup titles /\ titles <> [] /\
        forall t, In t titles <-> In t (group DATA c s) /\ t <> s)
  /\ (forall s,
        Py.get s dict = Some None <->
        group DATA c s <> [] /\ forall t, In t (group DATA c s) -> t = s).
Proof.
  intros Hrun Hget.
  assert (Hkept : forall s, Py.get s dict = kept_under s (group DATA c s)).
  { destruct (extract_spec DATA) as [[_ [toc' [Hrun' Hkept]]] | [_ Hfail]];
      [| destruct (Hfail toc Hrun)].
    rewrite Hrun in Hrun'; injection Hrun' as <-.
    destruct Hkept as [a [b [c0 [-> [Ha [Hb Hc]]]]]].
    unfold categories in Hget; cbn [Py.get] in Hget.
    destruct (String.eqb_spec c "Theory") as [-> |];
      [injection Hget as <-; exact Ha |].
    destruct (String.eqb_spec c "Solved-Problems") as [-> |];
      [injection Hget as <-; exact Hb |].
    destruct (String.eqb_spec c "Repo") as [-> |];
      [injection Hget as <-; exact Hc | discriminate]. }
  assert (Hok : forall s, group_ok s (group DATA c s) = true).
  { destruct (extract_spec DATA) as [[[_ Hok] _] | [_ Hfail]];
      [intro s; apply Hok | destruct (Hfail toc Hrun)]. }
  split; [| split].
  - intro s; rewrite Hkept; unfold kept_under.
    destruct (group DATA c s) as [| first rest]; [tauto |].
    destruct (String.eqb first s); split; discriminate.
  - intros s titles; rewrite Hkept; unfold kept_under.
    destruct (group DATA c s) as [| first rest] eqn:Hg; [discriminate |].
    destruct (String.eqb_spec first s) as [| Hfirst]; [discriminate |].
    intro H; injection H as <-.
    destruct (first_occurrences_spec
                (filter (fun t => negb (String.eqb t s)) (first :: rest)))
      as [Hnd Hin].
    assert (Hmem : forall t,
               In t (first_occurrences
                       (filter (fun t => negb (String.eqb t s)) (first :: rest)))
               <-> In t (first :: rest) /\ t <> s).
    { intro t; rewrite Hin, filter_In.
      destruct (String.eqb_spec t s); cbn [negb]; split; intros [Ht H];
        first [discriminate | contradiction | tauto]. }
    split; [exact Hnd | split; [| exact Hmem]].
    intro Hnil.
    assert (Hf : In first (@nil string)).
    { rewrite <- Hnil; apply Hmem; split; [left; reflexivity | exact Hfirst]. }
    destruct Hf.
  - intro s; rewrite Hkept; specialize (Hok s); unfold kept_under, group_ok in *.
    destruct (group DATA c s) as [| first rest]; [split; [discriminate | tauto] |].
    destruct (String.eqb_spec first s) as [-> | Hfirst]; cbn [negb orb] in Hok.
    + split; [| reflexivity].
      intros _; split; [discriminate |].
      intros t [<- | Ht]; [reflexivity |].
      rewrite forallb_forall in Hok; apply String.eqb_eq, Hok, Ht.
    + split; [discriminate |].
      intros [_ Hall]; destruct Hfirst; apply Hall; left; reflexivity.
Qed.

(** The titles [QuickSort], [Sorting] and [MergeSort] of the specificity
    [Sorting] of [Theory]: the list kept holds the first and the last. *)
Lemma extract_keeps_groups_witness :
  NoDup ["QuickSort"; "MergeSort"]%string
  /\ ["QuickSort"; "MergeSort"]%string <> []
  /\ forall t,
       In t ["QuickSort"; "MergeSort"]%string <->
       In t (group [("QuickSort"%string, sample "Theory" "Sorting");
                    ("Sorting"%string, sample "Theory" "Sorting");
                    ("MergeSort"%string, sample "Theory" "Sorting")]
               "Theory" "Sorting")
       /\ t <> "Sorting"%string.
Proof.
  apply (proj1 (proj2
           (extract_keeps_groups
              [("QuickSort"%string, sample "Theory" "Sorting");
               ("Sorting"%string, sample "Theory" "Sorting");
               ("MergeSort"%string, sample "Theory" "Sorting")]
              (categories
                 [("Sorting"%string, Some ["QuickSort"; "MergeSort"]%string)]
                 [] [])
              "Theory"
              [("Sorting"%string, Some ["QuickSort"; "MergeSort"]%string)]
              eq_refl eq_refl)) "Sorting"%string).
  reflexivity.
Defined.

(** ** The entries a filter rejects *)

(** The entries of the categories that are dropped leave the dicts of the
    categories that are kept as they are. *)
Lemma extract_kept_cores (keep : string -> bool) (DATA : log)
    (a b c a' b' c' : Py.dict sub_headings) (toc : table_of_content_t) :
  (keep "Theory"%string = true -> a = a') ->
  (keep "Solved-Problems"%string = true -> b = b') ->
  (keep "Repo"%string = true -> c = c') ->
  extract DATA (categories a b c) = Ok toc ->
  exists a2 b2 c2 a2' b2' c2',
    toc = categories a2 b2 c2 /\
    extract (filter (fun entry => keep (core (snd entry))) DATA)
      (categories a' b' c') = Ok (categories a2' b2' c2') /\
    (keep "Theory"%string = true -> a2 = a2') /\
    (keep "Solved-Problems"%string = true -> b2 = b2') /\
    (keep "Repo"%string = true -> c2 = c2').
Proof.
  revert a b c a' b' c'; induction DATA as [| [title d] rest IH];
    intros a b c a' b' c' Ha Hb Hc; cbn [extract filter snd].
  - intro H; injection H as <-.
    exists a, b, c, a', b', c'; repeat split; assumption.
  - rewrite extract_entry_categories.
    destruct (String.eqb_spec (core d) "Theory") as [E1 | N1];
      [| destruct (String.eqb_spec (core d) "Solved-Problems") as [E2 | N2];
         [| destruct (String.eqb_spec (core d) "Repo") as [E3 | N3];
            [| discriminate]]].
    + destruct (extract_in_category title (specificity d) a) as [a1 | |] eqn:Hstep;
        cbn [bind]; try discriminate.
      rewrite E1; destruct (keep "Theory"%string) eqn:Hk.
      * cbn [extract]; rewrite extract_entry_categories, E1.
        cbn [String.eqb Ascii.eqb Bool.eqb].
        rewrite <- (Ha eq_refl), Hstep; cbn [bind].
        apply IH; auto.
      * apply IH; auto; discriminate.
    + destruct (extract_in_category title (specificity d) b) as [b1 | |] eqn:Hstep;
        cbn [bind]; try discriminate.
      rewrite E2; destruct (keep "Solved-Problems"%string) eqn:Hk.
      * cbn [extract]; rewrite extract_entry_categories, E2.
        cbn [String.eqb Ascii.eqb Bool.eqb].
        rewrite <- (Hb eq_refl), Hstep; cbn [bind].
        apply IH; auto.
      * apply IH; auto; discriminate.
    + destruct (extract_in_category title (specificity d) c) as [c1 | |] eqn:Hstep;
        cbn [bind]; try discriminate.
      rewrite E3; destruct (keep "Repo"%string) eqn:Hk.
      * cbn [extract]; rewrite extract_entry_categories, E3.
        cbn [String.eqb Ascii.eqb Bool.eqb].
        rewrite <- (Hc eq_refl), Hstep; cbn [bind].
        apply IH; auto.
      * apply IH; auto; discriminate.
Qed.

Lemma core_lines_rejected (cond : condition) (core : string)
    (data : Py.dict sub_headings) :
  rejects cond core = true -> core_lines cond (core, data) = [].
Proof.
  intro H; unfold core_lines; rewrite H; reflexivity.
Qed.

(** X9.  The entries of the categories a filter rejects have no part in
    the table of content: whenever the outline of a log is rendered, the
    outline of the log without the entries the filter rejects is the same,
    and so are the lines written in the file. *)
Theorem rejected_entries_not_rendered (cond : condition) (DATA : log) :
  (forall outline,
      content_lines cond DATA = Ok outline ->
      content_lines cond (filter (accepted cond) DATA) = Ok outline)
  /\ (forall lines out,
        update_table_of_content cond DATA lines = Ok out ->
        update_table_of_content cond (filter (accepted cond) DATA) lines
        = Ok out).
Proof.
  assert (Hlines : forall outline,
             content_lines cond DATA = Ok outline ->
             content_lines cond (filter (accepted cond) DATA) = Ok outline).
  { intro outline; unfold content_lines.
    destruct (extract DATA skeleton) as [toc | |] eqn:Hrun; cbn [bind];
      try discriminate.
    destruct (extract_kept_cores (fun c => negb (rejects cond c)) DATA
                [] [] [] [] [] [] toc) as
      [a2 [b2 [c2 [a2' [b2' [c2' [-> [Hrun' [Ha [Hb Hc]]]]]]]]]]; auto.
    change (filter (accepted cond) DATA)
      with (filter (fun entry => negb (rejects cond (core (snd entry)))) DATA).
    change skeleton with (categories [] [] []).
    rewrite Hrun'; cbn [bind]; rewrite !render_categories.
    assert (HT : core_lines cond ("Theory"%string, sort_value a2)
                 = core_lines cond ("Theory"%string, sort_value a2')).
    { destruct (rejects cond "Theory") eqn:Hr.
      - rewrite !core_lines_rejected by exact Hr; reflexivity.
      - rewrite (Ha eq_refl); reflexivity. }
    assert (HS : core_lines cond ("Solved-Problems"%string, sort_value b2)
                 = core_lines cond ("Solved-Problems"%string, sort_value b2')).
    { destruct (rejects cond "Solved-Problems") eqn:Hr.
      - rewrite !core_lines_rejected by exact Hr; reflexivity.
      - rewrite (Hb eq_refl); reflexivity. }
    rewrite HT, HS; auto. }
  split; [exact Hlines |].
  intros lines out; unfold update_table_of_content.
  destruct (find_table_points lines "table-of-content") as [[s t] | |];
    cbn [bind]; try discriminate.
  destruct (content_lines cond DATA) as [outline | |] eqn:Hout; cbn [bind];
    try discriminate.
  rewrite (Hlines outline eq_refl); auto.
Qed.

(** With the filter of [Solved-Problems/index.md], an entry of [Theory]
    and an entry of [Solved-Problems]. *)
Lemma rejected_entries_not_rendered_witness :
  content_lines (Some (String.eqb "Solved-Problems"))
    (filter (accepted (Some (String.eqb "Solved-Problems")))
       [("QuickSort"%string, sample "Theory" "Sorting");
        ("Two Sum"%string, sample "Solved-Problems" "Arrays")])
  = Ok [ ("- [__Arrays__](Arrays " ++ Py.dq ++ "goto Arrays" ++ Py.dq ++ ")"
          ++ Py.nl)%string;
         (Py.tab ++ "- [Two Sum](Arrays/Two Sum " ++ Py.dq ++ "goto Two Sum"
          ++ Py.dq ++ ")" ++ Py.nl)%string ].
Proof.
  apply (proj1 (rejected_entries_not_rendered _ _)); reflexivity.
Defined.

(** ** Reading a file and writing it back *)

Lemma writelines_readlines_from (s cur : string) :
  writelines (readlines_from cur s) = (cur ++ s)%string.
Proof.
  revert cur; induction s as [| c s IH]; intro cur; cbn [readlines_from].
  - destruct (String.eqb_spec cur EmptyString) as [-> | _]; [reflexivity |].
    rewrite writelines_cons; reflexivity.
  - destruct (Ascii.eqb c (ascii_of_nat 10)).
    + rewrite writelines_cons, IH, append_assoc; reflexivity.
    + rewrite IH, append_assoc; reflexivity.
Qed.

Lemma universal_newlines_no_return (s : string) :
  lacks (ascii_of_nat 13) s = true -> universal_newlines s = s.
Proof.
  induction s as [| c s IH]; [reflexivity |].
  cbn [lacks universal_newlines]; intro H; apply andb_prop in H as [Hc Hs].
  rewrite Ascii.eqb_sym in Hc.
  destruct (Ascii.eqb c (ascii_of_nat 13)); [discriminate |].
  rewrite (IH Hs); reflexivity.
Qed.

Lemma universal_newlines_lacks_return (n : nat) (s : string) :
  String.length s <= n ->
  lacks (ascii_of_nat 13) (universal_newlines s) = true.
Proof.
  revert s; induction n as [| n IH]; intros s Hlen.
  - destruct s; [reflexivity | simpl in Hlen; lia].
  - destruct s as [| c s]; [reflexivity |].
    simpl in Hlen; cbn [universal_newlines].
    destruct (Ascii.eqb c (ascii_of_nat 13)) eqn:Hcr.
    + destruct s as [| c' s']; [reflexivity |].
      destruct (Ascii.eqb c' (ascii_of_nat 10)) eqn:Hlf.
      * apply Ascii.eqb_eq in Hlf; subst c'.
        cbn [lacks]; rewrite IH by (simpl in Hlen; lia); reflexivity.
      * cbn [lacks]; rewrite IH by lia; reflexivity.
    + cbn [lacks]; rewrite Ascii.eqb_sym, Hcr, IH by lia; reflexivity.
Qed.

(** X10.  Reading the lines of a file and writing them back, with no
    update between, gives the text of the file with each carriage return,
    alone or before a line feed, turned into a line feed, and nothing else
    changed: a text without carriage returns is written back as it is.
    The lines read are complete lines, but for the last when the text does
    not end with a line feed, and none of them is empty. *)
Theorem write_lines_of_get_lines (text : string) :
  write_lines_into_file (get_lines text) = universal_newlines text
  /\ lacks (ascii_of_nat 13) (write_lines_into_file (get_lines text)) = true
  /\ (lacks (ascii_of_nat 13) text = true ->
      write_lines_into_file (get_lines text) = text)
  /\ lines_shape (get_lines text)
  /\ ~ In EmptyString (get_lines text).
Proof.
  assert (Hback : write_lines_into_file (get_lines text)
                  = universal_newlines text).
  { unfold write_lines_into_file, get_lines, readlines.
    apply (writelines_readlines_from _ EmptyString). }
  split; [exact Hback | split; [| split; [| split]]].
  - rewrite Hback.
    apply (universal_newlines_lacks_return (String.length text)); lia.
  - intro H; rewrite Hback; apply universal_newlines_no_return; exact H.
  - apply readlines_shape.
  - unfold get_lines.
    pose proof (readlines_shape text) as Hshape.
    induction (readlines text) as [| l rest IH]; [intros [] |].
    intros [-> | Hin].
    + destruct rest as [| l2 rest]; cbn [lines_shape] in Hshape.
      * destruct Hshape as [[body [_ E]] | [Hne _]];
          [destruct body; discriminate | contradiction].
      * destruct Hshape as [[body [_ E]] _]; destruct body; discriminate.
    + apply IH; [| exact Hin].
      destruct rest as [| l2 rest]; [exact I |].
      cbn [lines_shape] in Hshape; tauto.
Qed.

(** A text of one line without its line feed. *)
Lemma write_lines_of_get_lines_witness :
  write_lines_into_file (get_lines "# Index")
  = "# Index"%string.
Proof.
  apply (proj1 (proj2 (proj2 (write_lines_of_get_lines _)))); reflexivity.
Defined.

(** X11.  The lines written to a file are read back as they were written
    exactly when each of them but the last is a text without line feed or
    carriage return followed by one line feed, and the last is such a line
    or a text, not empty, without line feed or carriage return. *)
Theorem get_lines_of_write_lines (lines : list string) :
  get_lines (write_lines_into_file lines) = lines <-> lines_shape lines.
Proof.
  unfold get_lines, write_lines_into_file; split.
  - intro H; rewrite <- H; apply readlines_shape.
  - apply readlines_writelines.
Qed.

(** ** The target of the demo link holds no space *)

(** X12.  The target of the demo link never holds a space, whatever the
    demo path is; when the path holds a space the target holds no
    whitespace at all, and a path that holds no space, with or without
    other whitespace, is left as it is.  Rendering the target of a target
    changes nothing. *)
Theorem demo_target_no_space (p : string) :
  lacks " "%char (demo_target p) = true
  /\ (Py.str_in " " p = true -> no_whitespace (demo_target p) = true)
  /\ (Py.str_in " " p = false -> demo_target p = p)
  /\ demo_target (demo_target p) = demo_target p.
Proof.
  assert (Hws : Py.str_in " " p = true -> no_whitespace (demo_target p) = true).
  { intro Hp; unfold demo_target; rewrite Hp.
    apply no_whitespace_join; [reflexivity |].
    apply no_whitespace_split_from; reflexivity. }
  assert (Hsp : lacks " "%char (demo_target p) = true).
  { destruct (Py.str_in " " p) eqn:Hp.
    - apply no_whitespace_lacks_space, Hws; reflexivity.
    - unfold demo_target; rewrite Hp, lacks_space_str_in, Hp; reflexivity. }
  split; [exact Hsp | split; [exact Hws | split]].
  - intro Hp; unfold demo_target; rewrite Hp; reflexivity.
  - rewrite lacks_space_str_in in Hsp.
    unfold demo_target at 1.
    destruct (Py.str_in " " (demo_target p)); [discriminate | reflexivity].
Qed.

(** A path with a tab and two spaces in a row, and a path with a tab and
    no space. *)
Lemma demo_target_no_space_witness :
  no_whitespace (demo_target ("My" ++ Py.tab ++ "Folder  demo")) = true
  /\ demo_target ("My" ++ Py.tab ++ "Folder") = ("My" ++ Py.tab ++ "Folder")%string.
Proof.
  split.
  - apply (proj1 (proj2 (demo_target_no_space _))); reflexivity.
  - apply (proj1 (proj2 (proj2 (demo_target_no_space _)))); reflexivity.
Defined.

(** ** The run over the five files *)

Lemma update_file_cases (FILE_PATH : string) (cond : condition)
    (REPO_NAME : option string) (DATA : log) (fs fs' : file_system)
    (e : run_end) :
  update_file FILE_PATH cond REPO_NAME DATA fs = (fs', e) ->
  (e = Completed /\
   exists text out,
     fs FILE_PATH = Some text /\
     UpdateFileContent cond REPO_NAME DATA text = Ok out /\
     fs' = write_file FILE_PATH out fs)
  \/ (e <> Completed /\ fs' = fs).
Proof.
  unfold update_file.
  destruct (fs FILE_PATH) as [text |].
  - destruct (UpdateFileContent cond REPO_NAME DATA text) as [out | code | x]
      eqn:Hrun; intro H; injection H as <- <-.
    + left; split; [reflexivity |]; exists text, out; auto.
    + right; split; [discriminate | reflexivity].
    + right; split; [discriminate | reflexivity].
  - intro H; injection H as <- <-.
    right; split; [discriminate | reflexivity].
Qed.

(** The end of the update of a file is told by the text of that file. *)
Lemma update_file_end (FILE_PATH : string) (cond : condition)
    (REPO_NAME : option string) (DATA : log) (fs1 fs2 : file_system) :
  fs1 FILE_PATH = fs2 FILE_PATH ->
  snd (update_file FILE_PATH cond REPO_NAME DATA fs1)
  = snd (update_file FILE_PATH cond REPO_NAME DATA fs2).
Proof.
  intro H; unfold update_file; rewrite H.
  destruct (fs2 FILE_PATH) as [text |]; [| reflexivity].
  destruct (UpdateFileContent cond REPO_NAME DATA text); reflexivity.
Qed.

(** The calls one after the other, on paths that differ: the files of the
    calls that ended well hold the text written from the text they held,
    every other file is as it was, and the run ends with the end of the
    first call that does not end well. *)
Lemma update_files_steps (tgts : list (string * condition))
    (REPO_NAME : option string) (DATA : log) (fs fs' : file_system)
    (e : run_end) :
  NoDup (map fst tgts) ->
  update_files tgts REPO_NAME DATA fs = (fs', e) ->
  exists done rest,
    tgts = done ++ rest /\
    (forall path cond,
        In (path, cond) done ->
        exists text out,
          fs path = Some text /\
          UpdateFileContent cond REPO_NAME DATA text = Ok out /\
          fs' path = Some out) /\
    (forall path, ~ In path (map fst done) -> fs' path = fs path) /\
    match rest with
    | [] => e = Completed
    | (path, cond) :: _ =>
        e <> Completed /\
        snd (update_file path cond REPO_NAME DATA fs) = e
    end.
Proof.
  revert fs; induction tgts as [| [p cond] tgts IH]; intros fs Hnd; simpl.
  - intro H; injection H as <- <-.
    exists [], []; repeat split; auto; intros ? ? [].
  - inversion Hnd as [| ? ? Hp Hnd']; subst.
    destruct (update_file p cond REPO_NAME DATA fs) as [fs1 e1] eqn:Hfile.
    destruct (update_file_cases _ _ _ _ _ _ _ Hfile)
      as [[-> [text [out [Htext [Hrun ->]]]]] | [Hne ->]].
    + intro Hrest.
      destruct (IH _ Hnd' Hrest) as [done [rest [-> [Hdone [Hframe Hend]]]]].
      assert (Hp' : ~ In p (map fst done)).
      { intro Hin; apply Hp; rewrite map_app; apply in_or_app; left; exact Hin. }
      assert (Hother : forall q, q <> p -> write_file p out fs q = fs q).
      { intros q Hq; unfold write_file.
        destruct (String.eqb_spec q p); [contradiction | reflexivity]. }
      exists ((p, cond) :: done), rest; split; [reflexivity | split; [| split]].
      * intros path cond' [E | Hin].
        -- injection E as <- <-; exists text, out; repeat split; auto.
           rewrite (Hframe p Hp'); unfold write_file.
           rewrite String.eqb_refl; reflexivity.
        -- destruct (Hdone path cond' Hin) as [text' [out' [H1 [H2 H3]]]].
           exists text', out'; repeat split; auto.
           rewrite <- H1; symmetry; apply Hother.
           intros ->; apply Hp'.
           change p with (fst (p, cond')); apply in_map; exact Hin.
      * intros path Hpath; cbn [map fst In] in Hpath.
        rewrite Hframe by tauto; apply Hother; intros ->; tauto.
      * destruct rest as [| [q cq] rest']; [exact Hend |].
        destruct Hend as [Hne Hend]; split; [exact Hne |].
        rewrite <- Hend; apply update_file_end; symmetry; apply Hother.
        intros ->; apply Hp; rewrite map_app; apply in_or_app; right.
        left; reflexivity.
    + destruct e1; [contradiction | | | |];
        (cbv beta iota; intro H; injection H as <- <-;
         exists [], ((p, cond) :: tgts);
         split; [reflexivity | split; [intros ? ? [] | split; [reflexivity |]]];
         split; [exact Hne | rewrite Hfile; reflexivity]).
Qed.

Lemma targets_differ : NoDup (map fst targets).
Proof.
  repeat constructor; cbn [map fst targets In]; intro H;
    repeat (destruct H as [H | H]; [discriminate |]); exact H.
Qed.

(** X13.  [main] writes no file but the five index files, and writes none
    of them that was not there: the text of every other path, the log
    among them, is after the run what it was before, and a path that was
    not a file is not a file after the run.  When the log is not there, or
    [json.load] refuses its text, no file at all is written. *)
Theorem main_writes_index_files_only (json_load : string -> option log)
    (REPO_NAME : option string) (fs : file_system) (path : string) :
  (~ In path (map fst targets) ->
   fst (main json_load REPO_NAME fs) path = fs path)
  /\ (fs path = None -> fst (main json_load REPO_NAME fs) path = None)
  /\ (match fs CONTRIBUTORS_LOG with
      | None => True
      | Some text => json_load text = None
      end ->
      fst (main json_load REPO_NAME fs) path = fs path).
Proof.
  unfold main.
  destruct (fs CONTRIBUTORS_LOG) as [text |]; [| repeat split; auto].
  destruct (json_load text) as [DATA |]; [| repeat split; auto].
  destruct (update_files targets REPO_NAME DATA fs) as [fs' e] eqn:Hrun.
  destruct (update_files_steps _ _ _ _ _ _ targets_differ Hrun)
    as [done [rest [Htargets [Hdone [Hframe _]]]]].
  cbn [fst]; split; [| split; [| discriminate]].
  - intro Hpath; apply Hframe; intro Hin; apply Hpath.
    rewrite Htargets, map_app; apply in_or_app; left; exact Hin.
  - intro Hnone.
    destruct (in_dec string_dec path (map fst done)) as [Hin | Hout].
    + apply in_map_iff in Hin as [[p cond] [E Hin]]; cbn [fst] in E; subst p.
      destruct (Hdone path cond Hin) as [text' [out [H1 _]]]; congruence.
    + rewrite (Hframe path Hout); exact Hnone.
Qed.

(** The log is not one of the five files. *)
Lemma main_writes_index_files_only_witness :
  fst (main (fun _ => Some one_entry) (Some "pranaydeep1/DSA"%string)
         sample_files) CONTRIBUTORS_LOG
  = sample_files CONTRIBUTORS_LOG.
Proof.
  apply (proj1 (main_writes_index_files_only _ _ _ _)).
  cbn [map fst targets In]; intro H;
    repeat (destruct H as [H | H]; [discriminate |]); exact H.
Defined.

(** X14.  When the log is read, [main] updates the five files in the order
    of its calls, each from the text it held before the run, and stops at
    the first file whose update does not end well: the files before it
    stay rewritten, that file and the files after it are as they were, and
    the run ends as the update of that file ends.  When no update fails
    the five files are rewritten and the run is completed. *)
Theorem main_stops_at_first_failure (json_load : string -> option log)
    (REPO_NAME : option string) (fs fs' : file_system) (text : string)
    (DATA : log) (e : run_end) :
  fs CONTRIBUTORS_LOG = Some text ->
  json_load text = Some DATA ->
  main json_load REPO_NAME fs = (fs', e) ->
  exists done rest,
    targets = done ++ rest /\
    (forall path cond,
        In (path, cond) done ->
        exists before out,
          fs path = Some before /\
          UpdateFileContent cond REPO_NAME DATA before = Ok out /\
          fs' path = Some out) /\
    (forall path, ~ In path (map fst done) -> fs' path = fs path) /\
    match rest with
    | [] => e = Completed
    | (path, cond) :: _ =>
        e <> Completed /\
        snd (update_file path cond REPO_NAME DATA fs) = e
    end.
Proof.
  intros Hlog Hload; unfold main; rewrite Hlog, Hload.
  apply update_files_steps, targets_differ.
Qed.

(** A repository with the root index and no other index file: the root
    index is rewritten and the run ends on [Theory/index.md]. *)
Lemma main_stops_at_first_failure_witness :
  (exists done rest,
     targets = done ++ rest /\
     (forall path cond,
         In (path, cond) done ->
         exists before out,
           sample_files path = Some before /\
           UpdateFileContent cond (Some "pranaydeep1/DSA"%string) one_entry
             before = Ok out /\
           fst sample_run path = Some out) /\
     (forall path,
         ~ In path (map fst done) -> fst sample_run path = sample_files path) /\
     match rest with
     | [] => snd sample_run = Completed
     | (path, cond) :: _ =>
         snd sample_run <> Completed /\
         snd (update_file path cond (Some "pranaydeep1/DSA"%string) one_entry
                sample_files) = snd sample_run
     end)
  /\ snd sample_run = FileNotFoundError THEORY_INDEX_FILE_PATH
  /\ fst sample_run ROOT_INDEX_FILE_PATH = Some after_one_run.
Proof.
  split; [| split; reflexivity].
  apply (main_stops_at_first_failure (fun _ => Some one_entry)
           (Some "pranaydeep1/DSA"%string) sample_files (fst sample_run)
           "{}"%string one_entry (snd sample_run));
    [reflexivity | reflexivity | apply surjective_pairing].
Defined.

(** ** The cells of a row *)

Lemma count_char_app (c : ascii) (s1 s2 : string) :
  count_char c (s1 ++ s2) = count_char c s1 + count_char c s2.
Proof.
  induction s1 as [| c' s1 IH]; simpl; [reflexivity | rewrite IH; lia].
Qed.

Lemma count_char_lacks (c : ascii) (s : string) :
  lacks c s = true -> count_char c s = 0.
Proof.
  induction s as [| c' s IH]; [reflexivity |].
  simpl; intro H; apply andb_prop in H as [Hc Hs].
  rewrite (IH Hs); destruct (Ascii.eqb c c'); [discriminate | reflexivity].
Qed.

Lemma bar_free_app (s1 s2 : string) :
  bar_free (s1 ++ s2) = bar_free s1 && bar_free s2.
Proof. apply lacks_app. Qed.

Lemma bar_free_join (sep : string) (l : list string) :
  bar_free sep = true -> forallb bar_free l = true ->
  bar_free (Py.join sep l) = true.
Proof.
  intro Hsep; unfold Py.join.
  induction l as [| x [| y l] IH]; simpl; intro H; try reflexivity.
  - rewrite andb_true_r in H; exact H.
  - apply andb_prop in H as [Hx H].
    rewrite !bar_free_app, Hx, Hsep; simpl; apply IH; exact H.
Qed.

Lemma bar_free_md_link (label target tooltip : string) :
  bar_free label = true -> bar_free target = true -> bar_free tooltip = true ->
  bar_free (md_link label target tooltip) = true.
Proof.
  intros H1 H2 H3; unfold md_link.
  rewrite !bar_free_app, H1, H2, H3; reflexivity.
Qed.

Lemma bar_free_string_of_uint (d : Decimal.uint) :
  bar_free (NilEmpty.string_of_uint d) = true.
Proof.
  induction d; simpl; try reflexivity;
    change (String ?c ?s) with (String c EmptyString ++ s)%string;
    rewrite bar_free_app, IHd; reflexivity.
Qed.

Lemma bar_free_fmt_pr (pr : pr_number) :
  bar_free_pr pr = true -> bar_free (fmt_pr pr) = true.
Proof.
  destruct pr as [n | s]; simpl; [intros _ | auto].
  unfold Py.str_of_int, NilZero.string_of_int, NilZero.string_of_uint.
  destruct (Z.to_int n) as [d | d]; destruct d; try reflexivity;
    try apply bar_free_string_of_uint;
    change (String ?c ?s) with (String c EmptyString ++ s)%string;
    rewrite bar_free_app, bar_free_string_of_uint; reflexivity.
Qed.

Lemma bar_free_map {A : Type} (p : A -> bool) (f : A -> string) (l : list A) :
  (forall x, p x = true -> bar_free (f x) = true) ->
  forallb p l = true -> forallb bar_free (map f l) = true.
Proof.
  intro Hf; induction l as [| x l IH]; simpl; [reflexivity |].
  intro H; apply andb_prop in H as [Hx Hl].
  rewrite (Hf x Hx), (IH Hl); reflexivity.
Qed.

Lemma bar_free_split_from (s cur : string) :
  bar_free cur = true -> bar_free s = true ->
  forallb bar_free (Py.split_from cur s) = true.
Proof.
  revert cur; induction s as [| c s IH]; intros cur Hcur Hs; simpl.
  - destruct (String.eqb cur EmptyString); simpl; [| rewrite Hcur]; reflexivity.
  - change (String c s) with (String c EmptyString ++ s)%string in Hs.
    rewrite bar_free_app in Hs; apply andb_prop in Hs as [Hc Hs].
    destruct (Py.isspace c).
    + destruct (String.eqb cur EmptyString); simpl;
        [| rewrite Hcur; simpl]; apply IH; auto.
    + apply IH; [rewrite bar_free_app, Hcur, Hc; reflexivity | exact Hs].
Qed.

Lemma bar_free_demo_path_output (REPO_NAME : option string) (title : string)
    (d : details) :
  bar_free (fmt_repo REPO_NAME) = true -> bar_free title = true ->
  bar_free (core d) = true -> bar_free (specificity d) = true ->
  bar_free (demo_path d) = true ->
  bar_free (demo_path_output REPO_NAME title d) = true.
Proof.
  intros Hrepo Htitle Hcore Hspec Hdemo; unfold demo_path_output.
  assert (Htarget : bar_free (demo_target (demo_path d)) = true).
  { unfold demo_target; destruct (Py.str_in " " (demo_path d)); [| exact Hdemo].
    apply bar_free_join; [reflexivity |].
    apply bar_free_split_from; [reflexivity | exact Hdemo]. }
  repeat match goal with
         | |- context [if ?b then _ else _] => destruct b
         end;
    apply bar_free_md_link;
    rewrite ?bar_free_app, ?Hrepo, ?Htitle, ?Hcore, ?Hspec, ?Htarget;
    reflexivity.
Qed.

(** X15.  When no string of an entry and of the repository name holds a
    bar, the row of the entry has as many cells as the header of its
    table: five without a filter, four with one.  So does every row
    written for a log of such entries. *)
Theorem contributor_row_columns (cond : condition) (REPO_NAME : option string) :
  bar_free (fmt_repo REPO_NAME) = true ->
  (forall title d,
      bar_free_entry (title, d) = true ->
      columns (contributor_row cond REPO_NAME title d)
      = if is_none cond then 5 else 4)
  /\ (forall DATA,
        forallb bar_free_entry DATA = true ->
        Forall (fun row => columns row = if is_none cond then 5 else 4)
          (table_header cond ++ contributor_lines cond REPO_NAME DATA)).
Proof.
  intro Hrepo.
  assert (Hrow : forall title d,
             bar_free_entry (title, d) = true ->
             columns (contributor_row cond REPO_NAME title d)
             = if is_none cond then 5 else 4).
  { intros title d Hentry; unfold bar_free_entry in Hentry.
    apply andb_prop in Hentry as [Hentry Hdemo].
    apply andb_prop in Hentry as [Hentry Hprs].
    apply andb_prop in Hentry as [Hentry Hnames].
    apply andb_prop in Hentry as [Hentry Hspec].
    apply andb_prop in Hentry as [Htitle Hcore].
    assert (Hn : bar_free (contributors_names_output (contributor_name d)) = true).
    { apply bar_free_join; [reflexivity |].
      apply (bar_free_map bar_free); [| exact Hnames].
      intros name Hname; apply bar_free_md_link;
        rewrite ?bar_free_app, ?Hname; reflexivity. }
    assert (Hc : bar_free (core_contribution_output (core d)) = true).
    { unfold core_contribution_output.
      destruct (negb (String.eqb (core d) "Repo")); [| reflexivity].
      apply bar_free_md_link; rewrite ?bar_free_app, ?Hcore; reflexivity. }
    assert (Hp : bar_free (pull_requests_output REPO_NAME
                             (pull_request_number d)) = true).
    { apply bar_free_join; [reflexivity |].
      apply (bar_free_map bar_free_pr); [| exact Hprs].
      intros pr Hpr; apply bar_free_fmt_pr in Hpr.
      apply bar_free_md_link; rewrite ?bar_free_app, ?Hpr, ?Hrepo; reflexivity. }
    assert (Hd : bar_free (demo_path_output REPO_NAME title d) = true)
      by (apply bar_free_demo_path_output; assumption).
    unfold bar_free in Hn, Hc, Hp, Hd, Htitle.
    unfold columns, contributor_row; destruct cond; cbn [is_none];
      rewrite !count_char_app,
        ?(count_char_lacks _ _ Hn), ?(count_char_lacks _ _ Hc),
        ?(count_char_lacks _ _ Hp), ?(count_char_lacks _ _ Hd),
        ?(count_char_lacks _ _ Htitle);
      reflexivity. }
  split; [exact Hrow |].
  intros DATA Hdata; apply Forall_app; split.
  - destruct cond; repeat constructor.
  - rewrite contributor_lines_rows_eq.
    assert (Hall : Forall (fun entry => bar_free_entry entry = true)
                     (filter (accepted cond) DATA)).
    { apply Forall_forall; intros entry Hin; apply filter_In in Hin as [Hin _].
      rewrite forallb_forall in Hdata; apply Hdata; exact Hin. }
    destruct (filter (accepted cond) DATA) as [| x l].
    + constructor; [destruct cond; reflexivity | constructor].
    + apply Forall_map.
      eapply Forall_impl; [| exact Hall].
      intros [title d] Hentry; apply Hrow; exact Hentry.
Qed.

(** A row of an entry without bars. *)
Lemma contributor_row_columns_witness :
  columns (contributor_row None (Some "pranaydeep1/DSA"%string) "QuickSort"
             (sample "Theory" "Sorting")) = 5.
Proof.
  apply (proj1 (contributor_row_columns None (Some "pranaydeep1/DSA"%string)
                  eq_refl)).
  reflexivity.
Defined.

(** ** Each update on a file whose markers are found *)

(** X16.  On every file in which the markers of its table are found, and
    for every log, each update ends well or fails in the extraction only,
    and rewrites lines of its own table only.  The update of the
    contributors table writes the header and the rows between the markers
    when nothing stands there; when two lines or more stand there it keeps
    the first two, whatever they are, and puts the rows in the place of the
    others; when one line stands there it keeps it and puts the rows after
    the end marker.  The update of the table of content puts the outline in
    the place of the lines between its markers. *)
Theorem updates_between_markers :
  (forall cond REPO_NAME DATA pre mid post lb le,
      region CONTRIBUTORS_BEGINS CONTRIBUTORS_ENDS pre lb mid le ->
      let rows := contributor_lines cond REPO_NAME DATA in
      update_table_of_contributors cond REPO_NAME DATA
        (pre ++ lb :: mid ++ le :: post)
      = Ok (pre ++ lb ::
              match mid with
              | [] => table_header cond ++ rows ++ le :: post
              | [only] => only :: le :: rows ++ post
              | h1 :: h2 :: _ => h1 :: h2 :: rows ++ le :: post
              end))
  /\ (forall cond DATA pre mid post lb le,
        region CONTENT_BEGINS CONTENT_ENDS pre lb mid le ->
        update_table_of_content cond DATA (pre ++ lb :: mid ++ le :: post)
        = (outline <- content_lines cond DATA ;;
           Ok (pre ++ lb :: outline ++ le :: post))).
Proof.
  split.
  - intros cond REPO_NAME DATA pre mid post lb le Hreg rows.
    destruct mid as [| h1 [| h2 old]].
    + rewrite update_table_of_contributors_region by (auto; discriminate).
      cbn [kept_header]; rewrite <- app_assoc; reflexivity.
    + apply update_table_of_contributors_one_line; exact Hreg.
    + rewrite update_table_of_contributors_region by (auto; discriminate).
      reflexivity.
  - intros cond DATA pre mid post lb le Hreg.
    apply update_table_of_content_region; exact Hreg.
Qed.

(** A contributors table of three lines, the first two of which are no
    header: they stay, and the row of dashes takes the place of the
    third. *)
Lemma updates_between_markers_witness :
  update_table_of_contributors None None []
    ([] ++ (CONTRIBUTORS_BEGINS ++ Py.nl)%string
        :: [("one" ++ Py.nl)%string; ("two" ++ Py.nl)%string;
            ("three" ++ Py.nl)%string]
        ++ (CONTRIBUTORS_ENDS ++ Py.nl)%string :: [])
  = Ok ([] ++ (CONTRIBUTORS_BEGINS ++ Py.nl)%string
           :: ("one" ++ Py.nl)%string :: ("two" ++ Py.nl)%string
           :: contributor_lines None None []
           ++ (CONTRIBUTORS_ENDS ++ Py.nl)%string :: []).
Proof.
  apply (proj1 updates_between_markers None None []).
  repeat split; try reflexivity;
    intros l Hl; repeat (destruct Hl as [<- | Hl]); try contradiction;
    reflexivity.
Defined.

(** ** The outline and the order of the log *)

Lemma leb_refl (s : string) : String.leb s s = true.
Proof.
  destruct (String.leb_total s s); assumption.
Qed.

Lemma leb_trans (s1 s2 s3 : string) :
  String.leb s1 s2 = true -> String.leb s2 s3 = true ->
  String.leb s1 s3 = true.
Proof.
  unfold String.leb.
  destruct (String.compare s1 s2) eqn:H12; try discriminate;
    destruct (String.compare s2 s3) eqn:H23; try discriminate; intros _ _.
  - apply String_as_OT.cmp_eq in H12; subst; rewrite H23; reflexivity.
  - apply String_as_OT.cmp_eq in H12; subst; rewrite H23; reflexivity.
  - apply String_as_OT.cmp_eq in H23; subst; rewrite H12; reflexivity.
  - apply String_as_OT.cmp_lt in H12, H23.
    pose proof (String_as_OT.lt_trans _ _ _ H12 H23) as H13.
    apply String_as_OT.cmp_lt in H13.
    unfold String_as_OT.cmp in H13; rewrite H13; reflexivity.
Qed.

Section Unique.

Variables (A : Type) (key : A -> string).

(** Two lists in the order of their keys, with the same elements and keys
    that differ, are one list. *)
Lemma sorted_unique (l1 l2 : list A) :
  Sorted (fun x y => String.leb (key x) (key y) = true) l1 ->
  Sorted (fun x y => String.leb (key x) (key y) = true) l2 ->
  NoDup (map key l2) ->
  Permutation l1 l2 ->
  l1 = l2.
Proof.
  assert (Htrans : Relations_1.Transitive
                     (fun x y => String.leb (key x) (key y) = true))
    by (intros x y z; apply leb_trans).
  revert l2; induction l1 as [| a l1 IH]; intros l2 H1 H2 Hnd Hperm.
  - symmetry; apply Permutation_nil; exact Hperm.
  - destruct l2 as [| b l2];
      [apply Permutation_sym, Permutation_nil in Hperm; discriminate |].
    pose proof (Sorted_StronglySorted Htrans H1) as S1.
    pose proof (Sorted_StronglySorted Htrans H2) as S2.
    apply StronglySorted_inv in S1 as [_ Ha], S2 as [_ Hb].
    rewrite Forall_forall in Ha, Hb.
    assert (Hab : String.leb (key a) (key b) = true).
    { assert (Hin : In b (a :: l1))
        by (apply (Permutation_in _ (Permutation_sym Hperm)); left; reflexivity).
      destruct Hin as [<- | Hin]; [apply leb_refl | apply Ha; exact Hin]. }
    assert (Hina : In a (b :: l2))
      by (apply (Permutation_in _ Hperm); left; reflexivity).
    assert (Hba : String.leb (key b) (key a) = true).
    { destruct Hina as [<- | Hin]; [apply leb_refl | apply Hb; exact Hin]. }
    pose proof (String.leb_antisym _ _ Hab Hba) as Hkey.
    cbn [map] in Hnd; inversion Hnd as [| ? ? Hnotin Hnd']; subst.
    assert (a = b).
    { destruct Hina as [<- | Hin]; [reflexivity |].
      destruct Hnotin; rewrite <- Hkey; apply in_map; exact Hin. }
    subst b; f_equal.
    apply IH; try assumption.
    + inversion H1; assumption.
    + inversion H2; assumption.
    + apply Permutation_cons_inv with a; exact Hperm.
Qed.

End Unique.

Lemma in_keys_set {V : Type} (k x : string) (v : V) (d : Py.dict V) :
  In x (map fst (Py.set k v d)) -> x = k \/ In x (map fst d).
Proof.
  induction d as [| [k' v'] d IH]; simpl.
  - intros [<- | []]; left; reflexivity.
  - destruct (String.eqb_spec k k') as [-> | _]; simpl.
    + intros [<- | H]; auto.
    + intros [<- | H]; auto.
      destruct (IH H); auto.
Qed.

Lemma nodup_set {V : Type} (k : string) (v : V) (d : Py.dict V) :
  NoDup (map fst d) -> NoDup (map fst (Py.set k v d)).
Proof.
  induction d as [| [k' v'] d IH]; simpl; intro Hnd.
  - repeat constructor; intros [].
  - inversion Hnd as [| ? ? Hnotin Hnd']; subst.
    destruct (String.eqb_spec k k') as [-> | Hne]; simpl.
    + constructor; assumption.
    + constructor; [| exact (IH Hnd')].
      intro Hin; apply in_keys_set in Hin as [-> | Hin]; [congruence | auto].
Qed.

Lemma nodup_extract_in_category (title s : string)
    (d d' : Py.dict sub_headings) :
  NoDup (map fst d) -> extract_in_category title s d = Ok d' ->
  NoDup (map fst d').
Proof.
  intro Hnd; unfold extract_in_category.
  destruct (Py.get s d) as [v |].
  - destruct (negb (String.eqb title s));
      [| intro E; injection E as <-; exact Hnd].
    destruct (title_not_in title v) as [[|] | |]; cbn [bind];
      intro E; try discriminate; injection E as <-;
      [apply nodup_set |]; exact Hnd.
  - intro E; injection E as <-; apply nodup_set; exact Hnd.
Qed.

Lemma nodup_extract (DATA : log) (a b c : Py.dict sub_headings)
    (toc : table_of_content_t) :
  NoDup (map fst a) -> NoDup (map fst b) -> NoDup (map fst c) ->
  extract DATA (categories a b c) = Ok toc ->
  exists a' b' c',
    toc = categories a' b' c' /\
    NoDup (map fst a') /\ NoDup (map fst b') /\ NoDup (map fst c').
Proof.
  revert a b c; induction DATA as [| [title d] rest IH];
    intros a b c Ha Hb Hc; cbn [extract].
  - intro E; injection E as <-; exists a, b, c; auto.
  - rewrite extract_entry_categories.
    destruct (String.eqb (core d) "Theory");
      [| destruct (String.eqb (core d) "Solved-Problems");
         [| destruct (String.eqb (core d) "Repo"); [| discriminate]]];
      destruct (extract_in_category title (specificity d) _) as [x | |] eqn:Hx;
      cbn [bind]; try discriminate;
      apply nodup_extract_in_category in Hx; try assumption;
      apply IH; assumption.
Qed.

Lemma get_in {V : Type} (k : string) (v : V) (d : Py.dict V) :
  NoDup (map fst d) -> (Py.get k d = Some v <-> In (k, v) d).
Proof.
  induction d as [| [k' v'] d IH]; simpl; intro Hnd.
  - split; [discriminate | intros []].
  - inversion Hnd as [| ? ? Hnotin Hnd']; subst.
    destruct (String.eqb_spec k k') as [-> | Hne].
    + split.
      * intro E; injection E as ->; left; reflexivity.
      * intros [E | Hin]; [injection E as ->; reflexivity |].
        destruct Hnotin; change k' with (fst (k', v)); apply in_map; exact Hin.
    + rewrite (IH Hnd'); split; [auto |].
      intros [E | Hin]; [injection E as -> ->; congruence | exact Hin].
Qed.

(** Two dicts that give the same value to every key hold the same
    items. *)
Lemma get_permutation {V : Type} (d1 d2 : Py.dict V) :
  NoDup (map fst d1) -> NoDup (map fst d2) ->
  (forall k, Py.get k d1 = Py.get k d2) ->
  Permutation d1 d2.
Proof.
  intros H1 H2 Hget.
  apply NoDup_Permutation.
  - apply NoDup_map_inv with (f := fst); exact H1.
  - apply NoDup_map_inv with (f := fst); exact H2.
  - intros [k v]; rewrite <- !get_in by assumption.
    rewrite Hget; reflexivity.
Qed.

Lemma get_map_values {V W : Type} (f : V -> W) (k : string) (d : Py.dict V) :
  Py.get k (map (fun kv => (fst kv, f (snd kv))) d)
  = option_map f (Py.get k d).
Proof.
  induction d as [| [k' v'] d IH]; simpl; [reflexivity |].
  destruct (String.eqb k k'); [reflexivity | exact IH].
Qed.

(** The sorting step gives one result for two dicts that hold, under
    every key, values that are sorted into one value. *)
Lemma sort_value_unique (d1 d2 : Py.dict sub_headings) :
  NoDup (map fst d1) -> NoDup (map fst d2) ->
  (forall k, option_map sort_sub_value (Py.get k d1)
             = option_map sort_sub_value (Py.get k d2)) ->
  sort_value d1 = sort_value d2.
Proof.
  intros H1 H2 Hget; unfold sort_value.
  set (n := fun d : Py.dict sub_headings =>
              map (fun kv => (fst kv, sort_sub_value (snd kv))) d).
  assert (Hkeys : forall d, map fst (n d) = map fst d).
  { intro d; unfold n; rewrite map_map; reflexivity. }
  assert (Hperm : Permutation (n d1) (n d2)).
  { apply get_permutation; rewrite ?Hkeys; try assumption.
    intro k; unfold n; rewrite !get_map_values; apply Hget. }
  apply (sorted_unique (string * sub_headings) fst).
  - apply sorted_items_sorted.
  - apply sorted_items_sorted.
  - apply (Permutation_NoDup (l := map fst (n d2))).
    + apply Permutation_map, Permutation_sym, sorted_items_perm.
    + rewrite Hkeys; exact H2.
  - rewrite !sorted_items_perm; exact Hperm.
Qed.

Lemma filter_permutation {A : Type} (f : A -> bool) (l1 l2 : list A) :
  Permutation l1 l2 -> Permutation (filter f l1) (filter f l2).
Proof.
  induction 1 as [| x l1 l2 _ IH | x y l | l1 l2 l3 _ IH1 _ IH2]; simpl.
  - constructor.
  - destruct (f x); [constructor |]; exact IH.
  - destruct (f x), (f y); try reflexivity; apply perm_swap.
  - rewrite IH1; exact IH2.
Qed.

Lemma group_permutation (DATA1 DATA2 : log) (c s : string) :
  Permutation DATA1 DATA2 ->
  Permutation (group DATA1 c s) (group DATA2 c s).
Proof.
  intro H; unfold group; apply Permutation_map, filter_permutation; exact H.
Qed.

Lemma group_ok_opens (s first : string) (rest : list string) :
  group_ok s (first :: rest) = true -> first = s ->
  forall t, In t (first :: rest) -> t = s.
Proof.
  intros Hok -> t; cbn [group_ok] in Hok.
  rewrite String.eqb_refl in Hok; cbn [negb orb] in Hok.
  rewrite forallb_forall in Hok.
  intros [<- | Hin]; [reflexivity |].
  apply String.eqb_eq, Hok, Hin.
Qed.

(** Up to the order of the titles, what is kept under a specificity does
    not depend on the order of its group. *)
Lemma kept_under_permutation (s : string) (g1 g2 : list string) :
  Permutation g1 g2 ->
  group_ok s g1 = true -> group_ok s g2 = true ->
  option_map sort_sub_value (kept_under s g1)
  = option_map sort_sub_value (kept_under s g2).
Proof.
  intros Hperm Hok1 Hok2.
  destruct g1 as [| f1 r1].
  { apply Permutation_nil in Hperm; subst g2; reflexivity. }
  destruct g2 as [| f2 r2].
  { apply Permutation_sym, Permutation_nil in Hperm; discriminate. }
  unfold kept_under.
  destruct (String.eqb_spec f1 s) as [E1 | N1];
    destruct (String.eqb_spec f2 s) as [E2 | N2].
  - reflexivity.
  - destruct N2; apply (group_ok_opens s f1 r1 Hok1 E1).
    apply Permutation_in with (l := f2 :: r2);
      [apply Permutation_sym; exact Hperm | left; reflexivity].
  - destruct N1; apply (group_ok_opens s f2 r2 Hok2 E2).
    apply Permutation_in with (l := f1 :: r1);
      [exact Hperm | left; reflexivity].
  - cbn [option_map sort_sub_value]; do 2 f_equal.
    set (keep := fun t : string => negb (String.eqb t s)).
    destruct (first_occurrences_spec (filter keep (f1 :: r1))) as [Hnd1 Hin1].
    destruct (first_occurrences_spec (filter keep (f2 :: r2))) as [Hnd2 Hin2].
    apply (sorted_unique string (fun t => t)).
    + apply sort_str_sorted.
    + apply sort_str_sorted.
    + rewrite map_id.
      apply (Permutation_NoDup (l := first_occurrences (filter keep (f2 :: r2))));
        [apply Permutation_sym, sort_str_perm | exact Hnd2].
    + rewrite !sort_str_perm.
      apply NoDup_Permutation; [exact Hnd1 | exact Hnd2 |].
      intro t; rewrite Hin1, Hin2, !filter_In.
      split; intros [Hin Hkeep]; (split; [| exact Hkeep]).
      * apply Permutation_in with (l := f1 :: r1); assumption.
      * apply Permutation_in with (l := f2 :: r2);
          [apply Permutation_sym |]; assumption.
Qed.

Lemma extract_sorted_unique (DATA1 DATA2 : log)
    (toc1 toc2 : table_of_content_t) :
  Permutation DATA1 DATA2 ->
  extract DATA1 skeleton = Ok toc1 ->
  extract DATA2 skeleton = Ok toc2 ->
  sort_table toc1 = sort_table toc2.
Proof.
  intros Hperm Hrun1 Hrun2.
  destruct (extract_spec DATA1) as [[[_ Hok1] [t1 [R1 Hkept1]]] | [_ Hfail]];
    [| destruct (Hfail toc1 Hrun1)].
  destruct (extract_spec DATA2) as [[[_ Hok2] [t2 [R2 Hkept2]]] | [_ Hfail]];
    [| destruct (Hfail toc2 Hrun2)].
  rewrite Hrun1 in R1; injection R1 as <-.
  rewrite Hrun2 in R2; injection R2 as <-.
  destruct (nodup_extract DATA1 [] [] [] toc1)
    as [a1 [b1 [c1 [E1 [Na1 [Nb1 Nc1]]]]]];
    [constructor | constructor | constructor | exact Hrun1 |].
  destruct (nodup_extract DATA2 [] [] [] toc2)
    as [a2 [b2 [c2 [E2 [Na2 [Nb2 Nc2]]]]]];
    [constructor | constructor | constructor | exact Hrun2 |].
  destruct Hkept1 as [a1' [b1' [c1' [E1' [Ha1 [Hb1 Hc1]]]]]].
  destruct Hkept2 as [a2' [b2' [c2' [E2' [Ha2 [Hb2 Hc2]]]]]].
  rewrite E1 in E1'; injection E1' as <- <- <-.
  rewrite E2 in E2'; injection E2' as <- <- <-.
  subst toc1 toc2; unfold sort_table, categories; cbn [map fst snd].
  rewrite (sort_value_unique a1 a2), (sort_value_unique b1 b2),
    (sort_value_unique c1 c2); try assumption; try reflexivity.
  - intro k; rewrite Hc1, Hc2.
    apply kept_under_permutation;
      [apply group_permutation; exact Hperm | apply Hok1 | apply Hok2].
  - intro k; rewrite Hb1, Hb2.
    apply kept_under_permutation;
      [apply group_permutation; exact Hperm | apply Hok1 | apply Hok2].
  - intro k; rewrite Ha1, Ha2.
    apply kept_under_permutation;
      [apply group_permutation; exact Hperm | apply Hok1 | apply Hok2].
Qed.

(** X17.  The outline does not depend on the order of the entries of the
    log: two logs that hold the same entries, each as many times, and on
    which the rendering ends well, give the same lines, with or without a
    filter. *)
Theorem outline_order_independent (cond : condition) (DATA1 DATA2 : log)
    (outline1 outline2 : list string) :
  Permutation DATA1 DATA2 ->
  content_lines cond DATA1 = Ok outline1 ->
  content_lines cond DATA2 = Ok outline2 ->
  outline1 = outline2.
Proof.
  intro Hperm; unfold content_lines.
  destruct (extract DATA1 skeleton) as [toc1 | |] eqn:Hrun1;
    cbn [bind]; try discriminate.
  destruct (extract DATA2 skeleton) as [toc2 | |] eqn:Hrun2;
    cbn [bind]; try discriminate.
  intros E1 E2; injection E1 as <-; injection E2 as <-.
  rewrite (extract_sorted_unique DATA1 DATA2 toc1 toc2 Hperm Hrun1 Hrun2).
  reflexivity.
Qed.

(** Two entries of one group, and an entry of another category, in two
    orders. *)
Lemma outline_order_independent_witness :
  exists outline,
    content_lines None
      [("QuickSort"%string, sample "Theory" "Sorting");
       ("BubbleSort"%string, sample "Theory" "Sorting");
       ("TwoSum"%string, sample "Solved-Problems" "Arrays")] = Ok outline
    /\ content_lines None
         [("TwoSum"%string, sample "Solved-Problems" "Arrays");
          ("BubbleSort"%string, sample "Theory" "Sorting");
          ("QuickSort"%string, sample "Theory" "Sorting")] = Ok outline.
Proof.
  set (DATA1 := [("QuickSort"%string, sample "Theory" "Sorting");
                 ("BubbleSort"%string, sample "Theory" "Sorting");
                 ("TwoSum"%string, sample "Solved-Problems" "Arrays")]).
  destruct (content_lines None DATA1) as [o1 | |] eqn:E1;
    try (vm_compute in E1; discriminate).
  destruct (content_lines None (rev DATA1)) as [o2 | |] eqn:E2;
    try (vm_compute in E2; discriminate).
  exists o1; split; [reflexivity |].
  change (content_lines None (rev DATA1) = Ok o1).
  rewrite E2; f_equal; symmetry.
  apply (outline_order_independent None DATA1 (rev DATA1) o1 o2);
    [apply Permutation_rev | exact E1 | exact E2].
Defined.
